(** * Page-granular virtual-memory reservation layer (src/allocation.cc)

    A shallow embedding of the paged allocation functions and of the
    [VirtualMemory] reservation handle of [v8::internal], together with the
    properties the specification states about them.

    The page allocator and the platform are external collaborators: they are
    modelled as records of state-transforming functions over an abstract
    embedder state [W].  Handles live in a store indexed by locations, so that
    two pointers to the same handle alias.  Every call that leaves this
    translation unit is appended to a trace, with the contents of the handle
    store at the moment of the call. *)

From Stdlib Require Import ZArith List Bool Lia.
From stdpp Require Import base option gmap.

Local Open Scope Z_scope.

(** ** Machine integers *)

(** [size_t] and [Address] (a [uintptr_t]) are 64-bit unsigned integers; they
    are carried as [Z], and every arithmetic operation of the source is
    followed by its wrap-around. *)
Definition size_t := Z.
Definition Address := Z.

Definition kBitsPerPointer : Z := 64.

Definition wrap (x : Z) : Z := x mod 2 ^ kBitsPerPointer.

Definition is_word (x : Z) : Prop := 0 <= x < 2 ^ kBitsPerPointer.

(** A power of two that fits a machine word: what the page allocator contract
    promises of both granularities. *)
Definition is_pow2 (m : Z) : Prop :=
  exists k : Z, 0 <= k < kBitsPerPointer /\ m = 2 ^ k.

(** Modelled from the spec: [kNullAddress] (src/globals.h is absent), the
    "zero/null sentinel" of the data model. *)
Definition kNullAddress : Address := 0.

(** Modelled from the spec: [RoundUp] (src/utils.h is absent), "rounds up to
    the allocator's page granularity": the least multiple of [m] that is no
    less than [x], computed on machine words. *)
Definition RoundDown (x m : Z) : Z := x / m * m.

Definition RoundUp (x m : Z) : Z := RoundDown (wrap (x + m - 1)) m.

(** Modelled from the spec: [AlignedAddress] (src/utils.h is absent); the
    address hint must be "aligned to alignment", that is, equal to itself
    rounded down to a multiple of the alignment. *)
Definition AlignedAddress (address : Address) (alignment : size_t) : Address :=
  RoundDown address alignment.

(** Modelled from the spec: [IsAddressAligned] (src/utils.h is absent),
    "aligned to commit-page granularity". *)
Definition IsAddressAligned (addr : Address) (alignment : size_t) : bool :=
  addr mod alignment =? 0.

(** We will attempt allocation this many times. *)
Definition kAllocationTries : Z := 2.

(** ** The external collaborators *)

(** Modelled from the spec: [PageAllocator::Permission] (include/v8-platform.h
    is absent): "no-access, read-only, read-write, read-execute,
    read-write-execute". *)
Inductive Permission : Set :=
| kNoAccess
| kRead
| kReadWrite
| kReadExecute
| kReadWriteExecute.

#[global] Instance Permission_eq_dec : EqDecision Permission.
Proof. solve_decision. Defined.

(** A [v8::PageAllocator*] is either [nullptr] or names an allocator object. *)
Definition alloc_id := nat.
Definition PageAllocatorPtr := option alloc_id.

(** Locations of [VirtualMemory] objects. *)
Definition loc := nat.

(** The three fields of a [VirtualMemory]. *)
Record VirtualMemory : Set := mkVM {
  page_allocator_ : PageAllocatorPtr;
  address_ : Address;
  size_ : size_t
}.

(** Calls that leave the translation unit. *)
Inductive Call : Set :=
| CallAllocatePages (pa : alloc_id) (address : Address) (size alignment : size_t)
    (access : Permission)
| CallFreePages (pa : alloc_id) (address : Address) (size : size_t)
| CallReleasePages (pa : alloc_id) (address : Address) (size new_size : size_t)
| CallSetPermissions (pa : alloc_id) (address : Address) (size : size_t)
    (access : Permission)
| CallOnCriticalMemoryPressureLength (length : size_t)
| CallOnCriticalMemoryPressure
| CallLsanRegisterRootRegion (address : Address) (size : size_t)
| CallLsanUnregisterRootRegion (address : Address) (size : size_t).

(** One entry of the trace: the call, and the handle store as it was when
    the call was made. *)
Record Observation : Type := mkObs {
  ob_call : Call;
  ob_handles : gmap loc VirtualMemory
}.

(** Why a run stopped: a failed [CHECK], a failed [DCHECK], a call through
    [nullptr], or a [VirtualMemory*] that points to no object. *)
Inductive Fatal : Set :=
| CheckFailed
| DcheckFailed
| NullPointer
| WildPointer.

Inductive Outcome (A : Type) : Type :=
| Ok (a : A)
| Crash (f : Fatal).

Arguments Ok {A} a.
Arguments Crash {A} f.

(** Selectors on the trace. *)
Definition is_pressure_length (c : Call) : bool :=
  match c with CallOnCriticalMemoryPressureLength _ => true | _ => false end.

Definition is_allocate (c : Call) : bool :=
  match c with CallAllocatePages _ _ _ _ _ => true | _ => false end.

Definition is_lsan (c : Call) : bool :=
  match c with
  | CallLsanRegisterRootRegion _ _ | CallLsanUnregisterRootRegion _ _ => true
  | _ => false
  end.

Definition calls (t : list Observation) : list Call := map ob_call t.

Definition count_calls (p : Call -> bool) (t : list Observation) : nat :=
  length (List.filter p (calls t)).

(** The sizes handed to the sized pressure notification, in order. *)
Definition pressure_lengths (t : list Observation) : list size_t :=
  flat_map (fun c => match c with
                     | CallOnCriticalMemoryPressureLength n => n :: nil
                     | _ => nil
                     end) (calls t).

(** The permissions requested from the page allocator, in order. *)
Definition allocate_permissions (t : list Observation) : list Permission :=
  flat_map (fun c => match c with
                     | CallAllocatePages _ _ _ _ p => p :: nil
                     | _ => nil
                     end) (calls t).

Section Allocation.

(** The state of the embedder: address space, caches, whatever the page
    allocator and the platform act upon. *)
Context {W : Type}.

(** The [v8::PageAllocator] interface.  The granularities are stable for the
    process lifetime; the four primitives read and change the embedder state. *)
Record PageAllocator : Type := mkPA {
  pa_AllocatePageSize : size_t;
  pa_CommitPageSize : size_t;
  pa_AllocatePages : Address -> size_t -> size_t -> Permission -> W -> Address * W;
  pa_FreePages : Address -> size_t -> W -> bool * W;
  pa_ReleasePages : Address -> size_t -> size_t -> W -> bool * W;
  pa_SetPermissions : Address -> size_t -> Permission -> W -> bool * W
}.

(** The part of [v8::Platform] this file uses. *)
Record Platform : Type := mkPlatform {
  GetPageAllocator : PageAllocatorPtr;
  platform_OnCriticalMemoryPressure_length : size_t -> W -> bool * W;
  platform_OnCriticalMemoryPressure : W -> W
}.

(** The build and the process environment. *)
Record Env : Type := mkEnv {
  debug : bool;                     (* DCHECKs are compiled in *)
  leak_sanitizer : bool;            (* LEAK_SANITIZER is defined *)
  allocator_at : alloc_id -> PageAllocator;
  current_platform : Platform;      (* V8::GetCurrentPlatform() *)
  default_allocator : alloc_id      (* static v8::base::PageAllocator *)
}.

Record State : Type := mkState {
  handles : gmap loc VirtualMemory;
  world : W;
  trace : list Observation
}.

(** ** A state-and-failure monad *)

Definition M (A : Type) : Type := State -> Outcome A * State.

Definition ret {A} (a : A) : M A := fun s => (Ok a, s).

Definition crash {A} (f : Fatal) : M A := fun s => (Crash f, s).

Definition bind {A B} (m : M A) (k : A -> M B) : M B := fun s =>
  match m s with
  | (Ok a, s') => k a s'
  | (Crash f, s') => (Crash f, s')
  end.

End Allocation.

Arguments PageAllocator W : clear implicits.
Arguments Platform W : clear implicits.
Arguments Env W : clear implicits.
Arguments State W : clear implicits.
Arguments M W A : clear implicits.

Declare Scope vm_scope.
Delimit Scope vm_scope with vm.

Notation "'let*' x ':=' m 'in' k" := (bind m (fun x => k))
  (at level 10, x name, m at level 100, k at level 200) : vm_scope.
Notation "m '>>' k" := (bind m (fun _ => k))
  (at level 90, right associativity) : vm_scope.

Local Open Scope vm_scope.

Section Operations.

Context {W : Type}.
Variable E : Env W.

Local Abbreviation M := (M W).

(** ** Assertions, pointers and the handle store *)

(** [CHECK] is compiled into every build. *)
Definition CHECK (c : M bool) : M unit :=
  let* b := c in if b then ret tt else crash CheckFailed.

(** [DCHECK] is compiled into debug builds only; elsewhere its condition is
    not evaluated. *)
Definition DCHECK (c : M bool) : M unit :=
  if debug E
  then let* b := c in if b then ret tt else crash DcheckFailed
  else ret tt.

(** [page_allocator->...]: a call through [nullptr] stops the run. *)
Definition deref (p : PageAllocatorPtr) : M alloc_id :=
  match p with
  | Some a => ret a
  | None => crash NullPointer
  end.

(** The allocator object a non-null pointer names. *)
Local Abbreviation obj a := (allocator_at E a).

Definition is_null (p : PageAllocatorPtr) : bool :=
  match p with Some _ => false | None => true end.

(** [page_allocator == GetPlatformPageAllocator()] *)
Definition ptr_eqb (p : PageAllocatorPtr) (a : alloc_id) : bool :=
  match p with Some b => Nat.eqb b a | None => false end.

(** Reading and writing the fields of the object at [this]. *)
Definition load (this : loc) : M VirtualMemory := fun s =>
  match handles s !! this with
  | Some vm => (Ok vm, s)
  | None => (Crash WildPointer, s)
  end.

Definition store (this : loc) (vm : VirtualMemory) : M unit := fun s =>
  (Ok tt, mkState (<[this := vm]> (handles s)) (world s) (trace s)).

Definition set_page_allocator_ (this : loc) (p : PageAllocatorPtr) : M unit :=
  let* vm := load this in store this (mkVM p (address_ vm) (size_ vm)).

Definition set_address_ (this : loc) (a : Address) : M unit :=
  let* vm := load this in store this (mkVM (page_allocator_ vm) a (size_ vm)).

Definition set_size_ (this : loc) (n : size_t) : M unit :=
  let* vm := load this in store this (mkVM (page_allocator_ vm) (address_ vm) n).

(** A call that leaves the translation unit: the callee acts on the embedder
    state, and the call is recorded with the handle store of that moment. *)
Definition invoke {A} (c : Call) (f : W -> A * W) : M A := fun s =>
  let (a, w) := f (world s) in
  (Ok a, mkState (handles s) w (trace s ++ mkObs c (handles s) :: nil)).

(** A leak-sanitizer hook: recorded, without effect on the embedder state. *)
Definition lsan (c : Call) : M unit := invoke c (fun w => (tt, w)).

(** ** The platform allocator singleton *)

(** [InitializePageAllocator::Construct]: the platform's allocator, or the
    built-in default when the platform has none. *)
Definition InitializePageAllocator : alloc_id :=
  match GetPageAllocator (current_platform E) with
  | Some a => a
  | None => default_allocator E
  end.

(** [GetPlatformPageAllocator]: the lazily initialised instance, which is
    never null. *)
Definition GetPlatformPageAllocator : alloc_id := InitializePageAllocator.

Definition AllocatePageSize : size_t :=
  pa_AllocatePageSize (allocator_at E GetPlatformPageAllocator).

Definition CommitPageSize : size_t :=
  pa_CommitPageSize (allocator_at E GetPlatformPageAllocator).

(** ** Memory pressure *)

(** [OnCriticalMemoryPressure(size_t length)]: the sized overload of the
    platform first, the parameterless one when that reports false; the
    answer is true in both cases. *)
Definition OnCriticalMemoryPressure (length : size_t) : M bool :=
  let* freed := invoke (CallOnCriticalMemoryPressureLength length)
                  (platform_OnCriticalMemoryPressure_length (current_platform E) length) in
  (if negb freed
   then invoke CallOnCriticalMemoryPressure
          (fun w => (tt, platform_OnCriticalMemoryPressure (current_platform E) w))
   else ret tt) >>
  ret true.

(** ** Paged allocation functions *)

(** The body of the retry loop of [AllocatePages], [tries] iterations being
    left; [result] is the variable of that name. *)
Fixpoint AllocatePages_loop (tries : nat) (page_allocator : PageAllocatorPtr)
    (address : Address) (size alignment : size_t) (access : Permission)
    (result : Address) : M Address :=
  match tries with
  | O => ret result
  | S tries' =>
      let* pa := deref page_allocator in
      let* result := invoke
            (CallAllocatePages pa address size alignment access)
            (pa_AllocatePages (obj pa) address size alignment access) in
      if negb (result =? kNullAddress) then ret result
      else
        let* pa := deref page_allocator in
        let request_size := wrap (wrap (size + alignment) - pa_AllocatePageSize (obj pa)) in
        let* relieved := OnCriticalMemoryPressure request_size in
        if negb relieved then ret result
        else AllocatePages_loop tries' page_allocator address size alignment access result
  end.

Definition AllocatePages (page_allocator : PageAllocatorPtr) (address : Address)
    (size alignment : size_t) (access : Permission) : M Address :=
  DCHECK (ret (negb (is_null page_allocator))) >>
  DCHECK (ret (address =? AlignedAddress address alignment)) >>
  DCHECK (let* pa := deref page_allocator in
          ret (0 =? Z.land size (wrap (pa_AllocatePageSize (obj pa) - 1)))) >>
  let* result :=
    AllocatePages_loop (Z.to_nat kAllocationTries) page_allocator address size
      alignment access kNullAddress in
  (if leak_sanitizer E && negb (result =? kNullAddress)
      && ptr_eqb page_allocator GetPlatformPageAllocator
   then lsan (CallLsanRegisterRootRegion result size)
   else ret tt) >>
  ret result.

Definition FreePages (page_allocator : PageAllocatorPtr) (address : Address)
    (size : size_t) : M bool :=
  DCHECK (ret (negb (is_null page_allocator))) >>
  DCHECK (let* pa := deref page_allocator in
          ret (0 =? Z.land size (wrap (pa_AllocatePageSize (obj pa) - 1)))) >>
  let* pa := deref page_allocator in
  let* result := invoke (CallFreePages pa address size)
                   (pa_FreePages (obj pa) address size) in
  (if leak_sanitizer E && result && ptr_eqb page_allocator GetPlatformPageAllocator
   then lsan (CallLsanUnregisterRootRegion address size)
   else ret tt) >>
  ret result.

Definition ReleasePages (page_allocator : PageAllocatorPtr) (address : Address)
    (size new_size : size_t) : M bool :=
  DCHECK (ret (negb (is_null page_allocator))) >>
  DCHECK (ret (new_size <? size)) >>
  let* pa := deref page_allocator in
  let* result := invoke
        (CallReleasePages pa address size new_size)
        (pa_ReleasePages (obj pa) address size new_size) in
  (if leak_sanitizer E && result && ptr_eqb page_allocator GetPlatformPageAllocator
   then lsan (CallLsanUnregisterRootRegion address size) >>
        lsan (CallLsanRegisterRootRegion address new_size)
   else ret tt) >>
  ret result.

Definition SetPermissions (page_allocator : PageAllocatorPtr) (address : Address)
    (size : size_t) (access : Permission) : M bool :=
  DCHECK (ret (negb (is_null page_allocator))) >>
  let* pa := deref page_allocator in
  invoke (CallSetPermissions pa address size access)
    (pa_SetPermissions (obj pa) address size access).

(** [AllocatePage]: the out-parameter [*allocated] is threaded through; it
    is written on success only. *)
Definition AllocatePage (page_allocator : PageAllocatorPtr) (address : Address)
    (allocated : size_t) : M (Address * size_t) :=
  DCHECK (ret (negb (is_null page_allocator))) >>
  let* pa := deref page_allocator in
  let page_size := pa_AllocatePageSize (obj pa) in
  let* result := AllocatePages page_allocator address page_size page_size kReadWrite in
  if negb (result =? kNullAddress) then ret (result, page_size)
  else ret (result, allocated).

(** ** The reservation handle *)

(** Modelled from the spec: [VirtualMemory::IsReserved] (src/allocation.h is
    absent): the null base address "means not reserved". *)
Definition IsReserved (vm : VirtualMemory) : bool :=
  negb (address_ vm =? kNullAddress).

(** Modelled from the spec: [VirtualMemory::InVM] (src/allocation.h is
    absent): "the target [address, address+size) sub-range lies entirely
    within the handle's reserved range", both ends computed on machine
    words. *)
Definition InVM (vm : VirtualMemory) (address : Address) (size : size_t) : bool :=
  (address_ vm <=? address)
  && (wrap (address + size) <=? wrap (address_ vm + size_ vm)).

(** The state [Reset] leaves behind. *)
Definition empty_vm : VirtualMemory := mkVM None kNullAddress 0.

Definition VirtualMemory_Reset (this : loc) : M unit :=
  set_page_allocator_ this None >>
  set_address_ this kNullAddress >>
  set_size_ this 0.

(** The allocating constructor; the object is built at [this].  The member
    initialisers come first. *)
Definition VirtualMemory_VirtualMemory (this : loc) (page_allocator : PageAllocatorPtr)
    (size : size_t) (hint : Address) (alignment : size_t) : M unit :=
  store this (mkVM page_allocator kNullAddress 0) >>
  DCHECK (ret (negb (is_null page_allocator))) >>
  let* vm := load this in
  let* pa := deref (page_allocator_ vm) in
  let page_size := pa_AllocatePageSize (obj pa) in
  let alignment := RoundUp alignment page_size in
  let size := RoundUp size page_size in
  let* vm := load this in
  let* result := AllocatePages (page_allocator_ vm) hint size alignment kNoAccess in
  set_address_ this result >>
  let* vm := load this in
  if negb (address_ vm =? kNullAddress) then set_size_ this size else ret tt.

Definition VirtualMemory_SetPermissions (this : loc) (address : Address)
    (size : size_t) (access : Permission) : M bool :=
  CHECK (let* vm := load this in ret (InVM vm address size)) >>
  let* vm := load this in
  let* result := SetPermissions (page_allocator_ vm) address size access in
  DCHECK (ret result) >>
  ret result.

Definition VirtualMemory_Release (this : loc) (free_start : Address) : M size_t :=
  DCHECK (let* vm := load this in ret (IsReserved vm)) >>
  DCHECK (let* vm := load this in
          let* pa := deref (page_allocator_ vm) in
          ret (IsAddressAligned free_start (pa_CommitPageSize (obj pa)))) >>
  (* Notice: Order is important here. The VirtualMemory object might live
     inside the allocated region. *)
  let* vm := load this in
  let free_size := wrap (size_ vm - wrap (free_start - address_ vm)) in
  let old_size := size_ vm in
  CHECK (let* vm := load this in ret (InVM vm free_start free_size)) >>
  DCHECK (let* vm := load this in ret (address_ vm <? free_start)) >>
  DCHECK (let* vm := load this in
          ret (free_start <? wrap (address_ vm + size_ vm))) >>
  (let* vm := load this in set_size_ this (wrap (size_ vm - free_size))) >>
  CHECK (let* vm := load this in
         ReleasePages (page_allocator_ vm) (address_ vm) old_size (size_ vm)) >>
  ret free_size.

Definition VirtualMemory_Free (this : loc) : M unit :=
  DCHECK (let* vm := load this in ret (IsReserved vm)) >>
  (* Notice: Order is important here. The VirtualMemory object might live
     inside the allocated region. *)
  let* vm := load this in
  let page_allocator := page_allocator_ vm in
  let address := address_ vm in
  let size := size_ vm in
  CHECK (let* vm := load this in ret (InVM vm address size)) >>
  VirtualMemory_Reset this >>
  (* FreePages expects size to be aligned to allocation granularity. Trimming
     may leave size at only commit granularity. Align it here. *)
  CHECK (let* pa := deref page_allocator in
         FreePages page_allocator address
           (RoundUp size (pa_AllocatePageSize (obj pa)))).

Definition VirtualMemory_TakeControl (this from : loc) : M unit :=
  DCHECK (let* vm := load this in ret (negb (IsReserved vm))) >>
  (let* f := load from in set_page_allocator_ this (page_allocator_ f)) >>
  (let* f := load from in set_address_ this (address_ f)) >>
  (let* f := load from in set_size_ this (size_ f)) >>
  VirtualMemory_Reset from.

(** The destructor; the storage of the object is given back afterwards. *)
Definition VirtualMemory_destroy (this : loc) : M unit :=
  let* vm := load this in
  (if IsReserved vm then VirtualMemory_Free this else ret tt) >>
  fun s => (Ok tt, mkState (delete this (handles s)) (world s) (trace s)).

(** [AlignedAllocVirtualMemory]: the local [vm] is built at a location of
    its own, [vm_loc], and destroyed when the function returns. *)
Definition AlignedAllocVirtualMemory (vm_loc : loc) (page_allocator : PageAllocatorPtr)
    (size alignment : size_t) (hint : Address) (result : loc) : M bool :=
  VirtualMemory_VirtualMemory vm_loc page_allocator size hint alignment >>
  let* vm := load vm_loc in
  if IsReserved vm
  then VirtualMemory_TakeControl result vm_loc >>
       VirtualMemory_destroy vm_loc >> ret true
  else VirtualMemory_destroy vm_loc >> ret false.

End Operations.

(** ** Vocabulary of the statements *)

Section Vocabulary.

Context {W : Type}.
Variable E : Env W.

(** The state right after a call [c] that left the embedder state at [w]. *)
Definition called (c : Call) (w : W) (s : State W) : State W :=
  mkState (handles s) w (trace s ++ mkObs c (handles s) :: nil).

(** The state after the calls [cs], none of which changes the embedder
    state. *)
Definition noted (cs : list Call) (s : State W) : State W :=
  mkState (handles s) (world s)
    (trace s ++ map (fun c => mkObs c (handles s)) cs).

(** The state with the object at [this] replaced. *)
Definition stored (this : loc) (vm : VirtualMemory) (s : State W) : State W :=
  mkState (<[this := vm]> (handles s)) (world s) (trace s).

(** The state one memory-pressure notification leaves behind. *)
Definition pressed (length : size_t) (s : State W) : State W :=
  let p := current_platform E in
  let sized := platform_OnCriticalMemoryPressure_length p length (world s) in
  let s1 := called (CallOnCriticalMemoryPressureLength length) (snd sized) s in
  if fst sized then s1
  else called CallOnCriticalMemoryPressure
         (platform_OnCriticalMemoryPressure p (snd sized)) s1.

(** The state one attempt of the page allocator [a] leaves behind, and the
    address it answers. *)
Definition attempt_result (a : alloc_id) (address : Address)
    (size alignment : size_t) (access : Permission) (s : State W) : Address :=
  fst (pa_AllocatePages (allocator_at E a) address size alignment access (world s)).

Definition attempted (a : alloc_id) (address : Address)
    (size alignment : size_t) (access : Permission) (s : State W) : State W :=
  called (CallAllocatePages a address size alignment access)
    (snd (pa_AllocatePages (allocator_at E a) address size alignment access (world s)))
    s.

(** The size handed to the pressure notification by [AllocatePages]. *)
Definition request_size_of (a : alloc_id) (size alignment : size_t) : size_t :=
  wrap (size + alignment - pa_AllocatePageSize (allocator_at E a)).

(** What the [DCHECK]s of [AllocatePages] ask of its arguments. *)
Definition AllocatePages_requires (a : alloc_id) (address : Address)
    (size alignment : size_t) : Prop :=
  address = AlignedAddress address alignment /\
  Z.land size (wrap (pa_AllocatePageSize (allocator_at E a) - 1)) = 0.

(** What the [DCHECK]s met by the allocating constructor ask: a granularity
    that is a power of two, and a hint aligned to the rounded alignment. *)
Definition constructor_requires (a : alloc_id) (hint : Address)
    (alignment : size_t) : Prop :=
  is_pow2 (pa_AllocatePageSize (allocator_at E a)) /\
  hint = AlignedAddress hint
           (RoundUp alignment (pa_AllocatePageSize (allocator_at E a))).

(** The leak-sanitizer hooks run for allocator [a]. *)
Definition lsan_on (a : alloc_id) : bool :=
  leak_sanitizer E && Nat.eqb a (GetPlatformPageAllocator E).

(** The state [AllocatePages] ends in, given the state its loop ends in. *)
Definition registered (a : alloc_id) (result : Address) (size : size_t)
    (s : State W) : State W :=
  if lsan_on a && negb (result =? kNullAddress)
  then noted (CallLsanRegisterRootRegion result size :: nil) s
  else s.

(** The state [FreePages] ends in. *)
Definition freed (a : alloc_id) (address : Address) (size : size_t)
    (s : State W) : State W :=
  let r := pa_FreePages (allocator_at E a) address size (world s) in
  let s1 := called (CallFreePages a address size) (snd r) s in
  if lsan_on a && fst r
  then noted (CallLsanUnregisterRootRegion address size :: nil) s1
  else s1.

(** The state [ReleasePages] ends in. *)
Definition released (a : alloc_id) (address : Address) (size new_size : size_t)
    (s : State W) : State W :=
  let r := pa_ReleasePages (allocator_at E a) address size new_size (world s) in
  let s1 := called (CallReleasePages a address size new_size) (snd r) s in
  if lsan_on a && fst r
  then noted (CallLsanUnregisterRootRegion address size
              :: CallLsanRegisterRootRegion address new_size :: nil) s1
  else s1.

(** What was recorded between [s] and a later state [s']. *)
Definition since (s s' : State W) : list Observation :=
  skipn (length (trace s)) (trace s').

(** Every call a computation makes satisfies [P], however it ends. *)
Definition emits {A} (P : Call -> bool) (m : M W A) : Prop :=
  forall s, exists t,
    trace (snd (m s)) = trace s ++ t /\ forallb P (calls t) = true.

(** A computation that leaves every handle as it found it. *)
Definition quiet {A} (m : M W A) : Prop :=
  forall s, handles (snd (m s)) = handles s.

(** The calls [AllocatePages] may make. *)
Definition AllocatePages_call (a : alloc_id) (address : Address)
    (size alignment : size_t) (access : Permission) (c : Call) : bool :=
  match c with
  | CallAllocatePages a' address' size' alignment' access' =>
      Nat.eqb a' a && (address' =? address) && (size' =? size)
      && (alignment' =? alignment)
      && bool_decide (access' = access)
  | CallOnCriticalMemoryPressureLength n => n =? request_size_of a size alignment
  | CallOnCriticalMemoryPressure => true
  | CallLsanRegisterRootRegion _ size' => size' =? size
  | _ => false
  end.

End Vocabulary.

(** The data-model invariant as the specification words it. *)
Definition three_way (vm : VirtualMemory) : Prop :=
  (page_allocator_ vm = None <-> address_ vm = kNullAddress) /\
  (address_ vm = kNullAddress <-> size_ vm = 0).

(** The part of it that every operation keeps: address and size are null
    together, and a handle without allocator holds no address. *)
Definition two_way (vm : VirtualMemory) : Prop :=
  (address_ vm = kNullAddress <-> size_ vm = 0) /\
  (page_allocator_ vm = None -> address_ vm = kNullAddress).

(** At most one Reserved handle of the store describes a given range. *)
Definition exclusive (h : gmap loc VirtualMemory) : Prop :=
  forall l1 l2 vm1 vm2,
    h !! l1 = Some vm1 -> h !! l2 = Some vm2 ->
    address_ vm1 <> kNullAddress -> address_ vm1 = address_ vm2 ->
    l1 = l2.

(** ** The operations on a handle *)

Inductive Operation : Set :=
| OpConstruct (this : loc) (a : alloc_id) (size : size_t) (hint : Address)
    (alignment : size_t)
| OpFree (this : loc)
| OpRelease (this : loc) (free_start : Address)
| OpTakeControl (this from : loc)
| OpReset (this : loc).

Section Operate.

Context {W : Type}.
Variable E : Env W.

Definition perform (op : Operation) : M W unit :=
  match op with
  | OpConstruct this a size hint alignment =>
      VirtualMemory_VirtualMemory E this (Some a) size hint alignment
  | OpFree this => VirtualMemory_Free E this
  | OpRelease this free_start =>
      let* _ := VirtualMemory_Release E this free_start in ret tt
  | OpTakeControl this from => VirtualMemory_TakeControl E this from
  | OpReset this => VirtualMemory_Reset this
  end.

(** The preconditions the operations are called under: a constructor whose
    rounded size is not zero, a Reserved handle for [Free] and [Release], a
    [free_start] strictly inside the range and aligned for [Release], a
    Reserved source and an Empty destination for [TakeControl]. *)
Definition operation_requires (op : Operation) (s : State W) : Prop :=
  match op with
  | OpConstruct this a size hint alignment =>
      RoundUp size (pa_AllocatePageSize (allocator_at E a)) <> 0
  | OpFree this =>
      exists vm, handles s !! this = Some vm /\ IsReserved vm = true
  | OpRelease this free_start =>
      exists vm, handles s !! this = Some vm /\ IsReserved vm = true /\
        is_word (address_ vm) /\ is_word (size_ vm) /\
        is_word (address_ vm + size_ vm) /\
        address_ vm < free_start /\ free_start < address_ vm + size_ vm /\
        (forall a, page_allocator_ vm = Some a ->
           IsAddressAligned free_start (pa_CommitPageSize (allocator_at E a)) = true)
  | OpTakeControl this from =>
      exists vmA vmB, handles s !! from = Some vmA /\ handles s !! this = Some vmB /\
        IsReserved vmA = true /\ IsReserved vmB = false
  | OpReset this => True
  end.

(** The one state an operation leaves a handle in that is not within the
    three-way equivalence: a constructor whose reservation failed keeps the
    allocator it was given. *)
Definition failed_construction (op : Operation) (l : loc) (vm : VirtualMemory) : Prop :=
  exists a size hint alignment,
    op = OpConstruct l a size hint alignment /\
    vm = mkVM (Some a) kNullAddress 0.

End Operate.

(** ** Simulated collaborators

    A small embedder whose state counts the allocation attempts made so
    far; used to run the functions above on concrete inputs. *)
Module Sim.

Definition World : Type := nat.

Definition region : Address := 65536.

(** Always hands out [region]. *)
Definition steady : PageAllocator World :=
  mkPA 4096 4096
    (fun _ _ _ _ w => (region, S w))
    (fun _ _ w => (true, w))
    (fun _ _ _ w => (true, w))
    (fun _ _ _ w => (true, w)).

(** Fails the first attempt of the process and succeeds afterwards. *)
Definition flaky : PageAllocator World :=
  mkPA 4096 4096
    (fun _ _ _ _ w => (if Nat.eqb w 0 then kNullAddress else region, S w))
    (fun _ _ w => (true, w))
    (fun _ _ _ w => (true, w))
    (fun _ _ _ w => (true, w)).

(** Fails every attempt. *)
Definition exhausted : PageAllocator World :=
  mkPA 4096 4096
    (fun _ _ _ _ w => (kNullAddress, S w))
    (fun _ _ w => (true, w))
    (fun _ _ _ w => (true, w))
    (fun _ _ _ w => (true, w)).

(** Allocates, and then refuses to free, release or protect. *)
Definition faulty : PageAllocator World :=
  mkPA 4096 4096
    (fun _ _ _ _ w => (region, S w))
    (fun _ _ w => (false, w))
    (fun _ _ _ w => (false, w))
    (fun _ _ _ w => (false, w)).

Definition allocators (a : alloc_id) : PageAllocator World :=
  match a with
  | 0%nat => steady
  | 1%nat => flaky
  | 2%nat => exhausted
  | _ => faulty
  end.

(** A platform without the sized notification: it reports false, and the
    parameterless overload is used. *)
Definition legacy_platform : Platform World :=
  mkPlatform (Some 0%nat) (fun _ w => (false, w)) (fun w => w).

(** A platform whose sized notification reports true. *)
Definition modern_platform : Platform World :=
  mkPlatform None (fun _ w => (true, w)) (fun w => w).

Definition debug_env : Env World :=
  mkEnv true true allocators legacy_platform 0%nat.

Definition release_env : Env World :=
  mkEnv false false allocators modern_platform 0%nat.

Definition boot : State World := mkState ∅ 0%nat nil.

(** A store with one reserved handle of three pages at location 0 and an
    empty handle at location 1. *)
Definition reserved3 : VirtualMemory := mkVM (Some 0%nat) region 12288.

Definition two_handles : State World :=
  mkState (<[1%nat := empty_vm]> (<[0%nat := reserved3]> ∅)) 1%nat nil.

End Sim.


(** ** Heap allocation

    [AllocWithRetry], [AlignedAlloc] and [Malloced] sit on the C library,
    a further collaborator acting on the embedder state.  Its calls are not
    part of the trace. *)

(** Where [V8::FatalProcessOutOfMemory] was called from: the locations
    "Malloced operator new" and "AlignedAlloc". *)
Inductive OomLocation : Set :=
| MallocedOperatorNew
| AlignedAllocLocation.

(** How a function that may report a fatal out-of-memory condition ends. *)
Inductive Exit (A : Type) : Type :=
| Returned (a : A)
| FatalProcessOutOfMemory (location : OomLocation).

Arguments Returned {A} a.
Arguments FatalProcessOutOfMemory {A} location.

Section Heap.

Context {W : Type}.

(** [malloc], [free] and [posix_memalign]; the latter answers its return
    code and what it left in [*memptr]. *)
Record Libc : Type := mkLibc {
  libc_malloc : size_t -> W -> Address * W;
  libc_free : Address -> W -> W;
  libc_posix_memalign : size_t -> size_t -> W -> (Z * Address) * W
}.

Variable E : Env W.
Variable L : Libc.

(** [V8_ALIGNOF] of a pointer and [base::bits::IsPowerOfTwo], which the
    [DCHECK]s of [AlignedAlloc] use (src/base is absent). *)
Variable alignof_pointer : size_t.
Variable IsPowerOfTwo : size_t -> bool.

(** A call into the C library. *)
Definition libc_call {A} (f : W -> A * W) : M W A := fun s =>
  let (a, w) := f (world s) in
  (Ok a, mkState (handles s) w (trace s)).

(** [AlignedAllocInternal], on a platform that is neither Windows nor
    Bionic. *)
Definition AlignedAllocInternal (size alignment : size_t) : M W Address :=
  let* r := libc_call (libc_posix_memalign L alignment size) in
  if negb (fst r =? 0) then ret kNullAddress else ret (snd r).

Fixpoint AllocWithRetry_loop (tries : nat) (size : size_t) (result : Address)
    : M W Address :=
  match tries with
  | O => ret result
  | S tries' =>
      let* result := libc_call (libc_malloc L size) in
      if negb (result =? kNullAddress) then ret result
      else
        let* relieved := OnCriticalMemoryPressure E size in
        if negb relieved then ret result
        else AllocWithRetry_loop tries' size result
  end.

Definition AllocWithRetry (size : size_t) : M W Address :=
  AllocWithRetry_loop (Z.to_nat kAllocationTries) size kNullAddress.

Definition Malloced_New (size : size_t) : M W (Exit Address) :=
  let* result := AllocWithRetry size in
  if result =? kNullAddress
  then ret (FatalProcessOutOfMemory MallocedOperatorNew)
  else ret (Returned result).

Definition Malloced_Delete (p : Address) : M W unit :=
  libc_call (fun w => (tt, libc_free L p w)).

Fixpoint AlignedAlloc_loop (tries : nat) (size alignment : size_t)
    (result : Address) : M W Address :=
  match tries with
  | O => ret result
  | S tries' =>
      let* result := AlignedAllocInternal size alignment in
      if negb (result =? kNullAddress) then ret result
      else
        let* relieved := OnCriticalMemoryPressure E (wrap (size + alignment)) in
        if negb relieved then ret result
        else AlignedAlloc_loop tries' size alignment result
  end.

Definition AlignedAlloc (size alignment : size_t) : M W (Exit Address) :=
  DCHECK E (ret (alignof_pointer <=? alignment)) >>
  DCHECK E (ret (IsPowerOfTwo alignment)) >>
  let* result :=
    AlignedAlloc_loop (Z.to_nat kAllocationTries) size alignment kNullAddress in
  if result =? kNullAddress
  then ret (FatalProcessOutOfMemory AlignedAllocLocation)
  else ret (Returned result).

Definition AlignedFree (ptr : Address) : M W unit :=
  libc_call (fun w => (tt, libc_free L ptr w)).

(** The state after a call into the C library that left the embedder state
    at [w]. *)
Definition returned_to (w : W) (s : State W) : State W :=
  mkState (handles s) w (trace s).

(** The answer and the state of one [malloc]. *)
Definition malloc_result (size : size_t) (s : State W) : Address :=
  fst (libc_malloc L size (world s)).

Definition malloced (size : size_t) (s : State W) : State W :=
  returned_to (snd (libc_malloc L size (world s))) s.

(** The answer and the state of one [AlignedAllocInternal]. *)
Definition memalign_result (size alignment : size_t) (s : State W) : Address :=
  let r := fst (libc_posix_memalign L alignment size (world s)) in
  if fst r =? 0 then snd r else kNullAddress.

Definition memaligned (size alignment : size_t) (s : State W) : State W :=
  returned_to (snd (libc_posix_memalign L alignment size (world s))) s.

End Heap.

Arguments Libc W : clear implicits.

(** ** Further vocabulary *)

Definition is_pressure (c : Call) : bool :=
  match c with
  | CallOnCriticalMemoryPressureLength _ | CallOnCriticalMemoryPressure => true
  | _ => false
  end.

Definition is_primitive (c : Call) : bool :=
  match c with
  | CallAllocatePages _ _ _ _ _ | CallFreePages _ _ _
  | CallReleasePages _ _ _ _ | CallSetPermissions _ _ _ _ => true
  | _ => false
  end.

(** The leak-sanitizer hooks among the calls, in order. *)
Definition lsan_calls (t : list Observation) : list Call :=
  List.filter is_lsan (calls t).

Section MoreVocabulary.

Context {W : Type}.

(** A computation that calls nothing and leaves the embedder state alone,
    however it ends. *)
Definition silent {A} (m : M W A) : Prop :=
  forall s, world (snd (m s)) = world s /\ trace (snd (m s)) = trace s.

(** A computation that writes no handle outside of [ls], however it ends. *)
Definition writes_only {A} (ls : list loc) (m : M W A) : Prop :=
  forall s l, ~ In l ls -> handles (snd (m s)) !! l = handles s !! l.

(** A run that stopped, leaving no mark: nothing called, nothing written. *)
Definition stopped {A} (run : Outcome A * State W) (s : State W) : Prop :=
  (exists f, fst run = Crash f) /\
  handles (snd run) = handles s /\
  world (snd run) = world s /\
  trace (snd run) = trace s.

End MoreVocabulary.

(** A C library whose [malloc] fails the first time and succeeds afterwards,
    and one that always fails; the embedder state counts the attempts. *)
Module SimHeap.

Definition block : Address := 4096.

Definition flaky_libc : Libc Sim.World :=
  mkLibc
    (fun _ w => (if Nat.eqb w 0 then kNullAddress else block, S w))
    (fun _ w => w)
    (fun _ _ w => (if Nat.eqb w 0 then (12, 7) else (0, block), S w)).

Definition exhausted_libc : Libc Sim.World :=
  mkLibc
    (fun _ w => (kNullAddress, S w))
    (fun _ w => w)
    (fun _ _ w => ((12, 7), S w)).

(** A power-of-two test to run [AlignedAlloc] with. *)
Definition IsPowerOfTwo (value : size_t) : bool :=
  (0 <? value) && (Z.land value (value - 1) =? 0).

End SimHeap.

(** * Properties *)

Section RunLemmas.

Context {W : Type}.
Variable E : Env W.

Lemma bind_Ok {A B} (m : M W A) (k : A -> M W B) s a s' :
  m s = (Ok a, s') -> bind m k s = k a s'.
Proof. intros H. unfold bind. now rewrite H. Qed.

Lemma bind_Crash {A B} (m : M W A) (k : A -> M W B) s f s' :
  m s = (Crash f, s') -> bind m k s = (Crash f, s').
Proof. intros H. unfold bind. now rewrite H. Qed.

Lemma invoke_run {A} (c : Call) (f : W -> A * W) (s : State W) :
  invoke c f s = (Ok (fst (f (world s))), called c (snd (f (world s))) s).
Proof. unfold invoke, called. now destruct (f (world s)). Qed.

Lemma OnCriticalMemoryPressure_run length s :
  OnCriticalMemoryPressure E length s = (Ok true, pressed E length s).
Proof.
  unfold OnCriticalMemoryPressure, pressed.
  erewrite bind_Ok by apply invoke_run.
  destruct (fst _); cbn [negb].
  - reflexivity.
  - erewrite bind_Ok by apply invoke_run. reflexivity.
Qed.

Lemma lsan_run (c : Call) (s : State W) :
  lsan c s = (Ok tt, noted (c :: nil) s).
Proof. unfold lsan. rewrite invoke_run. reflexivity. Qed.

Lemma noted_noted cs1 cs2 (s : State W) :
  noted cs2 (noted cs1 s) = noted (cs1 ++ cs2) s.
Proof. unfold noted. cbn. now rewrite map_app, app_assoc. Qed.

Lemma DCHECK_release (c : M W bool) s :
  debug E = false -> DCHECK E c s = (Ok tt, s).
Proof. intros H. unfold DCHECK. now rewrite H. Qed.

Lemma DCHECK_pass (c : M W bool) s :
  c s = (Ok true, s) -> DCHECK E c s = (Ok tt, s).
Proof.
  intros H. unfold DCHECK. destruct (debug E); [|reflexivity].
  now rewrite (bind_Ok _ _ _ _ _ H).
Qed.

Lemma DCHECK_fail (c : M W bool) s :
  debug E = true -> c s = (Ok false, s) -> DCHECK E c s = (Crash DcheckFailed, s).
Proof.
  intros Hd H. unfold DCHECK. rewrite Hd.
  now rewrite (bind_Ok _ _ _ _ _ H).
Qed.

Lemma CHECK_run (c : M W bool) s b s' :
  c s = (Ok b, s') ->
  CHECK c s = ((if b then Ok tt else Crash CheckFailed), s').
Proof. intros H. unfold CHECK. rewrite (bind_Ok _ _ _ _ _ H). now destruct b. Qed.

Lemma CHECK_pass (c : M W bool) s s' :
  c s = (Ok true, s') -> CHECK c s = (Ok tt, s').
Proof. intros H. unfold CHECK. now rewrite (bind_Ok _ _ _ _ _ H). Qed.

Lemma CHECK_fail (c : M W bool) s s' :
  c s = (Ok false, s') -> CHECK c s = (Crash CheckFailed, s').
Proof. intros H. unfold CHECK. now rewrite (bind_Ok _ _ _ _ _ H). Qed.

Lemma request_size_wrap (a : alloc_id) (size alignment : size_t) :
  wrap (wrap (size + alignment) - pa_AllocatePageSize (allocator_at E a))
  = request_size_of E a size alignment.
Proof. unfold request_size_of, wrap. apply Zminus_mod_idemp_l. Qed.

(** One turn of the retry loop. *)
Lemma AllocatePages_loop_step n a address size alignment access result s :
  AllocatePages_loop E (S n) (Some a) address size alignment access result s =
  if negb (attempt_result E a address size alignment access s =? kNullAddress)
  then (Ok (attempt_result E a address size alignment access s),
        attempted E a address size alignment access s)
  else AllocatePages_loop E n (Some a) address size alignment access
         (attempt_result E a address size alignment access s)
         (pressed E (request_size_of E a size alignment)
            (attempted E a address size alignment access s)).
Proof.
  cbn [AllocatePages_loop deref].
  unfold bind at 1. cbn [ret].
  erewrite bind_Ok by apply invoke_run.
  fold (attempt_result E a address size alignment access s).
  fold (attempted E a address size alignment access s).
  destruct (negb _); [reflexivity|].
  unfold bind at 1. cbn [ret].
  rewrite request_size_wrap.
  erewrite bind_Ok by apply OnCriticalMemoryPressure_run.
  reflexivity.
Qed.

(** The two turns [kAllocationTries] allows. *)
Lemma AllocatePages_loop_two a address size alignment access result s :
  AllocatePages_loop E (Z.to_nat kAllocationTries) (Some a) address size alignment
    access result s =
  let r1 := attempt_result E a address size alignment access s in
  let s1 := attempted E a address size alignment access s in
  if negb (r1 =? kNullAddress) then (Ok r1, s1)
  else
    let s2 := pressed E (request_size_of E a size alignment) s1 in
    let r2 := attempt_result E a address size alignment access s2 in
    let s3 := attempted E a address size alignment access s2 in
    if negb (r2 =? kNullAddress) then (Ok r2, s3)
    else (Ok r2, pressed E (request_size_of E a size alignment) s3).
Proof.
  change (Z.to_nat kAllocationTries) with 2%nat.
  rewrite AllocatePages_loop_step. cbv zeta.
  destruct (negb _); [reflexivity|].
  rewrite AllocatePages_loop_step.
  destruct (negb _); reflexivity.
Qed.

(** The loop never stops the run when the allocator pointer is not null. *)
Lemma AllocatePages_loop_Ok n a address size alignment access : forall result s,
  exists r s', AllocatePages_loop E n (Some a) address size alignment access result s
               = (Ok r, s').
Proof.
  induction n as [|n IH]; intros result s.
  - exists result, s. reflexivity.
  - rewrite AllocatePages_loop_step. destruct (negb _); eauto.
Qed.

Lemma AllocatePages_run a address size alignment access s r s' :
  (debug E = true -> AllocatePages_requires E a address size alignment) ->
  AllocatePages_loop E (Z.to_nat kAllocationTries) (Some a) address size alignment
    access kNullAddress s = (Ok r, s') ->
  AllocatePages E (Some a) address size alignment access s
  = (Ok r, registered E a r size s').
Proof.
  intros Hreq Hloop. unfold AllocatePages.
  assert (Hd : forall c, (debug E = true -> c s = (Ok true, s)) ->
                         DCHECK E c s = (Ok tt, s)).
  { intros c Hc. destruct (debug E) eqn:Hdbg.
    - apply DCHECK_pass; auto.
    - apply DCHECK_release; auto. }
  erewrite bind_Ok by (apply Hd; reflexivity).
  erewrite bind_Ok; cycle 1.
  { apply Hd. intros Hdbg. destruct (Hreq Hdbg) as [Ha _].
    unfold ret. rewrite <- Ha, Z.eqb_refl. reflexivity. }
  erewrite bind_Ok; cycle 1.
  { apply Hd. intros Hdbg. destruct (Hreq Hdbg) as [_ Hs].
    cbn [deref]. unfold bind, ret. rewrite Hs. reflexivity. }
  erewrite bind_Ok by apply Hloop.
  unfold registered, lsan_on. cbn [ptr_eqb].
  replace (leak_sanitizer E && negb (r =? kNullAddress)
           && Nat.eqb a (GetPlatformPageAllocator E))%bool
    with (leak_sanitizer E && Nat.eqb a (GetPlatformPageAllocator E)
          && negb (r =? kNullAddress))%bool
    by (destruct (leak_sanitizer E), (Nat.eqb _ _), (negb _); reflexivity).
  destruct (_ && _)%bool.
  - erewrite bind_Ok by apply lsan_run. reflexivity.
  - reflexivity.
Qed.

(** *** What a computation records *)

Lemma since_app (s s' : State W) t : trace s' = trace s ++ t -> since s s' = t.
Proof. intros H. unfold since. rewrite H. apply drop_app_length. Qed.

Lemma emits_since {A} P (m : M W A) s :
  emits P m -> forallb P (calls (since s (snd (m s)))) = true.
Proof. intros H. destruct (H s) as (t & Ht & HP). now rewrite (since_app _ _ _ Ht). Qed.

Lemma emits_ret {A} P (a : A) : emits P (ret a : M W A).
Proof. intros s. exists nil. cbn. now rewrite app_nil_r. Qed.

Lemma emits_crash {A} P f : emits P (crash f : M W A).
Proof. intros s. exists nil. cbn. now rewrite app_nil_r. Qed.

Lemma emits_bind {A B} P (m : M W A) (k : A -> M W B) :
  emits P m -> (forall a, emits P (k a)) -> emits P (bind m k).
Proof.
  intros Hm Hk s. unfold bind.
  destruct (Hm s) as (t1 & Ht1 & HP1).
  destruct (m s) as [[a|f] s1]; cbn [snd] in *.
  - destruct (Hk a s1) as (t2 & Ht2 & HP2).
    exists (t1 ++ t2). split.
    + rewrite Ht2, Ht1. now rewrite app_assoc.
    + unfold calls in *. rewrite map_app, forallb_app, HP1, HP2. reflexivity.
  - exists t1. auto.
Qed.

Lemma emits_bind_ret {A B} P (a : A) (k : A -> M W B) :
  emits P (k a) -> emits P (bind (ret a) k).
Proof. intros H s. exact (H s). Qed.

Lemma emits_bind_crash {A B} P f (k : A -> M W B) :
  emits P (bind (crash f) k).
Proof. intros s. exists nil. cbn. now rewrite app_nil_r. Qed.

Lemma emits_invoke {A} (P : Call -> bool) c (f : W -> A * W) :
  P c = true -> emits P (invoke c f).
Proof.
  intros Hc s. rewrite invoke_run. exists (mkObs c (handles s) :: nil).
  split; [reflexivity|]. cbn. now rewrite Hc.
Qed.

Lemma emits_load P this : emits P (load this : M W _).
Proof.
  intros s. exists nil. unfold load.
  destruct (handles s !! this); cbn; now rewrite app_nil_r.
Qed.

Lemma emits_store P this vm : emits P (store this vm : M W _).
Proof. intros s. exists nil. cbn. now rewrite app_nil_r. Qed.

Lemma emits_deref P p : emits P (deref p : M W _).
Proof. destruct p; [apply emits_ret | apply emits_crash]. Qed.

Lemma emits_DCHECK P c : emits P c -> emits P (DCHECK E c).
Proof.
  intros Hc. unfold DCHECK. destruct (debug E); [|apply emits_ret].
  apply emits_bind; [assumption|]. intros []; [apply emits_ret | apply emits_crash].
Qed.

Lemma emits_CHECK P c : emits P c -> emits P (CHECK c : M W _).
Proof.
  intros Hc. unfold CHECK.
  apply emits_bind; [assumption|]. intros []; [apply emits_ret | apply emits_crash].
Qed.

(** *** Computations that do not touch the handles *)

Lemma quiet_ret {A} (a : A) : quiet (ret a : M W A).
Proof. intros s. reflexivity. Qed.

Lemma quiet_crash {A} f : quiet (crash f : M W A).
Proof. intros s. reflexivity. Qed.

Lemma quiet_bind {A B} (m : M W A) (k : A -> M W B) :
  quiet m -> (forall a, quiet (k a)) -> quiet (bind m k).
Proof.
  intros Hm Hk s. unfold bind. specialize (Hm s).
  destruct (m s) as [[a|f] s1]; cbn [snd] in *.
  - now rewrite Hk.
  - assumption.
Qed.

Lemma quiet_invoke {A} c (f : W -> A * W) : quiet (invoke c f).
Proof. intros s. now rewrite invoke_run. Qed.

Lemma quiet_deref p : quiet (deref p : M W _).
Proof. destruct p; [apply quiet_ret | apply quiet_crash]. Qed.

Lemma quiet_DCHECK c : quiet c -> quiet (DCHECK E c).
Proof.
  intros Hc. unfold DCHECK. destruct (debug E); [|apply quiet_ret].
  apply quiet_bind; [assumption|]. intros []; [apply quiet_ret | apply quiet_crash].
Qed.

Lemma quiet_CHECK c : quiet c -> quiet (CHECK c : M W _).
Proof.
  intros Hc. unfold CHECK.
  apply quiet_bind; [assumption|]. intros []; [apply quiet_ret | apply quiet_crash].
Qed.

Lemma quiet_lsan c : quiet (lsan c : M W _).
Proof. apply quiet_invoke. Qed.

(** *** The handle store *)

Lemma load_run this vm (s : State W) :
  handles s !! this = Some vm -> load this s = (Ok vm, s).
Proof. intros H. unfold load. now rewrite H. Qed.

Lemma load_wild this (s : State W) :
  handles s !! this = None -> load this s = (Crash WildPointer, s).
Proof. intros H. unfold load. now rewrite H. Qed.

Lemma store_run this vm (s : State W) :
  store this vm s = (Ok tt, stored this vm s).
Proof. reflexivity. Qed.

Lemma lookup_stored this vm (s : State W) :
  handles (stored this vm s) !! this = Some vm.
Proof. cbn. apply lookup_insert_eq. Qed.

Lemma lookup_stored_ne this l vm (s : State W) :
  this <> l -> handles (stored this vm s) !! l = handles s !! l.
Proof. intros H. cbn. now apply lookup_insert_ne. Qed.

Lemma stored_stored this vm1 vm2 (s : State W) :
  stored this vm2 (stored this vm1 s) = stored this vm2 s.
Proof. unfold stored. cbn. now rewrite insert_insert_eq. Qed.

Lemma set_page_allocator__run this p vm (s : State W) :
  handles s !! this = Some vm ->
  set_page_allocator_ this p s = (Ok tt, stored this (mkVM p (address_ vm) (size_ vm)) s).
Proof. intros H. unfold set_page_allocator_. now rewrite (bind_Ok _ _ _ _ _ (load_run _ _ _ H)). Qed.

Lemma set_address__run this a vm (s : State W) :
  handles s !! this = Some vm ->
  set_address_ this a s = (Ok tt, stored this (mkVM (page_allocator_ vm) a (size_ vm)) s).
Proof. intros H. unfold set_address_. now rewrite (bind_Ok _ _ _ _ _ (load_run _ _ _ H)). Qed.

Lemma set_size__run this n vm (s : State W) :
  handles s !! this = Some vm ->
  set_size_ this n s = (Ok tt, stored this (mkVM (page_allocator_ vm) (address_ vm) n) s).
Proof. intros H. unfold set_size_. now rewrite (bind_Ok _ _ _ _ _ (load_run _ _ _ H)). Qed.

Lemma VirtualMemory_Reset_run this vm (s : State W) :
  handles s !! this = Some vm ->
  VirtualMemory_Reset this s = (Ok tt, stored this empty_vm s).
Proof.
  intros H. unfold VirtualMemory_Reset.
  erewrite bind_Ok by (apply set_page_allocator__run; eassumption).
  erewrite bind_Ok by (apply set_address__run, lookup_stored).
  rewrite stored_stored.
  erewrite set_size__run by apply lookup_stored.
  now rewrite stored_stored.
Qed.

Lemma VirtualMemory_Reset_wild this (s : State W) :
  handles s !! this = None ->
  VirtualMemory_Reset this s = (Crash WildPointer, s).
Proof.
  intros H. unfold VirtualMemory_Reset, set_page_allocator_.
  erewrite bind_Crash; [reflexivity|].
  erewrite bind_Crash; [reflexivity|]. now apply load_wild.
Qed.

End RunLemmas.

Create HintDb emits.

#[local] Hint Resolve emits_ret emits_crash emits_load emits_store emits_deref
  emits_DCHECK emits_CHECK : emits.

Create HintDb quiet.

#[local] Hint Resolve quiet_ret quiet_crash quiet_invoke quiet_deref quiet_DCHECK
  quiet_CHECK quiet_lsan : quiet.

(** Takes a computation apart along its binds and branches. *)
Ltac emits_steps :=
  repeat match goal with
    | |- emits _ (bind (ret _) _) => apply emits_bind_ret
    | |- emits _ (bind (crash _) _) => apply emits_bind_crash
    | |- emits _ (bind _ _) => apply emits_bind; [|intros ?]
    | |- emits _ (DCHECK _ _) => apply emits_DCHECK
    | |- emits _ (CHECK _) => apply emits_CHECK
    | |- emits _ (if ?b then _ else _) => destruct b
    | |- emits _ (match ?p with Some _ => _ | None => _ end) => destruct p
    | |- emits _ _ => solve [auto with emits]
    end.

Ltac quiet_steps :=
  repeat match goal with
    | |- quiet (bind _ _) => apply quiet_bind; [|intros ?]
    | |- quiet (DCHECK _ _) => apply quiet_DCHECK
    | |- quiet (CHECK _) => apply quiet_CHECK
    | |- quiet (if ?b then _ else _) => destruct b
    | |- quiet (match ?p with Some _ => _ | None => _ end) => destruct p
    | |- quiet _ => solve [auto with quiet]
    end.

(** Computes what was recorded since [s] in a state built from [s] by the
    state functions of the vocabulary. *)
Ltac since_norm :=
  unfold since, registered, freed, released, pressed, attempted, called, noted,
    stored;
  repeat match goal with
    | |- context [if ?b then _ else _] => destruct b eqn:?
    end;
  cbn [trace handles world map fst snd];
  rewrite <- ?app_assoc, ?drop_app_length.

Section PagedAllocation.

Context {W : Type}.
Variable E : Env W.

Lemma OnCriticalMemoryPressure_quiet length :
  quiet (OnCriticalMemoryPressure E length).
Proof. unfold OnCriticalMemoryPressure. quiet_steps. Qed.

Lemma AllocatePages_loop_quiet n p address size alignment access result :
  quiet (AllocatePages_loop E n p address size alignment access result).
Proof.
  revert result. induction n as [|n IH]; intros result; cbn [AllocatePages_loop].
  - apply quiet_ret.
  - quiet_steps. apply OnCriticalMemoryPressure_quiet.
Qed.

Lemma AllocatePages_quiet p address size alignment access :
  quiet (AllocatePages E p address size alignment access).
Proof. unfold AllocatePages. quiet_steps. apply AllocatePages_loop_quiet. Qed.

Lemma FreePages_quiet p address size : quiet (FreePages E p address size).
Proof. unfold FreePages. quiet_steps. Qed.

Lemma ReleasePages_quiet p address size new_size :
  quiet (ReleasePages E p address size new_size).
Proof. unfold ReleasePages. quiet_steps. Qed.

Lemma SetPermissions_quiet p address size access :
  quiet (SetPermissions E p address size access).
Proof. unfold SetPermissions. quiet_steps. Qed.

Lemma OnCriticalMemoryPressure_emits P length :
  P (CallOnCriticalMemoryPressureLength length) = true ->
  P CallOnCriticalMemoryPressure = true ->
  emits P (OnCriticalMemoryPressure E length).
Proof.
  intros H1 H2. unfold OnCriticalMemoryPressure.
  emits_steps; now apply emits_invoke.
Qed.

Lemma AllocatePages_call_refl a address size alignment access :
  AllocatePages_call E a address size alignment access
    (CallAllocatePages a address size alignment access) = true.
Proof.
  cbn. rewrite Nat.eqb_refl, !Z.eqb_refl, bool_decide_eq_true_2; reflexivity.
Qed.

Lemma AllocatePages_loop_emits n p a address size alignment access result :
  p = Some a \/ p = None ->
  emits (AllocatePages_call E a address size alignment access)
    (AllocatePages_loop E n p address size alignment access result).
Proof.
  intros Hp. revert result.
  induction n as [|n IH]; intros result; cbn [AllocatePages_loop].
  - apply emits_ret.
  - destruct Hp as [-> | ->]; cbn [deref].
    + emits_steps.
      * apply emits_invoke, AllocatePages_call_refl.
      * apply OnCriticalMemoryPressure_emits; [|reflexivity].
        cbn. rewrite request_size_wrap. apply Z.eqb_refl.
    + emits_steps.
Qed.

Lemma AllocatePages_emits p a address size alignment access :
  p = Some a \/ p = None ->
  emits (AllocatePages_call E a address size alignment access)
    (AllocatePages E p address size alignment access).
Proof.
  intros Hp. unfold AllocatePages. emits_steps.
  - now apply AllocatePages_loop_emits.
  - apply emits_invoke. cbn. apply Z.eqb_refl.
Qed.

Lemma count_calls_app p t1 t2 :
  count_calls p (t1 ++ t2) = (count_calls p t1 + count_calls p t2)%nat.
Proof.
  unfold count_calls, calls. now rewrite map_app, List.filter_app, length_app.
Qed.

Lemma pressed_trace length s :
  exists t, trace (pressed E length s) = trace s ++ t /\
            count_calls is_allocate t = 0%nat /\
            count_calls is_pressure_length t = 1%nat.
Proof.
  unfold pressed, called. destruct (fst _); cbn [trace];
    rewrite <- ?app_assoc; eexists; (split; [reflexivity|]); split; reflexivity.
Qed.

(** Under an allocator that fails every attempt the loop makes all its
    turns, whatever their number: as many attempts, and as many
    notifications, as the bound. *)
Lemma AllocatePages_loop_exhausted a address size alignment access :
  (forall w, fst (pa_AllocatePages (allocator_at E a) address size alignment
                    access w) = kNullAddress) ->
  forall n result s,
  exists s' t,
    AllocatePages_loop E n (Some a) address size alignment access result s
    = (Ok (match n with O => result | S _ => kNullAddress end), s') /\
    trace s' = trace s ++ t /\
    count_calls is_allocate t = n /\
    count_calls is_pressure_length t = n.
Proof.
  intros Hall. induction n as [|n IH]; intros result s.
  - exists s, nil. cbn. now rewrite app_nil_r.
  - rewrite AllocatePages_loop_step.
    assert (H0 : attempt_result E a address size alignment access s = kNullAddress)
      by apply Hall.
    rewrite H0. cbn [Z.eqb kNullAddress negb].
    set (s1 := attempted E a address size alignment access s).
    destruct (pressed_trace (request_size_of E a size alignment) s1)
      as (tp & Htp & Hpa & Hpp).
    destruct (IH kNullAddress (pressed E (request_size_of E a size alignment) s1))
      as (s' & t & Hrun & Ht & Hca & Hcp).
    exists s', ((mkObs (CallAllocatePages a address size alignment access) (handles s)
                 :: tp) ++ t).
    split.
    { rewrite Hrun. destruct n; reflexivity. }
    split.
    { rewrite Ht, Htp. subst s1. cbn [attempted called trace].
      now rewrite <- !app_assoc. }
    rewrite !count_calls_app, Hca, Hcp.
    change (mkObs (CallAllocatePages a address size alignment access) (handles s) :: tp)
      with ((mkObs (CallAllocatePages a address size alignment access) (handles s)
             :: nil) ++ tp).
    rewrite !count_calls_app, Hpa, Hpp. split; reflexivity.
Qed.

(** C1 (as amended).  With the attempt bound of two: when the page allocator
    fails the first attempt and succeeds on the second, [AllocatePages]
    answers the address of the second attempt and exactly one pressure
    notification is fired; when the page allocator fails every attempt,
    [AllocatePages] answers the null address after exactly [kAllocationTries]
    attempts, and a notification is fired after each of them, so exactly
    [kAllocationTries] (not one less) are fired.  The same holds of the loop
    for every bound: as many notifications as attempts. *)
Theorem AllocatePages_retry_bound a address size alignment access s :
  (debug E = true -> AllocatePages_requires E a address size alignment) ->
  let run := AllocatePages E (Some a) address size alignment access s in
  let s2 := pressed E (request_size_of E a size alignment)
              (attempted E a address size alignment access s) in
  (attempt_result E a address size alignment access s = kNullAddress ->
   attempt_result E a address size alignment access s2 <> kNullAddress ->
   fst run = Ok (attempt_result E a address size alignment access s2) /\
   count_calls is_allocate (since s (snd run)) = 2%nat /\
   count_calls is_pressure_length (since s (snd run)) = 1%nat)
  /\
  ((forall w, fst (pa_AllocatePages (allocator_at E a) address size alignment
                    access w) = kNullAddress) ->
   fst run = Ok kNullAddress /\
   count_calls is_allocate (since s (snd run)) = Z.to_nat kAllocationTries /\
   count_calls is_pressure_length (since s (snd run)) = Z.to_nat kAllocationTries /\
   forall bound,
     let turns := AllocatePages_loop E bound (Some a) address size alignment access
                    kNullAddress s in
     fst turns = Ok kNullAddress /\
     count_calls is_allocate (since s (snd turns)) = bound /\
     count_calls is_pressure_length (since s (snd turns)) = bound).
Proof.
  intros Hreq run s2.
  pose proof (AllocatePages_loop_two E a address size alignment access kNullAddress s)
    as Hloop.
  cbv zeta in Hloop. fold s2 in Hloop.
  split.
  - intros H1 H2. rewrite H1 in Hloop. cbn [Z.eqb kNullAddress negb] in Hloop.
    apply Z.eqb_neq in H2. rewrite H2 in Hloop.
    cbn [negb] in Hloop.
    subst run. rewrite (AllocatePages_run E _ _ _ _ _ _ _ _ Hreq Hloop).
    cbn [fst snd]. split; [reflexivity|].
    split; subst s2; since_norm; reflexivity.
  - intros Hall.
    assert (H1 : attempt_result E a address size alignment access s = 0)
      by apply Hall.
    assert (H2 : attempt_result E a address size alignment access s2 = 0)
      by apply Hall.
    rewrite H1, H2 in Hloop. cbn [Z.eqb kNullAddress negb] in Hloop.
    subst run. rewrite (AllocatePages_run E _ _ _ _ _ _ _ _ Hreq Hloop).
    cbn [fst snd]. split; [reflexivity|].
    split; [subst s2; since_norm; reflexivity|].
    split; [subst s2; since_norm; reflexivity|].
    intros bound.
    destruct (AllocatePages_loop_exhausted a address size alignment access Hall
                bound kNullAddress s) as (s' & t & Hrun & Ht & Hca & Hcp).
    rewrite Hrun. cbn [fst snd]. rewrite (since_app _ _ _ Ht).
    split; [now destruct bound|]. split; assumption.
Qed.

Lemma pressure_lengths_Forall (P : Call -> bool) (req : size_t) t :
  (forall n, P (CallOnCriticalMemoryPressureLength n) = true -> n = req) ->
  forallb P (calls t) = true ->
  Forall (fun n => n = req) (pressure_lengths t).
Proof.
  intros HP. unfold pressure_lengths, calls.
  induction t as [|o t IH]; cbn; intros H.
  - constructor.
  - apply andb_prop in H as [Ho Ht].
    destruct (ob_call o); cbn; auto.
Qed.

Lemma allocate_permissions_Forall (P : Call -> bool) (access : Permission) t :
  (forall a address size alignment p,
      P (CallAllocatePages a address size alignment p) = true -> p = access) ->
  forallb P (calls t) = true ->
  Forall (fun p => p = access) (allocate_permissions t).
Proof.
  intros HP. unfold allocate_permissions, calls.
  induction t as [|o t IH]; cbn; intros H.
  - constructor.
  - apply andb_prop in H as [Ho Ht].
    destruct (ob_call o) eqn:Hc; cbn; auto.
    constructor; eauto.
Qed.

Lemma AllocatePages_call_access a address size alignment access a' address' size'
    alignment' p :
  AllocatePages_call E a address size alignment access
    (CallAllocatePages a' address' size' alignment' p) = true ->
  p = access.
Proof.
  cbn. intros H. apply andb_prop in H as [_ H]. now apply bool_decide_eq_true_1 in H.
Qed.

Lemma DCHECK_holds (c : M W bool) s :
  (debug E = true -> c s = (Ok true, s)) -> DCHECK E c s = (Ok tt, s).
Proof.
  intros Hc. destruct (debug E) eqn:Hdbg.
  - apply DCHECK_pass; auto.
  - apply DCHECK_release; auto.
Qed.

Lemma FreePages_run a address size s :
  (debug E = true ->
   Z.land size (wrap (pa_AllocatePageSize (allocator_at E a) - 1)) = 0) ->
  FreePages E (Some a) address size s =
  (Ok (fst (pa_FreePages (allocator_at E a) address size (world s))),
   freed E a address size s).
Proof.
  intros Hreq. unfold FreePages.
  erewrite bind_Ok by (apply DCHECK_holds; reflexivity).
  erewrite bind_Ok; cycle 1.
  { apply DCHECK_holds. intros Hdbg. cbn [deref]. unfold bind, ret.
    now rewrite (Hreq Hdbg). }
  cbn [deref]. unfold bind at 1. cbn [ret].
  erewrite bind_Ok by apply invoke_run.
  unfold freed, lsan_on. cbn [ptr_eqb]. cbv zeta.
  set (ok := fst (pa_FreePages _ _ _ _)).
  replace (leak_sanitizer E && ok && Nat.eqb a (GetPlatformPageAllocator E))%bool
    with (leak_sanitizer E && Nat.eqb a (GetPlatformPageAllocator E) && ok)%bool
    by (destruct (leak_sanitizer E), (Nat.eqb _ _), ok; reflexivity).
  destruct (_ && _)%bool.
  - erewrite bind_Ok by apply lsan_run. reflexivity.
  - reflexivity.
Qed.

Lemma ReleasePages_run a address size new_size s :
  (debug E = true -> new_size < size) ->
  ReleasePages E (Some a) address size new_size s =
  (Ok (fst (pa_ReleasePages (allocator_at E a) address size new_size (world s))),
   released E a address size new_size s).
Proof.
  intros Hreq. unfold ReleasePages.
  erewrite bind_Ok by (apply DCHECK_holds; reflexivity).
  erewrite bind_Ok; cycle 1.
  { apply DCHECK_holds. intros Hdbg. unfold ret.
    apply Hreq, Z.ltb_lt in Hdbg. now rewrite Hdbg. }
  cbn [deref]. unfold bind at 1. cbn [ret].
  erewrite bind_Ok by apply invoke_run.
  unfold released, lsan_on. cbn [ptr_eqb]. cbv zeta.
  set (ok := fst (pa_ReleasePages _ _ _ _ _)).
  replace (leak_sanitizer E && ok && Nat.eqb a (GetPlatformPageAllocator E))%bool
    with (leak_sanitizer E && Nat.eqb a (GetPlatformPageAllocator E) && ok)%bool
    by (destruct (leak_sanitizer E), (Nat.eqb _ _), ok; reflexivity).
  destruct (_ && _)%bool.
  - erewrite bind_Ok; cycle 1.
    { erewrite bind_Ok by apply lsan_run. apply lsan_run. }
    rewrite noted_noted. reflexivity.
  - reflexivity.
Qed.

Lemma SetPermissions_run a address size access s :
  SetPermissions E (Some a) address size access s =
  (Ok (fst (pa_SetPermissions (allocator_at E a) address size access (world s))),
   called (CallSetPermissions a address size access)
     (snd (pa_SetPermissions (allocator_at E a) address size access (world s))) s).
Proof.
  unfold SetPermissions.
  erewrite bind_Ok by (apply DCHECK_holds; reflexivity).
  cbn [deref]. unfold bind at 1. cbn [ret].
  apply invoke_run.
Qed.

(** C7.  [OnCriticalMemoryPressure] answers true for every requested size,
    whatever the platform reports: the sized notification of the platform is
    called first, and the parameterless one exactly when the sized one
    reported false.  Consequently a failed attempt in the retry loop of
    [AllocatePages] is always followed by the remaining turns of the loop. *)
Theorem OnCriticalMemoryPressure_always_true length s :
  let p := current_platform E in
  let sized := platform_OnCriticalMemoryPressure_length p length (world s) in
  let run := OnCriticalMemoryPressure E length s in
  fst run = Ok true /\
  calls (since s (snd run)) =
    CallOnCriticalMemoryPressureLength length
    :: (if fst sized then nil else CallOnCriticalMemoryPressure :: nil) /\
  world (snd run) =
    (if fst sized then snd sized
     else platform_OnCriticalMemoryPressure p (snd sized)) /\
  handles (snd run) = handles s /\
  (forall n a address size alignment access result,
      attempt_result E a address size alignment access s = kNullAddress ->
      AllocatePages_loop E (S n) (Some a) address size alignment access result s =
      AllocatePages_loop E n (Some a) address size alignment access kNullAddress
        (snd (OnCriticalMemoryPressure E (request_size_of E a size alignment)
                (attempted E a address size alignment access s)))).
Proof.
  intros p sized run. subst run. rewrite OnCriticalMemoryPressure_run.
  cbn [fst snd]. split; [reflexivity|].
  split; [|split; [|split]].
  - unfold pressed. fold p. fold sized. destruct (fst sized);
      since_norm; reflexivity.
  - unfold pressed. fold p. fold sized. destruct (fst sized); reflexivity.
  - unfold pressed. destruct (fst _); reflexivity.
  - intros n a address size alignment access result H.
    rewrite AllocatePages_loop_step, H, OnCriticalMemoryPressure_run.
    reflexivity.
Qed.

(** C8.  Every size [AllocatePages] hands to the pressure notification is
    [size + alignment - page_size], computed on machine words, where
    [page_size] is the allocate-page granularity of the allocator; and such a
    notification is made as soon as the first attempt fails. *)
Theorem AllocatePages_request_size a address size alignment access s :
  let page_size := pa_AllocatePageSize (allocator_at E a) in
  let run := AllocatePages E (Some a) address size alignment access s in
  Forall (fun n => n = wrap (size + alignment - page_size))
    (pressure_lengths (since s (snd run))) /\
  ((debug E = true -> AllocatePages_requires E a address size alignment) ->
   attempt_result E a address size alignment access s = kNullAddress ->
   In (wrap (size + alignment - page_size)) (pressure_lengths (since s (snd run)))) /\
  (is_word (size + alignment - page_size) ->
   wrap (size + alignment - page_size) = size + alignment - page_size).
Proof.
  intros page_size run. split; [|split].
  - apply pressure_lengths_Forall
      with (P := AllocatePages_call E a address size alignment access).
    + cbn. intros n Hn. now apply Z.eqb_eq in Hn.
    + apply emits_since, AllocatePages_emits. now left.
  - intros Hreq H1.
    pose proof (AllocatePages_loop_two E a address size alignment access
                  kNullAddress s) as Hloop.
    cbv zeta in Hloop. rewrite H1 in Hloop. cbn [Z.eqb kNullAddress negb] in Hloop.
    subst run.
    destruct (negb _) in Hloop;
      rewrite (AllocatePages_run E _ _ _ _ _ _ _ _ Hreq Hloop);
      cbn [snd]; since_norm; cbn; auto.
  - intros Hw. unfold wrap. apply Z.mod_small. exact Hw.
Qed.

End PagedAllocation.

(** C1: both cases on the simulated allocators. *)
Lemma AllocatePages_retry_bound_witness :
  (let run := AllocatePages Sim.debug_env (Some 1%nat) 0 4096 4096 kNoAccess Sim.boot in
   fst run = Ok Sim.region /\
   count_calls is_allocate (since Sim.boot (snd run)) = 2%nat /\
   count_calls is_pressure_length (since Sim.boot (snd run)) = 1%nat) /\
  (let run := AllocatePages Sim.debug_env (Some 2%nat) 0 4096 4096 kNoAccess Sim.boot in
   fst run = Ok kNullAddress /\
   count_calls is_allocate (since Sim.boot (snd run)) = 2%nat /\
   count_calls is_pressure_length (since Sim.boot (snd run)) = 2%nat).
Proof.
  split.
  - apply (proj1 (AllocatePages_retry_bound Sim.debug_env 1%nat 0 4096 4096
                    kNoAccess Sim.boot (fun _ => conj eq_refl eq_refl))).
    + reflexivity.
    + vm_compute. congruence.
  - destruct (proj2 (AllocatePages_retry_bound Sim.debug_env 2%nat 0 4096 4096
                       kNoAccess Sim.boot (fun _ => conj eq_refl eq_refl)))
      as (H1 & H2 & H3 & _).
    + intros w. reflexivity.
    + split; [exact H1|]. split; [exact H2 | exact H3].
Defined.

(** C1 as the specification words it fails: an allocator that fails every
    attempt makes [AllocatePages] fire two notifications, not
    [kAllocationTries - 1]. *)
Lemma AllocatePages_exhausted_fires_twice :
  let run := AllocatePages Sim.release_env (Some 2%nat) 0 4096 4096 kNoAccess Sim.boot in
  (forall w, fst (pa_AllocatePages (Sim.allocators 2%nat) 0 4096 4096 kNoAccess w)
             = kNullAddress) /\
  fst run = Ok kNullAddress /\
  count_calls is_pressure_length (since Sim.boot (snd run)) = 2%nat /\
  count_calls is_pressure_length (since Sim.boot (snd run))
    <> Z.to_nat (kAllocationTries - 1).
Proof.
  cbv zeta. split; [intros w; reflexivity|].
  split; [reflexivity|]. split; [reflexivity|].
  vm_compute. congruence.
Qed.

Lemma OnCriticalMemoryPressure_always_true_witness :
  fst (OnCriticalMemoryPressure Sim.debug_env 12288 Sim.boot) = Ok true /\
  calls (since Sim.boot (snd (OnCriticalMemoryPressure Sim.debug_env 12288 Sim.boot)))
  = CallOnCriticalMemoryPressureLength 12288 :: CallOnCriticalMemoryPressure :: nil /\
  AllocatePages_loop Sim.debug_env 2 (Some 2%nat) 0 4096 4096 kNoAccess 7 Sim.boot =
  AllocatePages_loop Sim.debug_env 1 (Some 2%nat) 0 4096 4096 kNoAccess kNullAddress
    (snd (OnCriticalMemoryPressure Sim.debug_env 4096
            (attempted Sim.debug_env 2%nat 0 4096 4096 kNoAccess Sim.boot))).
Proof.
  pose proof (OnCriticalMemoryPressure_always_true Sim.debug_env 12288 Sim.boot)
    as (H1 & H2 & _ & _ & H5).
  split; [exact H1|]. split; [exact H2|].
  apply (H5 1%nat 2%nat 0 4096 4096 kNoAccess 7). reflexivity.
Defined.

Lemma AllocatePages_request_size_witness :
  In 12288
    (pressure_lengths
       (since Sim.boot
          (snd (AllocatePages Sim.debug_env (Some 1%nat) 0 12288 4096 kNoAccess
                  Sim.boot)))) /\
  wrap (12288 + 4096 - 4096) = 12288.
Proof.
  pose proof (AllocatePages_request_size Sim.debug_env 1%nat 0 12288 4096 kNoAccess
                Sim.boot) as (_ & H2 & H3).
  split.
  - apply H2; [intros _; split; reflexivity | reflexivity].
  - apply H3. vm_compute. split; congruence.
Defined.

(** * The reservation handle *)

Section Rounding.

Lemma wrap_pow2_pred k :
  0 <= k < kBitsPerPointer -> wrap (2 ^ k - 1) = Z.ones k.
Proof.
  intros Hk. rewrite Z.ones_equiv. unfold wrap, Z.pred.
  apply Z.mod_small.
  assert (0 < 2 ^ k) by (apply Z.pow_pos_nonneg; lia).
  assert (2 ^ k < 2 ^ kBitsPerPointer) by (apply Z.pow_lt_mono_r; lia).
  lia.
Qed.

(** A rounded size passes the granularity [DCHECK] of the paged functions. *)
Lemma RoundUp_land x m :
  is_pow2 m -> Z.land (RoundUp x m) (wrap (m - 1)) = 0.
Proof.
  intros (k & Hk & ->). rewrite wrap_pow2_pred by assumption.
  rewrite Z.land_ones by lia.
  unfold RoundUp, RoundDown. apply Z_mod_mult.
Qed.

Lemma RoundUp_multiple x m : RoundUp x m mod m = 0.
Proof. unfold RoundUp, RoundDown. apply Z_mod_mult. Qed.

(** Rounding up does round up, as long as the sum fits a machine word. *)
Lemma RoundUp_bounds x m :
  0 < m -> is_word (x + m - 1) -> x <= RoundUp x m < x + m.
Proof.
  intros Hm Hw. unfold RoundUp, RoundDown, wrap, is_word in *.
  rewrite (Z.mod_small (x + m - 1)) by assumption.
  pose proof (Z.div_mod (x + m - 1) m ltac:(lia)) as Hdm.
  pose proof (Z.mod_pos_bound (x + m - 1) m Hm) as Hb.
  lia.
Qed.

End Rounding.

Section Handle.

Context {W : Type}.
Variable E : Env W.

(** The allocating constructor, with the loads of its own fields resolved. *)
Lemma VirtualMemory_VirtualMemory_run this a size hint alignment s :
  let page_size := pa_AllocatePageSize (allocator_at E a) in
  let size' := RoundUp size page_size in
  let alignment' := RoundUp alignment page_size in
  let s0 := stored this (mkVM (Some a) kNullAddress 0) s in
  VirtualMemory_VirtualMemory E this (Some a) size hint alignment s =
  match AllocatePages E (Some a) hint size' alignment' kNoAccess s0 with
  | (Ok r, s1) =>
      (Ok tt, stored this (mkVM (Some a) r (if r =? kNullAddress then 0 else size')) s1)
  | (Crash f, s1) => (Crash f, s1)
  end.
Proof.
  cbv zeta. unfold VirtualMemory_VirtualMemory.
  erewrite bind_Ok by apply store_run.
  erewrite bind_Ok by (apply DCHECK_holds; reflexivity).
  erewrite bind_Ok by apply load_run, lookup_stored.
  cbn [page_allocator_ deref]. unfold bind at 1. cbn [ret].
  erewrite bind_Ok by apply load_run, lookup_stored.
  cbn [page_allocator_].
  pose proof (AllocatePages_quiet E (Some a) hint
                (RoundUp size (pa_AllocatePageSize (allocator_at E a)))
                (RoundUp alignment (pa_AllocatePageSize (allocator_at E a)))
                kNoAccess (stored this (mkVM (Some a) kNullAddress 0) s)) as Hq.
  unfold bind at 1.
  destruct (AllocatePages _ _ _ _ _ _ _) as [[r|f] s1]; [|reflexivity].
  cbn [snd] in Hq.
  assert (Hl : handles s1 !! this = Some (mkVM (Some a) kNullAddress 0))
    by (rewrite Hq; apply lookup_stored).
  erewrite bind_Ok by (apply set_address__run; exact Hl).
  cbn [page_allocator_ size_].
  erewrite bind_Ok by apply load_run, lookup_stored.
  cbn [address_]. destruct (r =? kNullAddress); cbn [negb].
  - reflexivity.
  - erewrite set_size__run by apply lookup_stored.
    now rewrite stored_stored.
Qed.

(** What [AllocatePages] does once its [DCHECK]s pass: it returns, leaves the
    handles alone, starts with a call of the page allocator, and answers what
    the page allocator answered to one of the attempts. *)
Lemma AllocatePages_outcome a address size alignment access s :
  (debug E = true -> AllocatePages_requires E a address size alignment) ->
  exists r s1,
    AllocatePages E (Some a) address size alignment access s = (Ok r, s1) /\
    handles s1 = handles s /\
    (exists w, r = fst (pa_AllocatePages (allocator_at E a) address size alignment
                          access w)) /\
    (exists rest, calls (since s s1)
                  = CallAllocatePages a address size alignment access :: rest).
Proof.
  intros Hreq.
  pose proof (AllocatePages_loop_two E a address size alignment access
                kNullAddress s) as Hloop.
  cbv zeta in Hloop.
  pose proof (AllocatePages_quiet E (Some a) address size alignment access s) as Hq.
  destruct (negb (attempt_result E a address size alignment access s =? _)).
  - rewrite (AllocatePages_run E _ _ _ _ _ _ _ _ Hreq Hloop) in Hq |- *.
    do 2 eexists. split; [reflexivity|]. split; [exact Hq|].
    split; [eexists; reflexivity|].
    since_norm; cbn; eauto.
  - destruct (negb (attempt_result E a address size alignment access _ =? _));
      rewrite (AllocatePages_run E _ _ _ _ _ _ _ _ Hreq Hloop) in Hq |- *;
      (do 2 eexists; split; [reflexivity|]; split; [exact Hq|];
       split; [eexists; reflexivity|]);
      since_norm; cbn; eauto.
Qed.

Lemma constructor_requires_AllocatePages a hint size alignment :
  constructor_requires E a hint alignment ->
  AllocatePages_requires E a hint
    (RoundUp size (pa_AllocatePageSize (allocator_at E a)))
    (RoundUp alignment (pa_AllocatePageSize (allocator_at E a))).
Proof.
  intros [Hp Hh]. split; [exact Hh|]. now apply RoundUp_land.
Qed.

(** The first call of the allocating constructor. *)
Lemma constructor_first_call this a size hint alignment s :
  (debug E = true -> constructor_requires E a hint alignment) ->
  exists rest,
    calls (since s (snd (VirtualMemory_VirtualMemory E this (Some a) size hint
                           alignment s)))
    = CallAllocatePages a hint
        (RoundUp size (pa_AllocatePageSize (allocator_at E a)))
        (RoundUp alignment (pa_AllocatePageSize (allocator_at E a)))
        kNoAccess :: rest.
Proof.
  intros Hreq.
  destruct (AllocatePages_outcome a hint
              (RoundUp size (pa_AllocatePageSize (allocator_at E a)))
              (RoundUp alignment (pa_AllocatePageSize (allocator_at E a)))
              kNoAccess (stored this (mkVM (Some a) kNullAddress 0) s))
    as (r & s1 & Hrun & _ & _ & [rest Hrest]).
  { intros Hd. apply constructor_requires_AllocatePages; auto. }
  rewrite VirtualMemory_VirtualMemory_run. cbv zeta. rewrite Hrun.
  exists rest. exact Hrest.
Qed.

(** C5.  The allocating constructor rounds both the alignment and the size up
    to the allocate-page granularity of the allocator before it reserves, with
    the given hint and no other arguments; it returns without aborting; on
    success the handle is Reserved with the address [AllocatePages] returned
    and the rounded size; on failure the handle is not reserved, with null
    address and size zero.  With a granularity of 4096, a size of 10000 is
    rounded to 12288, and the stored address is a multiple of the rounded
    alignment whenever the page allocator honours the alignment it is
    asked for.  The rounded size is a multiple of the granularity, and is the
    least one that is no less than the size when the sum fits a machine
    word. *)
Theorem VirtualMemory_constructor_rounds this a size hint alignment s :
  let page_size := pa_AllocatePageSize (allocator_at E a) in
  let size' := RoundUp size page_size in
  let alignment' := RoundUp alignment page_size in
  let s0 := stored this (mkVM (Some a) kNullAddress 0) s in
  let run := VirtualMemory_VirtualMemory E this (Some a) size hint alignment s in
  (debug E = true -> constructor_requires E a hint alignment) ->
  fst run = Ok tt /\
  (exists rest, calls (since s (snd run))
                = CallAllocatePages a hint size' alignment' kNoAccess :: rest) /\
  forallb (AllocatePages_call E a hint size' alignment' kNoAccess)
    (calls (since s (snd run))) = true /\
  (exists vm,
      handles (snd run) = <[this := vm]> (handles s) /\
      page_allocator_ vm = Some a /\
      fst (AllocatePages E (Some a) hint size' alignment' kNoAccess s0)
        = Ok (address_ vm) /\
      (address_ vm <> kNullAddress -> IsReserved vm = true /\ size_ vm = size') /\
      (address_ vm = kNullAddress -> IsReserved vm = false /\ size_ vm = 0) /\
      ((forall w, fst (pa_AllocatePages (allocator_at E a) hint size' alignment'
                         kNoAccess w) mod alignment' = 0) ->
       address_ vm mod alignment' = 0)) /\
  RoundUp 10000 4096 = 12288 /\ RoundUp 4096 4096 = 4096 /\
  size' mod page_size = 0 /\ alignment' mod page_size = 0 /\
  (0 < page_size -> is_word (size + page_size - 1) ->
   size <= size' < size + page_size).
Proof.
  intros page_size size' alignment' s0 run Hreq.
  assert (Hreq' : debug E = true ->
                  AllocatePages_requires E a hint size' alignment')
    by (intros Hd; apply constructor_requires_AllocatePages; auto).
  destruct (AllocatePages_outcome a hint size' alignment' kNoAccess s0 Hreq')
    as (r & s1 & Hrun & Hh & [w Hw] & [rest Hrest]).
  pose proof (emits_since _ _ s0
                (AllocatePages_emits E (Some a) a hint size' alignment' kNoAccess
                   (or_introl eq_refl))) as Hem.
  subst run. rewrite VirtualMemory_VirtualMemory_run. cbv zeta.
  fold page_size. fold size'. fold alignment'. fold s0.
  rewrite Hrun in Hem |- *. cbn [fst snd] in Hem |- *.
  split; [reflexivity|].
  split; [exists rest; exact Hrest|].
  split; [exact Hem|].
  split;
    [|split; [reflexivity|]; split; [reflexivity|];
      split; [apply RoundUp_multiple|]; split; [apply RoundUp_multiple|];
      apply RoundUp_bounds].
  exists (mkVM (Some a) r (if r =? kNullAddress then 0 else size')).
  cbn [handles stored page_allocator_ address_ size_].
  split.
  { rewrite Hh. subst s0. cbn [handles stored]. apply insert_insert_eq. }
  split; [reflexivity|]. split; [reflexivity|].
  unfold IsReserved. cbn [address_].
  split; [|split].
  - intros Hr. apply Z.eqb_neq in Hr. rewrite Hr. split; reflexivity.
  - intros ->. split; reflexivity.
  - intros Hal. rewrite Hw. apply Hal.
Qed.

Lemma VirtualMemory_VirtualMemory_null this size hint alignment s :
  VirtualMemory_VirtualMemory E this None size hint alignment s =
  (Crash (if debug E then DcheckFailed else NullPointer),
   stored this (mkVM None kNullAddress 0) s).
Proof.
  unfold VirtualMemory_VirtualMemory.
  erewrite bind_Ok by apply store_run.
  destruct (debug E) eqn:Hd.
  - erewrite bind_Crash; [reflexivity|]. now apply DCHECK_fail.
  - erewrite bind_Ok by now apply DCHECK_release.
    erewrite bind_Ok by apply load_run, lookup_stored.
    reflexivity.
Qed.

Lemma VirtualMemory_VirtualMemory_emits this p a size hint alignment :
  p = Some a \/ p = None ->
  emits (AllocatePages_call E a hint
           (RoundUp size (pa_AllocatePageSize (allocator_at E a)))
           (RoundUp alignment (pa_AllocatePageSize (allocator_at E a)))
           kNoAccess)
    (VirtualMemory_VirtualMemory E this p size hint alignment).
Proof.
  intros [-> | ->] s.
  - rewrite VirtualMemory_VirtualMemory_run. cbv zeta.
    destruct (AllocatePages_emits E (Some a) a hint
                (RoundUp size (pa_AllocatePageSize (allocator_at E a)))
                (RoundUp alignment (pa_AllocatePageSize (allocator_at E a)))
                kNoAccess (or_introl eq_refl)
                (stored this (mkVM (Some a) kNullAddress 0) s)) as (t & Ht & HP).
    exists t. split; [|exact HP].
    destruct (AllocatePages _ _ _ _ _ _ _) as [[r|f] s1]; exact Ht.
  - rewrite VirtualMemory_VirtualMemory_null. exists nil.
    cbn. now rewrite app_nil_r.
Qed.

Lemma AllocatePage_run a address allocated s :
  AllocatePage E (Some a) address allocated s =
  match AllocatePages E (Some a) address (pa_AllocatePageSize (allocator_at E a))
          (pa_AllocatePageSize (allocator_at E a)) kReadWrite s with
  | (Ok r, s1) =>
      (Ok (r, if r =? kNullAddress then allocated
              else pa_AllocatePageSize (allocator_at E a)), s1)
  | (Crash f, s1) => (Crash f, s1)
  end.
Proof.
  unfold AllocatePage.
  erewrite bind_Ok by (apply DCHECK_holds; reflexivity).
  cbn [deref]. unfold bind at 1. cbn [ret]. unfold bind.
  destruct (AllocatePages _ _ _ _ _ _ _) as [[r|f] s1]; [|reflexivity].
  destruct (r =? kNullAddress); reflexivity.
Qed.

Lemma AllocatePage_emits p a address allocated :
  p = Some a \/ p = None ->
  emits (AllocatePages_call E a address (pa_AllocatePageSize (allocator_at E a))
           (pa_AllocatePageSize (allocator_at E a)) kReadWrite)
    (AllocatePage E p address allocated).
Proof.
  intros [-> | ->]; unfold AllocatePage; cbn [deref]; emits_steps.
  apply AllocatePages_emits. now left.
Qed.

Lemma allocate_permissions_cons a address size alignment access rest t :
  calls t = CallAllocatePages a address size alignment access :: rest ->
  exists more, allocate_permissions t = access :: more.
Proof. intros H. unfold allocate_permissions. rewrite H. cbn. eauto. Qed.

(** C10.  Every reservation the allocating constructor asks of the page
    allocator is asked with the no-access permission, and (its [DCHECK]s
    passing) it does ask for one; the single-page function [AllocatePage]
    asks with read-write instead. *)
Theorem constructor_reserves_no_access this p a size hint alignment allocated s :
  p = Some a \/ p = None ->
  let page_size := pa_AllocatePageSize (allocator_at E a) in
  let built := VirtualMemory_VirtualMemory E this p size hint alignment s in
  let page := AllocatePage E p hint allocated s in
  Forall (fun access => access = kNoAccess)
    (allocate_permissions (since s (snd built))) /\
  Forall (fun access => access = kReadWrite)
    (allocate_permissions (since s (snd page))) /\
  (p = Some a ->
   (debug E = true -> constructor_requires E a hint alignment) ->
   exists more, allocate_permissions (since s (snd built)) = kNoAccess :: more) /\
  (p = Some a ->
   (debug E = true -> AllocatePages_requires E a hint page_size page_size) ->
   exists more, allocate_permissions (since s (snd page)) = kReadWrite :: more).
Proof.
  intros Hp page_size built page. split; [|split; [|split]].
  - apply allocate_permissions_Forall
      with (P := AllocatePages_call E a hint (RoundUp size page_size)
                   (RoundUp alignment page_size) kNoAccess).
    + intros *. apply AllocatePages_call_access.
    + apply emits_since, VirtualMemory_VirtualMemory_emits, Hp.
  - apply allocate_permissions_Forall
      with (P := AllocatePages_call E a hint page_size page_size kReadWrite).
    + intros *. apply AllocatePages_call_access.
    + apply emits_since, AllocatePage_emits, Hp.
  - intros -> Hreq.
    destruct (constructor_first_call this a size hint alignment s Hreq)
      as [rest Hrest].
    eapply allocate_permissions_cons, Hrest.
  - intros -> Hreq.
    destruct (AllocatePages_outcome a hint page_size page_size kReadWrite s Hreq)
      as (r & s1 & Hrun & _ & _ & [rest Hrest]).
    subst page. rewrite AllocatePage_run. fold page_size. rewrite Hrun.
    eapply allocate_permissions_cons, Hrest.
Qed.

(** *** Explicit free *)

Lemma InVM_whole vm : InVM vm (address_ vm) (size_ vm) = true.
Proof. unfold InVM. now rewrite !Z.leb_refl. Qed.

Lemma is_lsan_freed a address size (s : State W) :
  exists rest,
    since s (freed E a address size s)
    = mkObs (CallFreePages a address size) (handles s) :: rest /\
    forallb is_lsan (calls rest) = true.
Proof. since_norm; eexists; (split; [reflexivity|]); reflexivity. Qed.

Lemma is_lsan_released a address size new_size (s : State W) :
  exists rest,
    since s (released E a address size new_size s)
    = mkObs (CallReleasePages a address size new_size) (handles s) :: rest /\
    forallb is_lsan (calls rest) = true.
Proof. since_norm; eexists; (split; [reflexivity|]); reflexivity. Qed.

Lemma handles_freed a address size (s : State W) :
  handles (freed E a address size s) = handles s.
Proof. unfold freed. cbv zeta. now destruct (_ && _)%bool. Qed.

Lemma handles_released a address size new_size (s : State W) :
  handles (released E a address size new_size s) = handles s.
Proof. unfold released. cbv zeta. now destruct (_ && _)%bool. Qed.

Lemma world_freed a address size (s : State W) :
  world (freed E a address size s)
  = snd (pa_FreePages (allocator_at E a) address size (world s)).
Proof. unfold freed. cbv zeta. now destruct (_ && _)%bool. Qed.

Lemma world_released a address size new_size (s : State W) :
  world (released E a address size new_size s)
  = snd (pa_ReleasePages (allocator_at E a) address size new_size (world s)).
Proof. unfold released. cbv zeta. now destruct (_ && _)%bool. Qed.

Lemma VirtualMemory_Free_run this a A S s :
  handles s !! this = Some (mkVM (Some a) A S) ->
  A <> kNullAddress ->
  (debug E = true -> is_pow2 (pa_AllocatePageSize (allocator_at E a))) ->
  let size' := RoundUp S (pa_AllocatePageSize (allocator_at E a)) in
  VirtualMemory_Free E this s =
  ((if fst (pa_FreePages (allocator_at E a) A size' (world s))
    then Ok tt else Crash CheckFailed),
   freed E a A size' (stored this empty_vm s)).
Proof.
  intros Hl HA Hp size'. unfold VirtualMemory_Free.
  erewrite bind_Ok; cycle 1.
  { apply DCHECK_holds. intros _.
    erewrite bind_Ok by (apply load_run; exact Hl).
    unfold ret, IsReserved. cbn [address_].
    apply Z.eqb_neq in HA. now rewrite HA. }
  erewrite bind_Ok by (apply load_run; exact Hl).
  cbn [page_allocator_ address_ size_].
  erewrite bind_Ok; cycle 1.
  { apply CHECK_pass.
    erewrite bind_Ok by (apply load_run; exact Hl).
    unfold ret. pose proof (InVM_whole (mkVM (Some a) A S)) as Hin.
    cbn [address_ size_] in Hin. now rewrite Hin. }
  erewrite bind_Ok by (eapply VirtualMemory_Reset_run; exact Hl).
  assert (Hs : debug E = true ->
               Z.land size' (wrap (pa_AllocatePageSize (allocator_at E a) - 1)) = 0)
    by (intros Hd; apply RoundUp_land; auto).
  exact (CHECK_run _ _ _ _
           (FreePages_run E a A size' (stored this empty_vm s) Hs)).
Qed.

(** C6.  [Free] on a Reserved handle: the allocator, address and size are
    read first, the handle is reset, and only then is the page allocator
    asked to free, with the size that was read rounded up to the
    allocate-page granularity; the handle store that call sees already holds
    the Empty handle.  The handle is still Empty when [Free] is over, and
    [Free] returns if the page allocator freed the pages (its [CHECK] stops
    the run otherwise). *)
Theorem VirtualMemory_Free_resets_first this a A S s :
  handles s !! this = Some (mkVM (Some a) A S) ->
  A <> kNullAddress ->
  (debug E = true -> is_pow2 (pa_AllocatePageSize (allocator_at E a))) ->
  let size' := RoundUp S (pa_AllocatePageSize (allocator_at E a)) in
  let answer := pa_FreePages (allocator_at E a) A size' (world s) in
  let run := VirtualMemory_Free E this s in
  fst run = (if fst answer then Ok tt else Crash CheckFailed) /\
  handles (snd run) !! this = Some empty_vm /\
  handles (snd run) = <[this := empty_vm]> (handles s) /\
  world (snd run) = snd answer /\
  exists rest,
    since s (snd run)
    = mkObs (CallFreePages a A size') (<[this := empty_vm]> (handles s)) :: rest /\
    forallb is_lsan (calls rest) = true.
Proof.
  intros Hl HA Hp size' answer run. subst run.
  rewrite (VirtualMemory_Free_run this a A S s Hl HA Hp). cbn [fst snd].
  fold size'. split; [reflexivity|].
  rewrite handles_freed, world_freed.
  split; [apply lookup_stored|]. split; [reflexivity|]. split; [reflexivity|].
  apply (is_lsan_freed a A size' (stored this empty_vm s)).
Qed.

(** *** Tail release *)

Lemma wrap_small x : is_word x -> wrap x = x.
Proof. intros H. unfold wrap. now apply Z.mod_small. Qed.

Lemma VirtualMemory_Release_run this a A S free_start s :
  handles s !! this = Some (mkVM (Some a) A S) ->
  A <> kNullAddress ->
  is_word A -> is_word S -> is_word (A + S) ->
  A < free_start -> free_start < A + S ->
  IsAddressAligned free_start (pa_CommitPageSize (allocator_at E a)) = true ->
  let k := free_start - A in
  VirtualMemory_Release E this free_start s =
  ((if fst (pa_ReleasePages (allocator_at E a) A S k (world s))
    then Ok (S - k) else Crash CheckFailed),
   released E a A S k (stored this (mkVM (Some a) A k) s)).
Proof.
  intros Hl HA HwA HwS HwAS Hlo Hhi Hal k.
  unfold is_word in *.
  assert (Hk : wrap (free_start - A) = k) by (apply wrap_small; unfold is_word; lia).
  assert (Hf : wrap (S - k) = S - k) by (apply wrap_small; unfold is_word; lia).
  assert (Hn : wrap (S - (S - k)) = k)
    by (replace (S - (S - k)) with k by lia; apply wrap_small; unfold is_word; lia).
  assert (He : wrap (A + S) = A + S) by (apply wrap_small; exact HwAS).
  unfold VirtualMemory_Release.
  erewrite bind_Ok; cycle 1.
  { apply DCHECK_holds. intros _.
    erewrite bind_Ok by (apply load_run; exact Hl).
    unfold ret, IsReserved. cbn [address_].
    apply Z.eqb_neq in HA. now rewrite HA. }
  erewrite bind_Ok; cycle 1.
  { apply DCHECK_holds. intros _.
    erewrite bind_Ok by (apply load_run; exact Hl).
    cbn [page_allocator_ deref]. unfold bind, ret. now rewrite Hal. }
  erewrite bind_Ok by (apply load_run; exact Hl).
  cbn [address_ size_]. rewrite Hk, Hf.
  erewrite bind_Ok; cycle 1.
  { apply CHECK_pass.
    erewrite bind_Ok by (apply load_run; exact Hl).
    unfold ret, InVM. cbn [address_ size_].
    replace (free_start + (S - k)) with (A + S) by (unfold k; lia).
    rewrite Z.leb_refl.
    replace (A <=? free_start) with true by (symmetry; apply Z.leb_le; lia).
    reflexivity. }
  erewrite bind_Ok; cycle 1.
  { apply DCHECK_holds. intros _.
    erewrite bind_Ok by (apply load_run; exact Hl).
    unfold ret. cbn [address_].
    replace (A <? free_start) with true by (symmetry; apply Z.ltb_lt; lia).
    reflexivity. }
  erewrite bind_Ok; cycle 1.
  { apply DCHECK_holds. intros _.
    erewrite bind_Ok by (apply load_run; exact Hl).
    unfold ret. cbn [address_ size_]. rewrite He.
    replace (free_start <? A + S) with true by (symmetry; apply Z.ltb_lt; lia).
    reflexivity. }
  erewrite bind_Ok; cycle 1.
  { erewrite bind_Ok by (apply load_run; exact Hl).
    cbn [address_ size_]. rewrite Hn.
    eapply set_size__run. exact Hl. }
  cbn [page_allocator_ address_].
  assert (Hc : (let* vm := load this in
                ReleasePages E (page_allocator_ vm) (address_ vm) S (size_ vm))
                 (stored this (mkVM (Some a) A k) s)
               = (Ok (fst (pa_ReleasePages (allocator_at E a) A S k (world s))),
                  released E a A S k (stored this (mkVM (Some a) A k) s))).
  { erewrite bind_Ok by apply load_run, lookup_stored.
    cbn [page_allocator_ address_ size_].
    apply (ReleasePages_run E a A S k (stored this (mkVM (Some a) A k) s)).
    intros _. unfold k. lia. }
  unfold bind at 1. rewrite (CHECK_run _ _ _ _ Hc).
  destruct (fst _); reflexivity.
Qed.

(** C3.  [Release] on a Reserved handle of base [A] and size [S], at a
    [free_start] strictly inside the range and aligned to the commit-page
    granularity: the stored size becomes [k = free_start - A], base address
    and allocator stay, the page allocator is asked once to release
    [(A, S, k)] and the handle store that call sees already holds the size
    [k]; [Release] answers [S - k] (the [CHECK] on the page allocator's answer
    stops the run if it refused). *)
Theorem VirtualMemory_Release_shrinks this a A S free_start s :
  handles s !! this = Some (mkVM (Some a) A S) ->
  A <> kNullAddress ->
  is_word A -> is_word S -> is_word (A + S) ->
  A < free_start -> free_start < A + S ->
  IsAddressAligned free_start (pa_CommitPageSize (allocator_at E a)) = true ->
  let k := free_start - A in
  let answer := pa_ReleasePages (allocator_at E a) A S k (world s) in
  let run := VirtualMemory_Release E this free_start s in
  fst run = (if fst answer then Ok (S - k) else Crash CheckFailed) /\
  handles (snd run) !! this = Some (mkVM (Some a) A k) /\
  handles (snd run) = <[this := mkVM (Some a) A k]> (handles s) /\
  world (snd run) = snd answer /\
  exists rest,
    since s (snd run)
    = mkObs (CallReleasePages a A S k)
        (<[this := mkVM (Some a) A k]> (handles s)) :: rest /\
    forallb is_lsan (calls rest) = true.
Proof.
  intros Hl HA HwA HwS HwAS Hlo Hhi Hal k answer run. subst run.
  rewrite (VirtualMemory_Release_run this a A S free_start s
             Hl HA HwA HwS HwAS Hlo Hhi Hal).
  cbn [fst snd]. fold k. split; [reflexivity|].
  rewrite handles_released, world_released.
  split; [apply lookup_stored|]. split; [reflexivity|]. split; [reflexivity|].
  apply (is_lsan_released a A S k (stored this (mkVM (Some a) A k) s)).
Qed.

(** *** Permission change *)

(** What [InVM] decides, when neither range wraps around the address
    space. *)
Lemma InVM_inside vm address size :
  is_word (address_ vm + size_ vm) -> is_word (address + size) ->
  InVM vm address size = true <->
  address_ vm <= address /\ address + size <= address_ vm + size_ vm.
Proof.
  intros H1 H2. unfold InVM. rewrite !wrap_small by assumption.
  rewrite andb_true_iff, !Z.leb_le. reflexivity.
Qed.

(** C9.  [VirtualMemory::SetPermissions] on a handle with an allocator: a
    target range that is not within the reserved range stops the run at the
    [CHECK], before any call; otherwise the page allocator is asked exactly
    once, nothing else is called, and its answer is what the method
    returns -- unless the answer is false in a debug build, where the
    [DCHECK] on it stops the run. *)
Theorem VirtualMemory_SetPermissions_delegates this vm a address size access s :
  handles s !! this = Some vm ->
  page_allocator_ vm = Some a ->
  let answer := pa_SetPermissions (allocator_at E a) address size access (world s) in
  let run := VirtualMemory_SetPermissions E this address size access s in
  (InVM vm address size = false -> run = (Crash CheckFailed, s)) /\
  (InVM vm address size = true ->
   fst run = (if fst answer then Ok true
              else if debug E then Crash DcheckFailed else Ok false) /\
   since s (snd run)
   = mkObs (CallSetPermissions a address size access) (handles s) :: nil /\
   world (snd run) = snd answer /\
   handles (snd run) = handles s) /\
  (is_word (address_ vm + size_ vm) -> is_word (address + size) ->
   (InVM vm address size = true <->
    address_ vm <= address /\ address + size <= address_ vm + size_ vm)).
Proof.
  intros Hl Ha answer run. subst run. unfold VirtualMemory_SetPermissions.
  split; [|split].
  - intros Hin. erewrite bind_Crash; [reflexivity|].
    apply CHECK_fail.
    erewrite bind_Ok by (apply load_run; exact Hl).
    unfold ret. now rewrite Hin.
  - intros Hin.
    erewrite bind_Ok; cycle 1.
    { apply CHECK_pass.
      erewrite bind_Ok by (apply load_run; exact Hl).
      unfold ret. now rewrite Hin. }
    erewrite bind_Ok by (apply load_run; exact Hl).
    rewrite Ha.
    erewrite bind_Ok by apply SetPermissions_run.
    fold answer. unfold DCHECK.
    destruct (fst answer), (debug E); cbv [bind ret crash]; cbn [fst snd];
      (split; [reflexivity|]); (split; [since_norm; reflexivity|]);
      split; reflexivity.
  - apply InVM_inside.
Qed.

(** *** Ownership transfer *)

Lemma VirtualMemory_TakeControl_run this from vmA vmB s :
  handles s !! from = Some vmA ->
  handles s !! this = Some vmB ->
  this <> from ->
  (debug E = true -> IsReserved vmB = false) ->
  VirtualMemory_TakeControl E this from s
  = (Ok tt, stored from empty_vm (stored this vmA s)).
Proof.
  intros HA HB Hne Hempty. unfold VirtualMemory_TakeControl.
  erewrite bind_Ok; cycle 1.
  { apply DCHECK_holds. intros Hd.
    erewrite bind_Ok by (apply load_run; exact HB).
    unfold ret. now rewrite (Hempty Hd). }
  erewrite bind_Ok; cycle 1.
  { erewrite bind_Ok by (apply load_run; exact HA).
    apply set_page_allocator__run. exact HB. }
  erewrite bind_Ok; cycle 1.
  { erewrite bind_Ok
      by (apply load_run; rewrite lookup_stored_ne by exact Hne; exact HA).
    apply set_address__run, lookup_stored. }
  rewrite stored_stored. cbn [page_allocator_ address_ size_].
  erewrite bind_Ok; cycle 1.
  { erewrite bind_Ok
      by (apply load_run; rewrite lookup_stored_ne by exact Hne; exact HA).
    apply set_size__run, lookup_stored. }
  rewrite stored_stored. cbn [page_allocator_ address_ size_].
  erewrite VirtualMemory_Reset_run
    by (rewrite lookup_stored_ne by exact Hne; exact HA).
  now destruct vmA.
Qed.

(** C4.  [TakeControl] from a Reserved handle [A] into an Empty handle [B]:
    [B] ends with the allocator, address and size [A] had, [A] ends Empty;
    nothing is called in between, and a store in which no two handles
    described the same range is again such a store.  In a debug build a
    Reserved destination stops the run at the [DCHECK]. *)
Theorem VirtualMemory_TakeControl_moves this from vmA vmB s :
  handles s !! from = Some vmA ->
  handles s !! this = Some vmB ->
  IsReserved vmA = true ->
  let run := VirtualMemory_TakeControl E this from s in
  (IsReserved vmB = false ->
   fst run = Ok tt /\
   handles (snd run) !! this = Some vmA /\
   handles (snd run) !! from = Some empty_vm /\
   (forall l, l <> this -> l <> from -> handles (snd run) !! l = handles s !! l) /\
   since s (snd run) = nil /\
   world (snd run) = world s /\
   (exclusive (handles s) -> exclusive (handles (snd run)))) /\
  (IsReserved vmB = true -> debug E = true -> run = (Crash DcheckFailed, s)).
Proof.
  intros HA HB HrA run. split.
  - intros HrB.
    assert (Hne : this <> from).
    { intros ->. rewrite HA in HB. injection HB as ->. congruence. }
    subst run.
    rewrite (VirtualMemory_TakeControl_run this from vmA vmB s HA HB Hne (fun _ => HrB)).
    cbn [fst snd]. split; [reflexivity|].
    split; [rewrite lookup_stored_ne by auto; apply lookup_stored|].
    split; [apply lookup_stored|].
    split; [intros l H1 H2; now rewrite !lookup_stored_ne by auto|].
    split; [unfold since; cbn [trace stored]; apply drop_all|].
    split; [reflexivity|].
    intros Hex l1 l2 vm1 vm2 H1 H2 Hr Heq.
    assert (Hsrc : forall l vm, handles (stored from empty_vm (stored this vmA s)) !! l
                                = Some vm ->
                                address_ vm <> kNullAddress ->
                                (l = this /\ vm = vmA) \/
                                (l <> this /\ l <> from /\ handles s !! l = Some vm)).
    { intros l vm Hlk Hnz.
      destruct (decide (l = from)) as [->|Hlf].
      - rewrite lookup_stored in Hlk. injection Hlk as <-. now contradiction Hnz.
      - rewrite lookup_stored_ne in Hlk by auto.
        destruct (decide (l = this)) as [->|Hlt].
        + rewrite lookup_stored in Hlk. injection Hlk as <-. now left.
        + rewrite lookup_stored_ne in Hlk by auto. now right. }
    assert (Hr2 : address_ vm2 <> kNullAddress) by congruence.
    destruct (Hsrc l1 vm1 H1 Hr) as [[-> ->] | (Hn1 & Hn1' & Hl1)];
      destruct (Hsrc l2 vm2 H2 Hr2) as [[-> ->] | (Hn2 & Hn2' & Hl2)].
    + reflexivity.
    + exfalso. apply Hn2'. symmetry. exact (Hex from l2 vmA vm2 HA Hl2 Hr Heq).
    + exfalso. apply Hn1'. exact (Hex l1 from vm1 vmA Hl1 HA Hr Heq).
    + exact (Hex l1 l2 vm1 vm2 Hl1 Hl2 Hr Heq).
  - intros HrB Hd. subst run. unfold VirtualMemory_TakeControl.
    erewrite bind_Crash; [reflexivity|].
    apply DCHECK_fail; [exact Hd|].
    erewrite bind_Ok by (apply load_run; exact HB).
    unfold ret. now rewrite HrB.
Qed.

(** *** The invariant of the data model *)

Lemma three_way_two_way vm : three_way vm -> two_way vm.
Proof. intros [[H1 _] H2]. split; assumption. Qed.

Lemma three_way_empty : three_way empty_vm.
Proof. unfold three_way, empty_vm. cbn. tauto. Qed.

Lemma IsReserved_true vm : IsReserved vm = true <-> address_ vm <> kNullAddress.
Proof. unfold IsReserved. rewrite negb_true_iff. apply Z.eqb_neq. Qed.

Lemma IsReserved_false vm : IsReserved vm = false <-> address_ vm = kNullAddress.
Proof. unfold IsReserved. rewrite negb_false_iff. apply Z.eqb_eq. Qed.

(** [Free] leaves the Empty handle behind, however the page allocator
    answers. *)
Lemma VirtualMemory_Free_handles this vm s :
  handles s !! this = Some vm -> IsReserved vm = true ->
  handles (snd (VirtualMemory_Free E this s)) = <[this := empty_vm]> (handles s).
Proof.
  intros Hl Hr. unfold VirtualMemory_Free.
  erewrite bind_Ok; cycle 1.
  { apply DCHECK_holds. intros _.
    erewrite bind_Ok by (apply load_run; exact Hl).
    unfold ret. now rewrite Hr. }
  erewrite bind_Ok by (apply load_run; exact Hl).
  erewrite bind_Ok; cycle 1.
  { apply CHECK_pass.
    erewrite bind_Ok by (apply load_run; exact Hl).
    unfold ret. now rewrite InVM_whole. }
  erewrite bind_Ok by (eapply VirtualMemory_Reset_run; exact Hl).
  assert (Hq : quiet (CHECK (let* pa := deref (page_allocator_ vm) in
                             FreePages E (page_allocator_ vm) (address_ vm)
                               (RoundUp (size_ vm)
                                  (pa_AllocatePageSize (allocator_at E pa)))))).
  { quiet_steps. apply FreePages_quiet. }
  now rewrite Hq.
Qed.

(** The handles after an operation called under its preconditions. *)
Lemma perform_handles op s :
  operation_requires E op s ->
  map_Forall (fun _ vm => two_way vm) (handles s) ->
  let h' := handles (snd (perform E op s)) in
  match op with
  | OpConstruct this a size hint alignment =>
      exists r,
        h' = <[this := mkVM (Some a) r
                         (if r =? kNullAddress then 0
                          else RoundUp size (pa_AllocatePageSize (allocator_at E a)))]>
               (handles s)
  | OpFree this => h' = <[this := empty_vm]> (handles s)
  | OpRelease this free_start =>
      exists a A S,
        handles s !! this = Some (mkVM (Some a) A S) /\ A <> kNullAddress /\
        A < free_start /\
        h' = <[this := mkVM (Some a) A (free_start - A)]> (handles s)
  | OpTakeControl this from =>
      exists vmA,
        handles s !! from = Some vmA /\
        h' = <[from := empty_vm]> (<[this := vmA]> (handles s))
  | OpReset this => h' = handles s \/ h' = <[this := empty_vm]> (handles s)
  end.
Proof.
  intros Hreq Hinv. destruct op as [this a size hint alignment | this
                                   | this free_start | this from | this];
    cbn [perform operation_requires] in *; cbv zeta.
  - rewrite VirtualMemory_VirtualMemory_run. cbv zeta.
    pose proof (AllocatePages_quiet E (Some a) hint
                  (RoundUp size (pa_AllocatePageSize (allocator_at E a)))
                  (RoundUp alignment (pa_AllocatePageSize (allocator_at E a)))
                  kNoAccess (stored this (mkVM (Some a) kNullAddress 0) s)) as Hq.
    destruct (AllocatePages _ _ _ _ _ _ _) as [[r|f] s1]; cbn [snd] in *.
    + exists r. cbn [handles stored]. rewrite Hq. cbn [handles stored].
      apply insert_insert_eq.
    + exists kNullAddress. rewrite Hq. reflexivity.
  - destruct Hreq as (vm & Hl & Hr). now apply VirtualMemory_Free_handles with vm.
  - destruct Hreq as (vm & Hl & Hr & HwA & HwS & HwAS & Hlo & Hhi & Hal).
    apply IsReserved_true in Hr.
    destruct vm as [[a|] A S]; cbn [address_ size_ page_allocator_] in *.
    + exists a, A, S. split; [exact Hl|]. split; [exact Hr|]. split; [exact Hlo|].
      unfold bind.
      rewrite (VirtualMemory_Release_run this a A S free_start s
                 Hl Hr HwA HwS HwAS Hlo Hhi (Hal a eq_refl)).
      destruct (fst _); cbn [snd ret]; now rewrite handles_released.
    + exfalso. apply Hr. exact (proj2 (Hinv this _ Hl) eq_refl).
  - destruct Hreq as (vmA & vmB & HA & HB & HrA & HrB).
    assert (Hne : this <> from).
    { intros ->. rewrite HA in HB. injection HB as ->. congruence. }
    exists vmA. split; [exact HA|].
    now rewrite (VirtualMemory_TakeControl_run this from vmA vmB s HA HB Hne
                   (fun _ => HrB)).
  - destruct (handles s !! this) as [vm|] eqn:Hl.
    + right. now rewrite (VirtualMemory_Reset_run this vm s Hl).
    + left. now rewrite (VirtualMemory_Reset_wild this s Hl).
Qed.

(** C2 (as amended).  Every operation on a handle -- construction, explicit
    free, tail release, ownership transfer, reset -- called under its
    preconditions leaves every handle with: the base address is null if and
    only if the size is zero, and a handle without allocator has a null base
    address.  The allocator is none exactly when the base address is null as
    well, after every operation but one: a constructor whose reservation
    failed leaves the handle with the allocator it was given, a null address
    and size zero. *)
Theorem operations_keep_invariant op s :
  operation_requires E op s ->
  let h' := handles (snd (perform E op s)) in
  (map_Forall (fun _ vm => two_way vm) (handles s) ->
   map_Forall (fun _ vm => two_way vm) h') /\
  (map_Forall (fun _ vm => three_way vm) (handles s) ->
   map_Forall (fun l vm => three_way vm \/ failed_construction op l vm) h').
Proof.
  intros Hreq h'.
  assert (Hstep : map_Forall (fun _ vm => two_way vm) (handles s) ->
                  map_Forall (fun _ vm => two_way vm) h' /\
                  (map_Forall (fun _ vm => three_way vm) (handles s) ->
                   map_Forall (fun l vm => three_way vm \/ failed_construction op l vm)
                     h')).
  { intros Hinv. pose proof (perform_handles op s Hreq Hinv) as Hh.
    cbv zeta in Hh. fold h' in Hh.
    assert (Hweak : map_Forall (fun _ vm => three_way vm) (handles s) ->
                    map_Forall (fun l vm => three_way vm \/ failed_construction op l vm)
                      (handles s))
      by (intros H3 l vm Hl; left; exact (H3 l vm Hl)).
    destruct op as [this a size hint alignment | this
                   | this free_start | this from | this];
      cbn [operation_requires] in Hreq.
    - destruct Hh as [r ->]. split; [|intros H3; specialize (Hweak H3)];
        apply map_Forall_insert_2; auto.
      + unfold two_way. cbn. destruct (r =? kNullAddress) eqn:Hr.
        * apply Z.eqb_eq in Hr. split; [tauto|]. discriminate.
        * apply Z.eqb_neq in Hr. unfold kNullAddress in *. split; [tauto|].
          discriminate.
      + destruct (r =? kNullAddress) eqn:Hr.
        * apply Z.eqb_eq in Hr. subst r. right.
          exists a, size, hint, alignment. split; reflexivity.
        * apply Z.eqb_neq in Hr. left. unfold three_way, kNullAddress in *. cbn.
          split; split; intros; try discriminate; try tauto.
    - rewrite Hh. split; [|intros H3; specialize (Hweak H3)];
        apply map_Forall_insert_2; auto.
      + apply three_way_two_way, three_way_empty.
      + left. apply three_way_empty.
    - destruct Hh as (a & A & S & Hl & HA & Hlo & ->).
      assert (Hk : free_start - A <> 0) by lia.
      split; [|intros H3; specialize (Hweak H3)];
        apply map_Forall_insert_2; auto.
      + unfold two_way. cbn. split; [tauto|]. discriminate.
      + left. unfold three_way. cbn. split; split; intros; try discriminate; tauto.
    - destruct Hh as (vmA & HA & ->).
      split; [|intros H3; pose proof (H3 from vmA HA); specialize (Hweak H3)];
        apply map_Forall_insert_2; try apply map_Forall_insert_2; auto.
      + apply three_way_two_way, three_way_empty.
      + exact (Hinv from vmA HA).
      + left. apply three_way_empty.
    - destruct Hh as [-> | ->]; (split; [|intros H3; specialize (Hweak H3)]);
        try apply map_Forall_insert_2; auto.
      + apply three_way_two_way, three_way_empty.
      + left. apply three_way_empty. }
  split.
  - intros Hinv. exact (proj1 (Hstep Hinv)).
  - intros H3. apply Hstep; [|exact H3].
    intros l vm Hl. apply three_way_two_way. exact (H3 l vm Hl).
Qed.

End Handle.

(** * The statements on the simulated collaborators *)

Ltac word_bounds := vm_compute; split; [congruence | reflexivity].

Lemma Sim_pow2 : is_pow2 4096.
Proof. exists 12. split; [word_bounds | reflexivity]. Defined.

Lemma Sim_two_handles_two_way :
  map_Forall (fun _ vm => two_way vm) (handles Sim.two_handles).
Proof.
  apply map_Forall_insert_2; [|apply map_Forall_insert_2; [|apply map_Forall_empty]].
  - split; [split; reflexivity | reflexivity].
  - split; [split; intros H; discriminate H | intros H; discriminate H].
Defined.

(** [AlignedAllocVirtualMemory] on the simulated store: the reservation
    ends in the handle at 1, and the local handle, built at 2, is gone. *)
Example AlignedAllocVirtualMemory_transfers :
  let run := AlignedAllocVirtualMemory Sim.debug_env 2%nat (Some 1%nat) 10000 4096 0
               1%nat (mkState (<[1%nat := empty_vm]> ∅) 0%nat nil) in
  fst run = Ok true /\
  handles (snd run) !! 1%nat = Some (mkVM (Some 1%nat) Sim.region 12288) /\
  handles (snd run) !! 2%nat = None /\
  calls (trace (snd run))
  = CallAllocatePages 1%nat 0 12288 4096 kNoAccess
    :: CallOnCriticalMemoryPressureLength 12288
    :: CallOnCriticalMemoryPressure
    :: CallAllocatePages 1%nat 0 12288 4096 kNoAccess :: nil.
Proof. repeat split; reflexivity. Qed.

(** C2 as the specification words it fails: after a constructor whose
    reservation failed, the handle has an allocator and a null address. *)
Lemma constructor_failure_keeps_allocator :
  let s' := snd (VirtualMemory_VirtualMemory Sim.debug_env 0%nat (Some 2%nat)
                   10000 0 4096 Sim.boot) in
  handles s' !! 0%nat = Some (mkVM (Some 2%nat) kNullAddress 0) /\
  ~ three_way (mkVM (Some 2%nat) kNullAddress 0).
Proof.
  split; [reflexivity|].
  intros [[_ H] _]. cbn in H. specialize (H eq_refl). discriminate H.
Qed.

(** C2: a tail release on the simulated store. *)
Lemma operations_keep_invariant_witness :
  map_Forall (fun _ vm => two_way vm)
    (handles (snd (perform Sim.debug_env (OpRelease 0%nat (Sim.region + 4096))
                     Sim.two_handles))).
Proof.
  apply (operations_keep_invariant Sim.debug_env (OpRelease 0%nat (Sim.region + 4096))
           Sim.two_handles).
  - exists Sim.reserved3. split; [reflexivity|]. split; [reflexivity|].
    split; [word_bounds|]. split; [word_bounds|]. split; [word_bounds|].
    split; [reflexivity|]. split; [reflexivity|].
    intros a H. injection H as <-. reflexivity.
  - exact Sim_two_handles_two_way.
Defined.

(** C3: three pages shrunk to one. *)
Lemma VirtualMemory_Release_shrinks_witness :
  let run := VirtualMemory_Release Sim.debug_env 0%nat (Sim.region + 4096)
               Sim.two_handles in
  fst run = Ok 8192 /\
  handles (snd run) !! 0%nat = Some (mkVM (Some 0%nat) Sim.region 4096).
Proof.
  assert (HA : Sim.region <> kNullAddress) by (vm_compute; congruence).
  assert (Hw1 : is_word Sim.region) by word_bounds.
  assert (Hw2 : is_word 12288) by word_bounds.
  assert (Hw3 : is_word (Sim.region + 12288)) by word_bounds.
  destruct (VirtualMemory_Release_shrinks Sim.debug_env 0%nat 0%nat Sim.region 12288
              (Sim.region + 4096) Sim.two_handles
              eq_refl HA Hw1 Hw2 Hw3 eq_refl eq_refl eq_refl)
    as (H1 & H2 & _).
  split; [exact H1 | exact H2].
Defined.

(** C4: the reserved handle at 0 moved into the empty handle at 1. *)
Lemma VirtualMemory_TakeControl_moves_witness :
  let run := VirtualMemory_TakeControl Sim.debug_env 1%nat 0%nat Sim.two_handles in
  fst run = Ok tt /\
  handles (snd run) !! 1%nat = Some Sim.reserved3 /\
  handles (snd run) !! 0%nat = Some empty_vm.
Proof.
  destruct (VirtualMemory_TakeControl_moves Sim.debug_env 1%nat 0%nat Sim.reserved3
              empty_vm Sim.two_handles eq_refl eq_refl eq_refl) as [H _].
  destruct (H eq_refl) as (H1 & H2 & H3 & _).
  split; [exact H1|]. split; [exact H2 | exact H3].
Defined.

(** C5: the scenario of the specification, page size 4096 and size 10000. *)
Lemma VirtualMemory_constructor_rounds_witness :
  let run := VirtualMemory_VirtualMemory Sim.debug_env 0%nat (Some 1%nat) 10000 0 4096
               Sim.boot in
  fst run = Ok tt /\
  handles (snd run) !! 0%nat = Some (mkVM (Some 1%nat) Sim.region 12288) /\
  Sim.region mod 4096 = 0.
Proof.
  destruct (VirtualMemory_constructor_rounds Sim.debug_env 0%nat 1%nat 10000 0 4096
              Sim.boot (fun _ => conj Sim_pow2 eq_refl)) as (H1 & _).
  split; [exact H1|]. split; reflexivity.
Defined.

(** C6: the reserved handle of the simulated store freed. *)
Lemma VirtualMemory_Free_resets_first_witness :
  let run := VirtualMemory_Free Sim.debug_env 0%nat Sim.two_handles in
  fst run = Ok tt /\
  handles (snd run) !! 0%nat = Some empty_vm /\
  exists rest,
    since Sim.two_handles (snd run)
    = mkObs (CallFreePages 0%nat Sim.region 12288)
        (<[0%nat := empty_vm]> (handles Sim.two_handles)) :: rest.
Proof.
  assert (HA : Sim.region <> kNullAddress) by (vm_compute; congruence).
  destruct (VirtualMemory_Free_resets_first Sim.debug_env 0%nat 0%nat Sim.region 12288
              Sim.two_handles eq_refl HA (fun _ => Sim_pow2))
    as (H1 & H2 & _ & _ & rest & H5 & _).
  split; [exact H1|]. split; [exact H2|]. exists rest. exact H5.
Defined.

(** C9: one page of the reserved handle made read-write. *)
Lemma VirtualMemory_SetPermissions_delegates_witness :
  let run := VirtualMemory_SetPermissions Sim.debug_env 0%nat Sim.region 4096
               kReadWrite Sim.two_handles in
  fst run = Ok true /\
  since Sim.two_handles (snd run)
  = mkObs (CallSetPermissions 0%nat Sim.region 4096 kReadWrite)
      (handles Sim.two_handles) :: nil /\
  VirtualMemory_SetPermissions Sim.debug_env 0%nat 0 4096 kReadWrite Sim.two_handles
  = (Crash CheckFailed, Sim.two_handles).
Proof.
  destruct (VirtualMemory_SetPermissions_delegates Sim.debug_env 0%nat Sim.reserved3
              0%nat Sim.region 4096 kReadWrite Sim.two_handles eq_refl eq_refl)
    as (_ & H & _).
  destruct (H eq_refl) as (H1 & H2 & _).
  split; [exact H1|]. split; [exact H2|].
  exact (proj1 (VirtualMemory_SetPermissions_delegates Sim.debug_env 0%nat
                  Sim.reserved3 0%nat 0 4096 kReadWrite Sim.two_handles
                  eq_refl eq_refl) eq_refl).
Defined.

(** C10: the constructor and [AllocatePage] on the simulated allocator. *)
Lemma constructor_reserves_no_access_witness :
  (exists more,
      allocate_permissions
        (since Sim.boot
           (snd (VirtualMemory_VirtualMemory Sim.debug_env 0%nat (Some 0%nat) 10000 0
                   4096 Sim.boot)))
      = kNoAccess :: more) /\
  (exists more,
      allocate_permissions
        (since Sim.boot (snd (AllocatePage Sim.debug_env (Some 0%nat) 0 0 Sim.boot)))
      = kReadWrite :: more).
Proof.
  destruct (constructor_reserves_no_access Sim.debug_env 0%nat (Some 0%nat) 0%nat
              10000 0 4096 0 Sim.boot (or_introl eq_refl)) as (_ & _ & H3 & H4).
  split.
  - apply (H3 eq_refl). intros _. exact (conj Sim_pow2 eq_refl).
  - apply (H4 eq_refl). intros _. split; reflexivity.
Defined.

(** * Further properties of the paged functions *)

Section PagedEdges.

Context {W : Type}.
Variable E : Env W.

(** *** Computations that call nothing *)

Lemma silent_ret {A} (a : A) : silent (ret a : M W A).
Proof. intros s. split; reflexivity. Qed.

Lemma silent_crash {A} f : silent (crash f : M W A).
Proof. intros s. split; reflexivity. Qed.

Lemma silent_bind {A B} (m : M W A) (k : A -> M W B) :
  silent m -> (forall a, silent (k a)) -> silent (bind m k).
Proof.
  intros Hm Hk s. unfold bind. destruct (Hm s) as [Hw Ht].
  destruct (m s) as [[a|f] s1]; cbn [snd] in *.
  - destruct (Hk a s1) as [Hw' Ht']. split; congruence.
  - split; assumption.
Qed.

Lemma silent_load this : silent (load this : M W _).
Proof. intros s. unfold load. destruct (handles s !! this); split; reflexivity. Qed.

Lemma silent_store this vm : silent (store this vm : M W _).
Proof. intros s. split; reflexivity. Qed.

Lemma silent_deref p : silent (deref p : M W _).
Proof. destruct p; [apply silent_ret | apply silent_crash]. Qed.

Lemma silent_DCHECK c : silent c -> silent (DCHECK E c).
Proof.
  intros Hc. unfold DCHECK. destruct (debug E); [|apply silent_ret].
  apply silent_bind; [assumption|]. intros []; [apply silent_ret | apply silent_crash].
Qed.

Lemma silent_CHECK c : silent c -> silent (CHECK c : M W _).
Proof.
  intros Hc. unfold CHECK.
  apply silent_bind; [assumption|]. intros []; [apply silent_ret | apply silent_crash].
Qed.

(** *** Computations that write their own handles only *)

Lemma writes_only_ret {A} ls (a : A) : writes_only ls (ret a : M W A).
Proof. intros s l _. reflexivity. Qed.

Lemma writes_only_crash {A} ls f : writes_only ls (crash f : M W A).
Proof. intros s l _. reflexivity. Qed.

Lemma writes_only_bind {A B} ls (m : M W A) (k : A -> M W B) :
  writes_only ls m -> (forall a, writes_only ls (k a)) -> writes_only ls (bind m k).
Proof.
  intros Hm Hk s l Hl. unfold bind. specialize (Hm s l Hl).
  destruct (m s) as [[a|f] s1]; cbn [snd] in *.
  - rewrite (Hk a s1 l Hl). exact Hm.
  - exact Hm.
Qed.

Lemma writes_only_quiet {A} ls (m : M W A) : quiet m -> writes_only ls m.
Proof. intros Hq s l _. now rewrite Hq. Qed.

Lemma writes_only_load ls this : writes_only ls (load this : M W _).
Proof. intros s l _. unfold load. now destruct (handles s !! this). Qed.

Lemma writes_only_store ls this vm :
  In this ls -> writes_only ls (store this vm : M W _).
Proof.
  intros Hin s l Hl. cbn. apply lookup_insert_ne. intros ->. contradiction.
Qed.

Lemma writes_only_DCHECK ls c : writes_only ls c -> writes_only ls (DCHECK E c).
Proof.
  intros Hc. unfold DCHECK. destruct (debug E); [|apply writes_only_ret].
  apply writes_only_bind; [assumption|].
  intros []; [apply writes_only_ret | apply writes_only_crash].
Qed.

Lemma writes_only_CHECK ls c : writes_only ls c -> writes_only ls (CHECK c : M W _).
Proof.
  intros Hc. unfold CHECK.
  apply writes_only_bind; [assumption|].
  intros []; [apply writes_only_ret | apply writes_only_crash].
Qed.

End PagedEdges.

Create HintDb silent.
Create HintDb writes.

#[local] Hint Resolve silent_ret silent_crash silent_load silent_store silent_deref
  : silent.

#[local] Hint Resolve writes_only_ret writes_only_crash writes_only_load : writes.

Ltac silent_steps :=
  repeat match goal with
    | |- silent (bind _ _) => apply silent_bind; [|intros ?]
    | |- silent (DCHECK _ _) => apply silent_DCHECK
    | |- silent (CHECK _) => apply silent_CHECK
    | |- silent (if ?b then _ else _) => destruct b
    | |- silent (match ?p with Some _ => _ | None => _ end) => destruct p
    | |- silent _ => solve [auto with silent]
    end.

Ltac writes_steps :=
  repeat match goal with
    | |- writes_only _ (bind _ _) => apply writes_only_bind; [|intros ?]
    | |- writes_only _ (DCHECK _ _) => apply writes_only_DCHECK
    | |- writes_only _ (CHECK _) => apply writes_only_CHECK
    | |- writes_only _ (store _ _) => apply writes_only_store; cbn; tauto
    | |- writes_only _ (if ?b then _ else _) => destruct b
    | |- writes_only _ (match ?p with Some _ => _ | None => _ end) => destruct p
    | |- writes_only _ _ => solve [auto with writes]
    end.

Section PagedFunctions.

Context {W : Type}.
Variable E : Env W.

(** The paged functions on a null allocator. *)
Lemma paged_null address size alignment new_size access allocated s :
  let stop {A} : Outcome A := Crash (if debug E then DcheckFailed else NullPointer) in
  AllocatePages E None address size alignment access s = (stop, s) /\
  FreePages E None address size s = (stop, s) /\
  ReleasePages E None address size new_size s = (stop, s) /\
  SetPermissions E None address size access s = (stop, s) /\
  AllocatePage E None address allocated s = (stop, s).
Proof.
  cbv zeta. unfold AllocatePages, FreePages, ReleasePages, SetPermissions,
    AllocatePage, DCHECK.
  destruct (debug E); repeat split; reflexivity.
Qed.

(** X1.  Every paged function called with a null allocator stops before it
    calls anything: at its [DCHECK] in a debug build, at the call through the
    null pointer otherwise.  The state is as it was. *)
Theorem paged_functions_null_allocator address size alignment new_size access
    allocated s :
  let stop {A} : Outcome A := Crash (if debug E then DcheckFailed else NullPointer) in
  AllocatePages E None address size alignment access s = (stop, s) /\
  FreePages E None address size s = (stop, s) /\
  ReleasePages E None address size new_size s = (stop, s) /\
  SetPermissions E None address size access s = (stop, s) /\
  AllocatePage E None address allocated s = (stop, s).
Proof.
  exact (paged_null address size alignment new_size access allocated s).
Qed.

(** X2.  In a debug build [AllocatePages] returns exactly when its hint is
    aligned to the alignment and its size is a multiple of the allocate-page
    granularity; otherwise it stops at a [DCHECK] before the page allocator
    is asked anything. *)
Theorem AllocatePages_checks_arguments a address size alignment access s :
  debug E = true ->
  let run := AllocatePages E (Some a) address size alignment access s in
  (AllocatePages_requires E a address size alignment ->
   exists r s', run = (Ok r, s')) /\
  (~ AllocatePages_requires E a address size alignment ->
   run = (Crash DcheckFailed, s)).
Proof.
  intros Hd run. split.
  - intros Hreq.
    destruct (AllocatePages_outcome E a address size alignment access s
                (fun _ => Hreq)) as (r & s' & Hrun & _).
    exists r, s'. exact Hrun.
  - intros Hno. subst run. unfold AllocatePages.
    erewrite bind_Ok by (apply DCHECK_pass; reflexivity).
    destruct (address =? AlignedAddress address alignment) eqn:Ha.
    + erewrite bind_Ok by (apply DCHECK_pass; reflexivity).
      erewrite bind_Crash; [reflexivity|].
      apply DCHECK_fail; [exact Hd|]. cbn [deref]. unfold bind, ret.
      destruct (0 =? Z.land size _) eqn:Hs; [|reflexivity].
      exfalso. apply Hno. apply Z.eqb_eq in Ha, Hs. split; congruence.
    + erewrite bind_Crash; [reflexivity|].
      apply DCHECK_fail; [exact Hd|]. reflexivity.
Qed.

(** X3.  When the first attempt succeeds, [AllocatePages] answers its
    address after that single call of the page allocator, and no pressure
    notification is fired. *)
Theorem AllocatePages_first_attempt a address size alignment access s :
  (debug E = true -> AllocatePages_requires E a address size alignment) ->
  attempt_result E a address size alignment access s <> kNullAddress ->
  let run := AllocatePages E (Some a) address size alignment access s in
  fst run = Ok (attempt_result E a address size alignment access s) /\
  world (snd run)
  = snd (pa_AllocatePages (allocator_at E a) address size alignment access (world s)) /\
  count_calls is_primitive (since s (snd run)) = 1%nat /\
  count_calls is_pressure (since s (snd run)) = 0%nat.
Proof.
  intros Hreq H1 run.
  pose proof (AllocatePages_loop_two E a address size alignment access kNullAddress s)
    as Hloop.
  cbv zeta in Hloop. apply Z.eqb_neq in H1. rewrite H1 in Hloop. cbn [negb] in Hloop.
  subst run. rewrite (AllocatePages_run E _ _ _ _ _ _ _ _ Hreq Hloop).
  cbn [fst snd]. split; [reflexivity|].
  split; [unfold registered; destruct (_ && _)%bool; reflexivity|].
  split; since_norm; reflexivity.
Qed.

(** X4.  [AllocatePages] registers a leak-sanitizer root region exactly when
    the build has the sanitizer, the allocator is the platform allocator and
    the result is not null; the region is the result with the requested
    size.  A failed allocation registers nothing. *)
Theorem AllocatePages_registers_root_region a address size alignment access s :
  (debug E = true -> AllocatePages_requires E a address size alignment) ->
  let run := AllocatePages E (Some a) address size alignment access s in
  exists r,
    fst run = Ok r /\
    lsan_calls (since s (snd run))
    = (if lsan_on E a && negb (r =? kNullAddress)
       then CallLsanRegisterRootRegion r size :: nil else nil).
Proof.
  intros Hreq run.
  pose proof (AllocatePages_loop_two E a address size alignment access kNullAddress s)
    as Hloop.
  cbv zeta in Hloop. subst run.
  destruct (negb (attempt_result E a address size alignment access s =? _));
    [|destruct (negb (attempt_result E a address size alignment access _ =? _))];
    rewrite (AllocatePages_run E _ _ _ _ _ _ _ _ Hreq Hloop);
    eexists; (split; [reflexivity|]); cbn [snd];
    since_norm; reflexivity.
Qed.

(** X5.  [FreePages] asks the page allocator once and answers what it
    answered; a refusal is neither retried nor followed by a pressure
    notification.  The leak-sanitizer root is unregistered on success only.
    In a debug build a size that is not a multiple of the allocate-page
    granularity stops the run before the page allocator is asked. *)
Theorem FreePages_asks_once a address size s :
  let page_size := pa_AllocatePageSize (allocator_at E a) in
  let answer := pa_FreePages (allocator_at E a) address size (world s) in
  let run := FreePages E (Some a) address size s in
  ((debug E = true -> Z.land size (wrap (page_size - 1)) = 0) ->
   fst run = Ok (fst answer) /\
   world (snd run) = snd answer /\
   handles (snd run) = handles s /\
   calls (since s (snd run))
   = CallFreePages a address size
     :: (if lsan_on E a && fst answer
         then CallLsanUnregisterRootRegion address size :: nil else nil)) /\
  (debug E = true -> Z.land size (wrap (page_size - 1)) <> 0 ->
   run = (Crash DcheckFailed, s)).
Proof.
  intros page_size answer run. split.
  - intros Hreq. subst run. rewrite (FreePages_run E a address size s Hreq).
    cbn [fst snd]. split; [reflexivity|].
    split; [apply world_freed|]. split; [apply handles_freed|].
    subst answer. since_norm; reflexivity.
  - intros Hd Hs. subst run. unfold FreePages.
    erewrite bind_Ok by (apply DCHECK_pass; reflexivity).
    erewrite bind_Crash; [reflexivity|].
    apply DCHECK_fail; [exact Hd|]. cbn [deref]. unfold bind, ret.
    fold page_size.
    destruct (0 =? Z.land size (wrap (page_size - 1))) eqn:H0; [|reflexivity].
    apply Z.eqb_eq in H0. congruence.
Qed.

(** X6.  [ReleasePages] asks the page allocator once and answers what it
    answered, without retry or pressure notification; on success the
    leak-sanitizer root is unregistered at the old size and registered again
    at the new one.  In a debug build a new size that is not smaller than the
    old one stops the run before the page allocator is asked. *)
Theorem ReleasePages_asks_once a address size new_size s :
  let answer := pa_ReleasePages (allocator_at E a) address size new_size (world s) in
  let run := ReleasePages E (Some a) address size new_size s in
  ((debug E = true -> new_size < size) ->
   fst run = Ok (fst answer) /\
   world (snd run) = snd answer /\
   handles (snd run) = handles s /\
   calls (since s (snd run))
   = CallReleasePages a address size new_size
     :: (if lsan_on E a && fst answer
         then CallLsanUnregisterRootRegion address size
              :: CallLsanRegisterRootRegion address new_size :: nil
         else nil)) /\
  (debug E = true -> size <= new_size -> run = (Crash DcheckFailed, s)).
Proof.
  intros answer run. split.
  - intros Hreq. subst run.
    rewrite (ReleasePages_run E a address size new_size s Hreq).
    cbn [fst snd]. split; [reflexivity|].
    split; [apply world_released|]. split; [apply handles_released|].
    subst answer. since_norm; reflexivity.
  - intros Hd Hs. subst run. unfold ReleasePages.
    erewrite bind_Ok by (apply DCHECK_pass; reflexivity).
    erewrite bind_Crash; [reflexivity|].
    apply DCHECK_fail; [exact Hd|]. unfold ret.
    replace (new_size <? size) with false; [reflexivity|].
    symmetry. apply Z.ltb_ge. exact Hs.
Qed.

(** X7.  [AllocatePage] reserves one page, aligned to a page, read-write:
    every call of the page allocator it makes asks for exactly that.  The
    out-parameter is set to the page size when the result is not null and is
    left as it was when the result is null. *)
Theorem AllocatePage_out_parameter a address allocated s :
  let page_size := pa_AllocatePageSize (allocator_at E a) in
  (debug E = true -> AllocatePages_requires E a address page_size page_size) ->
  let run := AllocatePage E (Some a) address allocated s in
  exists r s',
    run = (Ok (r, if r =? kNullAddress then allocated else page_size), s') /\
    AllocatePages E (Some a) address page_size page_size kReadWrite s = (Ok r, s') /\
    (exists rest, calls (since s s')
                  = CallAllocatePages a address page_size page_size kReadWrite :: rest) /\
    Forall (fun c => is_primitive c = true ->
                     c = CallAllocatePages a address page_size page_size kReadWrite)
      (calls (since s s')).
Proof.
  intros page_size Hreq run.
  destruct (AllocatePages_outcome E a address page_size page_size kReadWrite s Hreq)
    as (r & s' & Hrun & _ & _ & Hfirst).
  exists r, s'. subst run. rewrite AllocatePage_run. fold page_size. rewrite Hrun.
  split; [reflexivity|]. split; [reflexivity|]. split; [exact Hfirst|].
  pose proof (emits_since _ _ s
                (AllocatePages_emits E (Some a) a address page_size page_size
                   kReadWrite (or_introl eq_refl))) as Hem.
  rewrite Hrun in Hem. cbn [snd] in Hem.
  rewrite forallb_forall in Hem. apply Forall_forall. intros c Hc Hp.
  apply list_elem_of_In in Hc. specialize (Hem c Hc).
  destruct c; try discriminate Hp; cbn in Hem; try discriminate Hem.
  repeat (apply andb_prop in Hem as [Hem ?]).
  apply Nat.eqb_eq in Hem.
  repeat match goal with
         | H : (_ =? _) = true |- _ => apply Z.eqb_eq in H
         | H : bool_decide _ = true |- _ => apply bool_decide_eq_true_1 in H
         end.
  congruence.
Qed.

End PagedFunctions.

(** * Further properties of the reservation handle *)

Section HandleEdges.

Context {W : Type}.
Variable E : Env W.

Lemma stopped_at {A} f (s : State W) : stopped (Crash f : Outcome A, s) s.
Proof. split; [exists f; reflexivity|]. repeat split. Qed.

Lemma stored_same this vm (s : State W) :
  handles s !! this = Some vm -> handles (stored this vm s) = handles s.
Proof. intros H. cbn. now apply insert_id. Qed.

(** [Free] on the Empty handle. *)
Lemma VirtualMemory_Free_empty this s :
  handles s !! this = Some empty_vm ->
  stopped (VirtualMemory_Free E this s) s.
Proof.
  intros Hl. unfold VirtualMemory_Free. destruct (debug E) eqn:Hd.
  - erewrite bind_Crash; [apply stopped_at|].
    apply DCHECK_fail; [exact Hd|].
    erewrite bind_Ok by (apply load_run; exact Hl). reflexivity.
  - erewrite bind_Ok by now apply DCHECK_release.
    erewrite bind_Ok by (apply load_run; exact Hl).
    erewrite bind_Ok; cycle 1.
    { apply CHECK_pass.
      erewrite bind_Ok by (apply load_run; exact Hl). reflexivity. }
    erewrite bind_Ok by (eapply VirtualMemory_Reset_run; exact Hl).
    cbn [page_allocator_ empty_vm deref]. unfold CHECK.
    erewrite bind_Crash by (apply bind_Crash; reflexivity).
    split; [exists NullPointer; reflexivity|]. cbn [snd].
    split; [now apply stored_same|]. split; reflexivity.
Qed.

(** [SetPermissions] on the Empty handle. *)
Lemma VirtualMemory_SetPermissions_empty this address size access s :
  handles s !! this = Some empty_vm ->
  stopped (VirtualMemory_SetPermissions E this address size access s) s.
Proof.
  intros Hl. unfold VirtualMemory_SetPermissions.
  destruct (InVM empty_vm address size) eqn:Hin.
  - erewrite bind_Ok; cycle 1.
    { apply CHECK_pass.
      erewrite bind_Ok by (apply load_run; exact Hl).
      unfold ret. now rewrite Hin. }
    erewrite bind_Ok by (apply load_run; exact Hl).
    cbn [page_allocator_ empty_vm].
    erewrite bind_Crash; [apply stopped_at|].
    apply (paged_null E address size 0 0 access 0 s).
  - erewrite bind_Crash; [apply stopped_at|].
    apply CHECK_fail.
    erewrite bind_Ok by (apply load_run; exact Hl).
    unfold ret. now rewrite Hin.
Qed.

(** [Release] on the Empty handle: nothing is called; in a release build
    the size field may be overwritten before the run stops. *)
Lemma VirtualMemory_Release_empty this free_start s :
  handles s !! this = Some empty_vm ->
  let run := VirtualMemory_Release E this free_start s in
  (exists f, fst run = Crash f) /\
  world (snd run) = world s /\
  trace (snd run) = trace s /\
  exists n, handles (snd run) !! this = Some (mkVM None kNullAddress n).
Proof.
  intros Hl run. subst run. unfold VirtualMemory_Release.
  destruct (debug E) eqn:Hd.
  - erewrite bind_Crash; cycle 1.
    { apply DCHECK_fail; [exact Hd|].
      erewrite bind_Ok by (apply load_run; exact Hl). reflexivity. }
    cbn [fst snd]. split; [eexists; reflexivity|].
    split; [reflexivity|]. split; [reflexivity|]. exists 0. exact Hl.
  - erewrite bind_Ok by now apply DCHECK_release.
    erewrite bind_Ok by now apply DCHECK_release.
    erewrite bind_Ok by (apply load_run; exact Hl).
    cbn [address_ size_ empty_vm].
    set (free_size := wrap (0 - wrap (free_start - kNullAddress))).
    destruct (InVM empty_vm free_start free_size) eqn:Hin.
    + erewrite bind_Ok; cycle 1.
      { apply CHECK_pass.
        erewrite bind_Ok by (apply load_run; exact Hl).
        unfold ret. now rewrite Hin. }
      erewrite bind_Ok by now apply DCHECK_release.
      erewrite bind_Ok by now apply DCHECK_release.
      erewrite bind_Ok; cycle 1.
      { erewrite bind_Ok by (apply load_run; exact Hl).
        eapply set_size__run. exact Hl. }
      cbn [page_allocator_ address_ size_ empty_vm].
      erewrite bind_Crash; cycle 1.
      { unfold CHECK. erewrite bind_Crash; [reflexivity|].
        erewrite bind_Ok by apply load_run, lookup_stored.
        cbn [page_allocator_].
        apply (paged_null E kNullAddress 0 0 _ kNoAccess 0). }
      cbn [fst snd]. rewrite Hd. split; [eexists; reflexivity|].
      split; [reflexivity|]. split; [reflexivity|].
      eexists. apply lookup_stored.
    + erewrite bind_Crash; cycle 1.
      { apply CHECK_fail.
        erewrite bind_Ok by (apply load_run; exact Hl).
        unfold ret. now rewrite Hin. }
      cbn [fst snd]. split; [eexists; reflexivity|].
      split; [reflexivity|]. split; [reflexivity|]. exists 0. exact Hl.
Qed.

(** X8.  The allocating constructor given a null allocator stops before it
    calls anything, at its [DCHECK] in a debug build and at the call through
    the null pointer otherwise; the object it was building holds the three
    null fields. *)
Theorem constructor_null_allocator this size hint alignment s :
  let run := VirtualMemory_VirtualMemory E this None size hint alignment s in
  fst run = Crash (if debug E then DcheckFailed else NullPointer) /\
  handles (snd run) = <[this := empty_vm]> (handles s) /\
  world (snd run) = world s /\
  trace (snd run) = trace s.
Proof.
  cbv zeta. rewrite VirtualMemory_VirtualMemory_null. repeat split.
Qed.

(** X9.  On the Empty handle -- the state [Reset] leaves -- [Free],
    [SetPermissions] and [Release] all stop the run without calling the page
    allocator, in either build.  [Free] and [SetPermissions] leave the handle
    as it was; [Release] leaves its allocator and address null. *)
Theorem empty_handle_operations_stop this address size access free_start s :
  handles s !! this = Some empty_vm ->
  stopped (VirtualMemory_Free E this s) s /\
  stopped (VirtualMemory_SetPermissions E this address size access s) s /\
  (let run := VirtualMemory_Release E this free_start s in
   (exists f, fst run = Crash f) /\
   world (snd run) = world s /\
   trace (snd run) = trace s /\
   exists n, handles (snd run) !! this = Some (mkVM None kNullAddress n)).
Proof.
  intros Hl. split; [now apply VirtualMemory_Free_empty|].
  split; [now apply VirtualMemory_SetPermissions_empty|].
  now apply VirtualMemory_Release_empty.
Qed.

(** X10.  Double free: after [Free] on a Reserved handle, a second [Free]
    on the same handle stops the run and the page allocator is not asked
    again. *)
Theorem VirtualMemory_Free_twice this vm s :
  handles s !! this = Some vm -> IsReserved vm = true ->
  let s1 := snd (VirtualMemory_Free E this s) in
  stopped (VirtualMemory_Free E this s1) s1.
Proof.
  intros Hl Hr s1. apply VirtualMemory_Free_empty. subst s1.
  rewrite (VirtualMemory_Free_handles E this vm s Hl Hr). apply lookup_insert_eq.
Qed.

(** X11.  Use after transfer: once [TakeControl] has moved a reservation out
    of a handle, [Free], [SetPermissions] and [Release] on that source handle
    stop the run without calling the page allocator. *)
Theorem use_after_transfer_stops this from vmA vmB address size access free_start s :
  handles s !! from = Some vmA ->
  handles s !! this = Some vmB ->
  IsReserved vmA = true -> IsReserved vmB = false ->
  let s1 := snd (VirtualMemory_TakeControl E this from s) in
  stopped (VirtualMemory_Free E from s1) s1 /\
  stopped (VirtualMemory_SetPermissions E from address size access s1) s1 /\
  (let run := VirtualMemory_Release E from free_start s1 in
   (exists f, fst run = Crash f) /\
   world (snd run) = world s1 /\
   trace (snd run) = trace s1).
Proof.
  intros HA HB HrA HrB s1.
  assert (Hne : this <> from).
  { intros ->. rewrite HA in HB. injection HB as ->. congruence. }
  assert (Hl : handles s1 !! from = Some empty_vm).
  { subst s1.
    rewrite (VirtualMemory_TakeControl_run E this from vmA vmB s HA HB Hne
               (fun _ => HrB)).
    apply lookup_stored. }
  split; [now apply VirtualMemory_Free_empty|].
  split; [now apply VirtualMemory_SetPermissions_empty|].
  destruct (VirtualMemory_Release_empty from free_start s1 Hl) as (H1 & H2 & H3 & _).
  auto.
Qed.

Lemma calls_since_freed a address size (s : State W) :
  calls (since s (freed E a address size s))
  = CallFreePages a address size
    :: (if lsan_on E a && fst (pa_FreePages (allocator_at E a) address size (world s))
        then CallLsanUnregisterRootRegion address size :: nil else nil).
Proof. since_norm; reflexivity. Qed.

(** X12.  Shrink, then free: after [Release] at [free_start], [Free] asks the
    page allocator to free from the unchanged base address the shrunk size
    [free_start - A] rounded up to the allocate-page granularity, and leaves
    the handle Empty. *)
Theorem VirtualMemory_Release_then_Free this a A S free_start s :
  handles s !! this = Some (mkVM (Some a) A S) ->
  A <> kNullAddress ->
  is_word A -> is_word S -> is_word (A + S) ->
  A < free_start -> free_start < A + S ->
  IsAddressAligned free_start (pa_CommitPageSize (allocator_at E a)) = true ->
  (debug E = true -> is_pow2 (pa_AllocatePageSize (allocator_at E a))) ->
  let page_size := pa_AllocatePageSize (allocator_at E a) in
  let s1 := snd (VirtualMemory_Release E this free_start s) in
  let size' := RoundUp (free_start - A) page_size in
  let run := VirtualMemory_Free E this s1 in
  fst run = (if fst (pa_FreePages (allocator_at E a) A size' (world s1))
             then Ok tt else Crash CheckFailed) /\
  calls (since s1 (snd run))
  = CallFreePages a A size'
    :: (if lsan_on E a && fst (pa_FreePages (allocator_at E a) A size' (world s1))
        then CallLsanUnregisterRootRegion A size' :: nil else nil) /\
  handles (snd run) !! this = Some empty_vm /\
  size' mod page_size = 0.
Proof.
  intros Hl HA HwA HwS HwAS Hlo Hhi Hal Hp page_size s1 size' run.
  assert (Hl1 : handles s1 !! this = Some (mkVM (Some a) A (free_start - A))).
  { subst s1.
    rewrite (VirtualMemory_Release_run E this a A S free_start s
               Hl HA HwA HwS HwAS Hlo Hhi Hal).
    cbn [snd]. rewrite handles_released. apply lookup_stored. }
  subst run.
  rewrite (VirtualMemory_Free_run E this a A (free_start - A) s1 Hl1 HA Hp).
  cbn [fst snd]. fold page_size. fold size'.
  split; [reflexivity|].
  split; [exact (calls_since_freed a A size' (stored this empty_vm s1))|].
  split; [rewrite handles_freed; apply lookup_stored|].
  apply RoundUp_multiple.
Qed.

(** X13.  Transfer law: after [TakeControl] moved a reservation from a
    handle into an Empty one, [Free] on the destination makes the calls, with
    the same answer and the same effect on the embedder state, that [Free] on
    the source would have made before the transfer; both handles end
    Empty. *)
Theorem VirtualMemory_transfer_then_Free this from a A S vmB s :
  handles s !! from = Some (mkVM (Some a) A S) ->
  handles s !! this = Some vmB ->
  A <> kNullAddress -> IsReserved vmB = false ->
  (debug E = true -> is_pow2 (pa_AllocatePageSize (allocator_at E a))) ->
  let s1 := snd (VirtualMemory_TakeControl E this from s) in
  let moved := VirtualMemory_Free E this s1 in
  let direct := VirtualMemory_Free E from s in
  fst moved = fst direct /\
  calls (since s1 (snd moved)) = calls (since s (snd direct)) /\
  world (snd moved) = world (snd direct) /\
  handles (snd moved) !! this = Some empty_vm /\
  handles (snd moved) !! from = Some empty_vm.
Proof.
  intros HA HB HnA HrB Hp s1 moved direct.
  assert (Hne : this <> from).
  { intros ->. rewrite HA in HB. injection HB as <-.
    apply IsReserved_false in HrB. contradiction. }
  assert (Hs1 : s1 = stored from empty_vm (stored this (mkVM (Some a) A S) s)).
  { subst s1.
    now rewrite (VirtualMemory_TakeControl_run E this from _ vmB s HA HB Hne
                   (fun _ => HrB)). }
  assert (Hl1 : handles s1 !! this = Some (mkVM (Some a) A S)).
  { rewrite Hs1. rewrite lookup_stored_ne by auto. apply lookup_stored. }
  subst moved direct.
  rewrite (VirtualMemory_Free_run E this a A S s1 Hl1 HnA Hp).
  rewrite (VirtualMemory_Free_run E from a A S s HA HnA Hp).
  cbn [fst snd]. rewrite !world_freed, !handles_freed.
  change (since s1 (freed E a A (RoundUp S (pa_AllocatePageSize (allocator_at E a)))
                      (stored this empty_vm s1)))
    with (since (stored this empty_vm s1)
            (freed E a A (RoundUp S (pa_AllocatePageSize (allocator_at E a)))
               (stored this empty_vm s1))).
  change (since s (freed E a A (RoundUp S (pa_AllocatePageSize (allocator_at E a)))
                     (stored from empty_vm s)))
    with (since (stored from empty_vm s)
            (freed E a A (RoundUp S (pa_AllocatePageSize (allocator_at E a)))
               (stored from empty_vm s))).
  rewrite !calls_since_freed.
  rewrite Hs1. cbn [world stored].
  split; [reflexivity|]. split; [reflexivity|]. split; [reflexivity|].
  split; [apply lookup_stored|].
  rewrite lookup_stored_ne by auto. apply lookup_stored.
Qed.

(** X14.  [TakeControl] and [Reset] call nothing and leave the embedder
    state alone, whatever the store holds, whether the two handles are the
    same object or not, and however the run ends: a reservation the
    destination of [TakeControl] held before is not freed. *)
Theorem TakeControl_and_Reset_are_silent this from :
  silent (VirtualMemory_TakeControl E this from) /\
  silent (VirtualMemory_Reset this : M W unit).
Proof.
  split.
  - unfold VirtualMemory_TakeControl, VirtualMemory_Reset, set_page_allocator_,
      set_address_, set_size_.
    silent_steps.
  - unfold VirtualMemory_Reset, set_page_allocator_, set_address_, set_size_.
    silent_steps.
Qed.

Lemma quiet_load this : quiet (load this : M W _).
Proof. intros s. unfold load. now destruct (handles s !! this). Qed.

(** X15.  Frame: the constructor, [Free], [Release] and [Reset] write no
    handle but the one they are called on, [TakeControl] none but its two,
    and [SetPermissions] none at all -- on every path, in either build. *)
Theorem operations_write_their_own_handles this from p size hint alignment
    free_start address access :
  writes_only (this :: nil)
    (VirtualMemory_VirtualMemory E this p size hint alignment) /\
  writes_only (this :: nil) (VirtualMemory_Free E this) /\
  writes_only (this :: nil) (VirtualMemory_Release E this free_start) /\
  writes_only (this :: nil) (VirtualMemory_Reset this : M W unit) /\
  writes_only (this :: from :: nil) (VirtualMemory_TakeControl E this from) /\
  quiet (VirtualMemory_SetPermissions E this address size access).
Proof.
  assert (HR : forall l ls, In l ls -> writes_only ls (VirtualMemory_Reset l : M W unit)).
  { intros l ls Hin.
    unfold VirtualMemory_Reset, set_page_allocator_, set_address_, set_size_.
    writes_steps. }
  assert (HQ : forall A (m : M W A) ls,
               quiet m -> writes_only ls m) by (intros; now apply writes_only_quiet).
  split; [|split; [|split; [|split; [|split]]]].
  - unfold VirtualMemory_VirtualMemory, set_address_, set_size_. writes_steps;
      apply HQ; auto using quiet_deref, AllocatePages_quiet.
  - unfold VirtualMemory_Free. writes_steps; try (apply HR; cbn; tauto);
      apply HQ; auto using quiet_deref, FreePages_quiet.
  - unfold VirtualMemory_Release, set_size_. writes_steps;
      apply HQ; auto using quiet_deref, ReleasePages_quiet.
  - apply HR. cbn. tauto.
  - unfold VirtualMemory_TakeControl, set_page_allocator_, set_address_, set_size_.
    writes_steps. apply HR. cbn. tauto.
  - unfold VirtualMemory_SetPermissions. quiet_steps; try apply quiet_load.
    apply SetPermissions_quiet.
Qed.

(** X16.  [TakeControl] of a handle from itself: a Reserved handle stops a
    debug build at the [DCHECK]; where the [DCHECK] lets it pass -- an Empty
    handle, or a build without [DCHECK]s -- the handle ends Empty and nothing
    is called, so that a reservation it held is dropped without being
    freed. *)
Theorem VirtualMemory_TakeControl_self this vm s :
  handles s !! this = Some vm ->
  let run := VirtualMemory_TakeControl E this this s in
  (debug E = true -> IsReserved vm = true -> run = (Crash DcheckFailed, s)) /\
  ((debug E = true -> IsReserved vm = false) ->
   run = (Ok tt, stored this empty_vm s)).
Proof.
  intros Hl run. subst run. unfold VirtualMemory_TakeControl. split.
  - intros Hd Hr. erewrite bind_Crash; [reflexivity|].
    apply DCHECK_fail; [exact Hd|].
    erewrite bind_Ok by (apply load_run; exact Hl).
    unfold ret. now rewrite Hr.
  - intros Hok.
    erewrite bind_Ok; cycle 1.
    { apply DCHECK_holds. intros Hd.
      erewrite bind_Ok by (apply load_run; exact Hl).
      unfold ret. now rewrite (Hok Hd). }
    erewrite bind_Ok; cycle 1.
    { erewrite bind_Ok by (apply load_run; exact Hl).
      apply set_page_allocator__run. exact Hl. }
    erewrite bind_Ok; cycle 1.
    { erewrite bind_Ok by apply load_run, lookup_stored.
      apply set_address__run, lookup_stored. }
    rewrite stored_stored. cbn [page_allocator_ address_ size_].
    erewrite bind_Ok; cycle 1.
    { erewrite bind_Ok by apply load_run, lookup_stored.
      apply set_size__run, lookup_stored. }
    rewrite stored_stored. cbn [page_allocator_ address_ size_].
    erewrite VirtualMemory_Reset_run by apply lookup_stored.
    now rewrite stored_stored.
Qed.

Lemma DCHECK_pure (b : bool) (s : State W) :
  (DCHECK E (ret b) s = (Ok tt, s) /\ (debug E = true -> b = true)) \/
  (DCHECK E (ret b) s = (Crash DcheckFailed, s) /\ debug E = true /\ b = false).
Proof.
  unfold DCHECK. destruct (debug E), b; cbn; auto.
Qed.

Lemma DCHECK_load this vm (f : VirtualMemory -> bool) (s : State W) :
  handles s !! this = Some vm ->
  DCHECK E (let* v := load this in ret (f v)) s = DCHECK E (ret (f vm)) s.
Proof.
  intros Hl. unfold DCHECK. destruct (debug E); [|reflexivity].
  unfold bind at 1 3. now rewrite (bind_Ok _ _ _ _ _ (load_run _ _ _ Hl)).
Qed.

(** X17.  [Release] checks its bounds: a [free_start] below the base address
    stops the run in either build, and in a debug build so does every
    [free_start] that is not strictly between the base address and the end of
    the range.  Nothing is called and the handle is as it was. *)
Theorem VirtualMemory_Release_out_of_range this a A S free_start s :
  handles s !! this = Some (mkVM (Some a) A S) ->
  let run := VirtualMemory_Release E this free_start s in
  (free_start < A -> stopped run s) /\
  (debug E = true -> ~ (A < free_start /\ free_start < wrap (A + S)) ->
   stopped run s).
Proof.
  intros Hl run. subst run. unfold VirtualMemory_Release.
  set (free_size := wrap (S - wrap (free_start - A))).
  assert (Hpure : forall b, DCHECK E (ret b) s = (Ok tt, s) /\ (debug E = true -> b = true)
                            \/ DCHECK E (ret b) s = (Crash DcheckFailed, s))
    by (intros b; destruct (DCHECK_pure b s) as [H | [H _]]; auto).
  assert (H1 := Hpure (IsReserved (mkVM (Some a) A S))).
  rewrite <- (DCHECK_load this _ IsReserved s Hl) in H1.
  destruct H1 as [[H1 _] | H1];
    [rewrite (bind_Ok _ _ _ _ _ H1)
    |rewrite (bind_Crash _ _ _ _ _ H1); split; intros; apply stopped_at].
  assert (H2 : DCHECK E (let* vm := load this in
                         let* pa := deref (page_allocator_ vm) in
                         ret (IsAddressAligned free_start
                                (pa_CommitPageSize (allocator_at E pa)))) s
               = (Ok tt, s) \/
               DCHECK E (let* vm := load this in
                         let* pa := deref (page_allocator_ vm) in
                         ret (IsAddressAligned free_start
                                (pa_CommitPageSize (allocator_at E pa)))) s
               = (Crash DcheckFailed, s)).
  { unfold DCHECK. destruct (debug E); [|now left].
    erewrite bind_Ok; cycle 1.
    { erewrite bind_Ok by (apply load_run; exact Hl). reflexivity. }
    destruct (IsAddressAligned _ _); [now left | now right]. }
  destruct H2 as [H2 | H2];
    [rewrite (bind_Ok _ _ _ _ _ H2)
    |rewrite (bind_Crash _ _ _ _ _ H2); split; intros; apply stopped_at].
  erewrite bind_Ok by (apply load_run; exact Hl).
  cbn [address_ size_]. fold free_size.
  assert (Hcheck : CHECK (let* vm := load this in ret (InVM vm free_start free_size)) s
                   = ((if InVM (mkVM (Some a) A S) free_start free_size
                       then Ok tt else Crash CheckFailed), s)).
  { apply CHECK_run. now erewrite bind_Ok by (apply load_run; exact Hl). }
  destruct (InVM (mkVM (Some a) A S) free_start free_size) eqn:Hin;
    [rewrite (bind_Ok _ _ _ _ _ Hcheck)
    |rewrite (bind_Crash _ _ _ _ _ Hcheck); split; intros; apply stopped_at].
  split.
  - intros Hlt. exfalso. unfold InVM in Hin. cbn [address_] in Hin.
    apply andb_prop in Hin as [Hin _]. apply Z.leb_le in Hin. lia.
  - intros Hd Hout.
    assert (H3 := Hpure (A <? free_start)).
    pose proof (DCHECK_load this (mkVM (Some a) A S)
                  (fun vm => address_ vm <? free_start) s Hl) as L3.
    cbn [address_] in L3. rewrite <- L3 in H3.
    destruct H3 as [[H3 Hb1] | H3];
      [rewrite (bind_Ok _ _ _ _ _ H3)
      |rewrite (bind_Crash _ _ _ _ _ H3); apply stopped_at].
    assert (H4 := Hpure (free_start <? wrap (A + S))).
    pose proof (DCHECK_load this (mkVM (Some a) A S)
                  (fun vm => free_start <? wrap (address_ vm + size_ vm)) s Hl) as L4.
    cbn [address_ size_] in L4. rewrite <- L4 in H4.
    destruct H4 as [[H4 Hb2] | H4];
      [|rewrite (bind_Crash _ _ _ _ _ H4); apply stopped_at].
    exfalso. apply Hout.
    specialize (Hb1 Hd). specialize (Hb2 Hd).
    apply Z.ltb_lt in Hb1, Hb2. split; assumption.
Qed.

(** The state with the object at [this] gone. *)
Lemma VirtualMemory_destroy_unreserved this vm s :
  handles s !! this = Some vm -> IsReserved vm = false ->
  VirtualMemory_destroy E this s
  = (Ok tt, mkState (delete this (handles s)) (world s) (trace s)).
Proof.
  intros Hl Hr. unfold VirtualMemory_destroy.
  erewrite bind_Ok by (apply load_run; exact Hl).
  rewrite Hr. reflexivity.
Qed.

(** X18.  The destructor frees what the handle still holds and nothing
    else: on a handle that is not Reserved it calls nothing; on a Reserved
    handle it performs [Free] -- one [FreePages] call with the rounded size --
    and the object is gone afterwards. *)
Theorem VirtualMemory_destructor_frees this s :
  (forall vm, handles s !! this = Some vm -> IsReserved vm = false ->
     VirtualMemory_destroy E this s
     = (Ok tt, mkState (delete this (handles s)) (world s) (trace s))) /\
  (forall a A S,
     handles s !! this = Some (mkVM (Some a) A S) -> A <> kNullAddress ->
     (debug E = true -> is_pow2 (pa_AllocatePageSize (allocator_at E a))) ->
     let size' := RoundUp S (pa_AllocatePageSize (allocator_at E a)) in
     let answer := pa_FreePages (allocator_at E a) A size' (world s) in
     let run := VirtualMemory_destroy E this s in
     fst run = (if fst answer then Ok tt else Crash CheckFailed) /\
     calls (since s (snd run))
     = CallFreePages a A size'
       :: (if lsan_on E a && fst answer
           then CallLsanUnregisterRootRegion A size' :: nil else nil) /\
     world (snd run) = snd answer /\
     (fst answer = true -> handles (snd run) = delete this (handles s))).
Proof.
  split; [intros vm; apply VirtualMemory_destroy_unreserved|].
  intros a A S Hl HA Hp size' answer run. subst run. unfold VirtualMemory_destroy.
  erewrite bind_Ok by (apply load_run; exact Hl).
  replace (IsReserved (mkVM (Some a) A S)) with true
    by (symmetry; now apply IsReserved_true).
  unfold bind. rewrite (VirtualMemory_Free_run E this a A S s Hl HA Hp).
  fold size'. fold answer.
  destruct (fst answer) eqn:Hans; cbn [fst snd trace world handles].
  - split; [reflexivity|].
    split.
    { pose proof (calls_since_freed a A size' (stored this empty_vm s)) as Hc.
      cbn [world stored] in Hc. fold answer in Hc. rewrite Hans in Hc. exact Hc. }
    split; [exact (world_freed E a A size' (stored this empty_vm s))|].
    intros _. rewrite handles_freed. cbn [handles stored]. apply delete_insert_eq.
  - split; [reflexivity|].
    split.
    { pose proof (calls_since_freed a A size' (stored this empty_vm s)) as Hc.
      cbn [world stored] in Hc. fold answer in Hc. rewrite Hans in Hc. exact Hc. }
    split; [exact (world_freed E a A size' (stored this empty_vm s))|]. discriminate.
Qed.

(** X19.  [AlignedAllocVirtualMemory] answers whether the reservation
    succeeded.  On success the result handle holds the allocator, the address
    [AllocatePages] returned and the rounded size; on failure the result
    handle is untouched.  In both cases the local handle is gone again, and
    the calls made are those of the one [AllocatePages]: nothing is freed. *)
Theorem AlignedAllocVirtualMemory_transfers_result vm_loc a size alignment hint
    result vmB s :
  vm_loc <> result ->
  handles s !! vm_loc = None ->
  handles s !! result = Some vmB ->
  IsReserved vmB = false ->
  (debug E = true -> constructor_requires E a hint alignment) ->
  let page_size := pa_AllocatePageSize (allocator_at E a) in
  let size' := RoundUp size page_size in
  let alignment' := RoundUp alignment page_size in
  let s0 := stored vm_loc (mkVM (Some a) kNullAddress 0) s in
  let run := AlignedAllocVirtualMemory E vm_loc (Some a) size alignment hint result s in
  exists r s1,
    AllocatePages E (Some a) hint size' alignment' kNoAccess s0 = (Ok r, s1) /\
    fst run = Ok (negb (r =? kNullAddress)) /\
    handles (snd run)
    = (if r =? kNullAddress then handles s
       else <[result := mkVM (Some a) r size']> (handles s)) /\
    world (snd run) = world s1 /\
    trace (snd run) = trace s1.
Proof.
  intros Hne Hfresh HB HrB Hreq page_size size' alignment' s0 run.
  assert (Hreq' : debug E = true ->
                  AllocatePages_requires E a hint size' alignment')
    by (intros Hd; apply constructor_requires_AllocatePages; auto).
  destruct (AllocatePages_outcome E a hint size' alignment' kNoAccess s0 Hreq')
    as (r & s1 & Hrun & Hh & _).
  exists r, s1. split; [exact Hrun|].
  subst run. unfold AlignedAllocVirtualMemory.
  erewrite bind_Ok; cycle 1.
  { rewrite VirtualMemory_VirtualMemory_run. cbv zeta.
    fold page_size. fold size'. fold alignment'. fold s0. rewrite Hrun. reflexivity. }
  erewrite bind_Ok by apply load_run, lookup_stored.
  assert (Hdel : delete vm_loc (handles s1) = handles s).
  { rewrite Hh. subst s0. cbn [handles stored]. now apply delete_insert_id. }
  destruct (r =? kNullAddress) eqn:Hr;
    unfold IsReserved; cbn [address_]; rewrite Hr; cbn [negb].
  - erewrite bind_Ok; cycle 1.
    { eapply VirtualMemory_destroy_unreserved; [apply lookup_stored|].
      apply IsReserved_false. cbn. now apply Z.eqb_eq. }
    cbn [ret fst snd handles world trace stored].
    split; [reflexivity|]. split; [|split; reflexivity].
    rewrite delete_insert_eq. exact Hdel.
  - set (vmA := mkVM (Some a) r size').
    erewrite bind_Ok; cycle 1.
    { eapply (VirtualMemory_TakeControl_run E result vm_loc vmA vmB).
      - apply lookup_stored.
      - rewrite lookup_stored_ne by exact Hne. rewrite Hh. subst s0.
        rewrite lookup_stored_ne by exact Hne. exact HB.
      - auto.
      - intros _. exact HrB. }
    erewrite bind_Ok; cycle 1.
    { eapply VirtualMemory_destroy_unreserved; [apply lookup_stored|reflexivity]. }
    cbn [ret fst snd handles world trace stored].
    split; [reflexivity|]. split; [|split; reflexivity].
    rewrite delete_insert_eq.
    rewrite delete_insert_ne by exact Hne.
    rewrite delete_insert_eq. now rewrite Hdel.
Qed.

End HandleEdges.

(** * Properties of the heap allocation functions *)

Section HeapProperties.

Context {W : Type}.
Variable E : Env W.
Variable L : Libc W.
Variable alignof_pointer : size_t.
Variable IsPowerOfTwo : size_t -> bool.

Lemma libc_call_run {A} (f : W -> A * W) (s : State W) :
  libc_call f s = (Ok (fst (f (world s))), returned_to (snd (f (world s))) s).
Proof. unfold libc_call, returned_to. now destruct (f (world s)). Qed.

Lemma AllocWithRetry_loop_step n size result s :
  AllocWithRetry_loop E L (S n) size result s =
  if negb (malloc_result L size s =? kNullAddress)
  then (Ok (malloc_result L size s), malloced L size s)
  else AllocWithRetry_loop E L n size (malloc_result L size s)
         (pressed E size (malloced L size s)).
Proof.
  cbn [AllocWithRetry_loop].
  erewrite bind_Ok by apply libc_call_run.
  fold (malloc_result L size s). fold (malloced L size s).
  destruct (negb _); [reflexivity|].
  erewrite bind_Ok by apply OnCriticalMemoryPressure_run.
  reflexivity.
Qed.

Lemma AllocWithRetry_run size s :
  AllocWithRetry E L size s =
  let r1 := malloc_result L size s in
  let s1 := malloced L size s in
  if negb (r1 =? kNullAddress) then (Ok r1, s1)
  else
    let s2 := pressed E size s1 in
    let r2 := malloc_result L size s2 in
    let s3 := malloced L size s2 in
    if negb (r2 =? kNullAddress) then (Ok r2, s3)
    else (Ok r2, pressed E size s3).
Proof.
  unfold AllocWithRetry. change (Z.to_nat kAllocationTries) with 2%nat.
  rewrite AllocWithRetry_loop_step. cbv zeta.
  destruct (negb _); [reflexivity|].
  rewrite AllocWithRetry_loop_step.
  destruct (negb _); reflexivity.
Qed.

Lemma AlignedAllocInternal_run size alignment s :
  AlignedAllocInternal L size alignment s
  = (Ok (memalign_result L size alignment s), memaligned L size alignment s).
Proof.
  unfold AlignedAllocInternal, memalign_result, memaligned.
  erewrite bind_Ok by apply libc_call_run. cbv zeta.
  now destruct (fst (fst _) =? 0).
Qed.

Lemma AlignedAlloc_loop_step n size alignment result s :
  AlignedAlloc_loop E L (S n) size alignment result s =
  if negb (memalign_result L size alignment s =? kNullAddress)
  then (Ok (memalign_result L size alignment s), memaligned L size alignment s)
  else AlignedAlloc_loop E L n size alignment (memalign_result L size alignment s)
         (pressed E (wrap (size + alignment)) (memaligned L size alignment s)).
Proof.
  cbn [AlignedAlloc_loop].
  erewrite bind_Ok by apply AlignedAllocInternal_run.
  destruct (negb _); [reflexivity|].
  erewrite bind_Ok by apply OnCriticalMemoryPressure_run.
  reflexivity.
Qed.

Ltac heap_norm :=
  unfold malloced, memaligned, returned_to; since_norm; rewrite ?drop_all.

(** X20.  [AllocWithRetry] answers the first address [malloc] gives that is
    not null, in at most two attempts, and null when both fail: it never
    reports a fatal error itself.  After each failed attempt, the second one
    included, one pressure notification is fired with the requested size.
    No page allocator is involved and no handle is written. *)
Theorem AllocWithRetry_retries size s :
  let r1 := malloc_result L size s in
  let s2 := pressed E size (malloced L size s) in
  let r2 := malloc_result L size s2 in
  let run := AllocWithRetry E L size s in
  fst run = Ok (if r1 =? kNullAddress then r2 else r1) /\
  pressure_lengths (since s (snd run))
  = (if r1 =? kNullAddress
     then if r2 =? kNullAddress then size :: size :: nil else size :: nil
     else nil) /\
  count_calls is_primitive (since s (snd run)) = 0%nat /\
  handles (snd run) = handles s.
Proof.
  intros r1 s2 r2 run. subst run. rewrite AllocWithRetry_run. cbv zeta.
  fold r1. fold s2. fold r2.
  destruct (r1 =? kNullAddress); cbn [negb];
    [destruct (r2 =? kNullAddress); cbn [negb]|];
    cbn [fst snd]; (split; [reflexivity|]);
    (split; [subst s2; heap_norm; reflexivity|]);
    (split; [subst s2; heap_norm; reflexivity|]);
    subst s2; unfold malloced, returned_to, pressed, called;
    repeat match goal with |- context [if ?b then _ else _] => destruct b end;
    reflexivity.
Qed.

(** X21.  [Malloced::New] never returns null: it returns the first address
    of [malloc] that is not null, and reports a fatal out-of-memory
    condition, at "Malloced operator new", exactly when both attempts of
    [AllocWithRetry] fail. *)
Theorem Malloced_New_never_null size s :
  let r1 := malloc_result L size s in
  let s2 := pressed E size (malloced L size s) in
  let r2 := malloc_result L size s2 in
  let run := Malloced_New E L size s in
  fst run = Ok (if r1 =? kNullAddress
                then if r2 =? kNullAddress
                     then FatalProcessOutOfMemory MallocedOperatorNew
                     else Returned r2
                else Returned r1) /\
  snd run = snd (AllocWithRetry E L size s) /\
  (forall p, fst run = Ok (Returned p) -> p <> kNullAddress).
Proof.
  intros r1 s2 r2 run. subst run. unfold Malloced_New, bind.
  rewrite AllocWithRetry_run. cbv zeta. fold r1. fold s2. fold r2.
  destruct (r1 =? kNullAddress) eqn:H1; cbn [negb];
    [destruct (r2 =? kNullAddress) eqn:H2; cbn [negb]|];
    rewrite ?H1, ?H2; cbn [fst snd ret];
    (split; [reflexivity|]); (split; [reflexivity|]);
    intros p Hp; try discriminate Hp; injection Hp as <-;
    now apply Z.eqb_neq.
Qed.

(** X22.  [AlignedAlloc], its [DCHECK]s passing, never returns null: it
    returns the first address of the aligned allocation that is not null --
    null being what a failing [posix_memalign] counts as, whatever it left in
    the pointer -- and reports a fatal out-of-memory condition, at
    "AlignedAlloc", when both attempts fail.  The pressure notification after
    each failed attempt carries [size + alignment].  In a debug build an
    alignment below that of a pointer, or one that is not a power of two,
    stops the run before anything is allocated. *)
Theorem AlignedAlloc_never_null size alignment s :
  let r1 := memalign_result L size alignment s in
  let s2 := pressed E (wrap (size + alignment)) (memaligned L size alignment s) in
  let r2 := memalign_result L size alignment s2 in
  let run := AlignedAlloc E L alignof_pointer IsPowerOfTwo size alignment s in
  ((debug E = true ->
    alignof_pointer <= alignment /\ IsPowerOfTwo alignment = true) ->
   fst run = Ok (if r1 =? kNullAddress
                 then if r2 =? kNullAddress
                      then FatalProcessOutOfMemory AlignedAllocLocation
                      else Returned r2
                 else Returned r1) /\
   pressure_lengths (since s (snd run))
   = (if r1 =? kNullAddress
      then if r2 =? kNullAddress
           then wrap (size + alignment) :: wrap (size + alignment) :: nil
           else wrap (size + alignment) :: nil
      else nil) /\
   (forall p, fst run = Ok (Returned p) -> p <> kNullAddress)) /\
  (debug E = true ->
   ~ (alignof_pointer <= alignment /\ IsPowerOfTwo alignment = true) ->
   run = (Crash DcheckFailed, s)).
Proof.
  intros r1 s2 r2 run. subst run. unfold AlignedAlloc. split.
  - intros Hreq.
    erewrite bind_Ok; cycle 1.
    { apply DCHECK_holds. intros Hd. destruct (Hreq Hd) as [Ha _].
      unfold ret. apply Z.leb_le in Ha. now rewrite Ha. }
    erewrite bind_Ok; cycle 1.
    { apply DCHECK_holds. intros Hd. destruct (Hreq Hd) as [_ Hp].
      unfold ret. now rewrite Hp. }
    change (Z.to_nat kAllocationTries) with 2%nat.
    unfold bind. rewrite AlignedAlloc_loop_step. fold r1.
    destruct (r1 =? kNullAddress) eqn:H1; cbn [negb].
    + rewrite AlignedAlloc_loop_step. fold s2. fold r2.
      destruct (r2 =? kNullAddress) eqn:H2; cbn [negb AlignedAlloc_loop ret];
        rewrite ?H2; cbn [fst snd ret];
        (split; [reflexivity|]);
        (split; [subst s2; heap_norm; reflexivity|]);
        intros p Hp; try discriminate Hp; injection Hp as <-;
        now apply Z.eqb_neq.
    + rewrite H1. cbn [fst snd ret]. split; [reflexivity|].
      split; [heap_norm; reflexivity|].
      intros p Hp. injection Hp as <-. now apply Z.eqb_neq.
  - intros Hd Hno.
    destruct (alignof_pointer <=? alignment) eqn:Ha.
    + erewrite bind_Ok by (apply DCHECK_pass; reflexivity).
      erewrite bind_Crash; [reflexivity|].
      apply DCHECK_fail; [exact Hd|]. unfold ret.
      destruct (IsPowerOfTwo alignment) eqn:Hp; [|reflexivity].
      exfalso. apply Hno. apply Z.leb_le in Ha. split; auto.
    + erewrite bind_Crash; [reflexivity|].
      apply DCHECK_fail; [exact Hd|]. reflexivity.
Qed.

End HeapProperties.

(** * The further properties on the simulated collaborators *)

Lemma AllocatePages_checks_arguments_witness :
  AllocatePages Sim.debug_env (Some 0%nat) 1 4096 4096 kNoAccess Sim.boot
  = (Crash DcheckFailed, Sim.boot) /\
  exists r s', AllocatePages Sim.debug_env (Some 0%nat) 0 4096 4096 kNoAccess Sim.boot
               = (Ok r, s').
Proof.
  split.
  - apply (proj2 (AllocatePages_checks_arguments Sim.debug_env 0%nat 1 4096 4096
                    kNoAccess Sim.boot eq_refl)).
    intros [H _]. vm_compute in H. discriminate H.
  - apply (proj1 (AllocatePages_checks_arguments Sim.debug_env 0%nat 0 4096 4096
                    kNoAccess Sim.boot eq_refl)).
    split; reflexivity.
Defined.

Lemma AllocatePages_first_attempt_witness :
  let run := AllocatePages Sim.debug_env (Some 0%nat) 0 4096 4096 kNoAccess Sim.boot in
  fst run = Ok Sim.region /\
  count_calls is_primitive (since Sim.boot (snd run)) = 1%nat /\
  count_calls is_pressure (since Sim.boot (snd run)) = 0%nat.
Proof.
  assert (H : attempt_result Sim.debug_env 0%nat 0 4096 4096 kNoAccess Sim.boot
              <> kNullAddress) by (vm_compute; congruence).
  destruct (AllocatePages_first_attempt Sim.debug_env 0%nat 0 4096 4096 kNoAccess
              Sim.boot (fun _ => conj eq_refl eq_refl) H) as (H1 & _ & H3 & H4).
  split; [exact H1|]. split; [exact H3 | exact H4].
Defined.

Lemma AllocatePages_registers_root_region_witness :
  exists r,
    fst (AllocatePages Sim.debug_env (Some 0%nat) 0 4096 4096 kNoAccess Sim.boot) = Ok r /\
    lsan_calls
      (since Sim.boot
         (snd (AllocatePages Sim.debug_env (Some 0%nat) 0 4096 4096 kNoAccess Sim.boot)))
    = (if lsan_on Sim.debug_env 0%nat && negb (r =? kNullAddress)
       then CallLsanRegisterRootRegion r 4096 :: nil else nil).
Proof.
  exact (AllocatePages_registers_root_region Sim.debug_env 0%nat 0 4096 4096 kNoAccess
           Sim.boot (fun _ => conj eq_refl eq_refl)).
Defined.

Lemma FreePages_asks_once_witness :
  fst (FreePages Sim.debug_env (Some 3%nat) Sim.region 12288 Sim.boot) = Ok false /\
  calls (since Sim.boot (snd (FreePages Sim.debug_env (Some 3%nat) Sim.region 12288
                                Sim.boot)))
  = CallFreePages 3%nat Sim.region 12288 :: nil /\
  FreePages Sim.debug_env (Some 3%nat) Sim.region 100 Sim.boot
  = (Crash DcheckFailed, Sim.boot).
Proof.
  destruct (proj1 (FreePages_asks_once Sim.debug_env 3%nat Sim.region 12288 Sim.boot)
              (fun _ => eq_refl)) as (H1 & _ & _ & H4).
  split; [exact H1|]. split; [exact H4|].
  apply (proj2 (FreePages_asks_once Sim.debug_env 3%nat Sim.region 100 Sim.boot)
           eq_refl).
  vm_compute. congruence.
Defined.

Lemma ReleasePages_asks_once_witness :
  fst (ReleasePages Sim.debug_env (Some 0%nat) Sim.region 12288 4096 Sim.boot) = Ok true /\
  calls (since Sim.boot (snd (ReleasePages Sim.debug_env (Some 0%nat) Sim.region 12288
                                4096 Sim.boot)))
  = CallReleasePages 0%nat Sim.region 12288 4096
    :: CallLsanUnregisterRootRegion Sim.region 12288
    :: CallLsanRegisterRootRegion Sim.region 4096 :: nil /\
  ReleasePages Sim.debug_env (Some 0%nat) Sim.region 4096 4096 Sim.boot
  = (Crash DcheckFailed, Sim.boot).
Proof.
  destruct (proj1 (ReleasePages_asks_once Sim.debug_env 0%nat Sim.region 12288 4096
                     Sim.boot) (fun _ => eq_refl)) as (H1 & _ & _ & H4).
  split; [exact H1|]. split; [exact H4|].
  apply (proj2 (ReleasePages_asks_once Sim.debug_env 0%nat Sim.region 4096 4096
                  Sim.boot) eq_refl).
  vm_compute. congruence.
Defined.

Lemma AllocatePage_out_parameter_witness :
  fst (AllocatePage Sim.debug_env (Some 0%nat) 0 7 Sim.boot) = Ok (Sim.region, 4096) /\
  fst (AllocatePage Sim.debug_env (Some 2%nat) 0 7 Sim.boot) = Ok (kNullAddress, 7).
Proof.
  destruct (AllocatePage_out_parameter Sim.debug_env 0%nat 0 7 Sim.boot
              (fun _ => conj eq_refl eq_refl)) as (r & s' & _ & _).
  destruct (AllocatePage_out_parameter Sim.debug_env 2%nat 0 7 Sim.boot
              (fun _ => conj eq_refl eq_refl)) as (r' & s'' & _ & _).
  split; reflexivity.
Defined.

Lemma empty_handle_operations_stop_witness :
  stopped (VirtualMemory_Free Sim.debug_env 1%nat Sim.two_handles) Sim.two_handles /\
  stopped (VirtualMemory_Free Sim.release_env 1%nat Sim.two_handles) Sim.two_handles.
Proof.
  split.
  - exact (proj1 (empty_handle_operations_stop Sim.debug_env 1%nat 0 0 kNoAccess 0
                    Sim.two_handles eq_refl)).
  - exact (proj1 (empty_handle_operations_stop Sim.release_env 1%nat 0 0 kNoAccess 0
                    Sim.two_handles eq_refl)).
Defined.

Lemma VirtualMemory_Free_twice_witness :
  let s1 := snd (VirtualMemory_Free Sim.release_env 0%nat Sim.two_handles) in
  stopped (VirtualMemory_Free Sim.release_env 0%nat s1) s1.
Proof.
  exact (VirtualMemory_Free_twice Sim.release_env 0%nat Sim.reserved3 Sim.two_handles
           eq_refl eq_refl).
Defined.

Lemma use_after_transfer_stops_witness :
  let s1 := snd (VirtualMemory_TakeControl Sim.debug_env 1%nat 0%nat Sim.two_handles) in
  stopped (VirtualMemory_Free Sim.debug_env 0%nat s1) s1.
Proof.
  exact (proj1 (use_after_transfer_stops Sim.debug_env 1%nat 0%nat Sim.reserved3
                  empty_vm 0 0 kNoAccess 0 Sim.two_handles
                  eq_refl eq_refl eq_refl eq_refl)).
Defined.

Lemma VirtualMemory_Release_then_Free_witness :
  let s1 := snd (VirtualMemory_Release Sim.debug_env 0%nat (Sim.region + 4096)
                   Sim.two_handles) in
  let run := VirtualMemory_Free Sim.debug_env 0%nat s1 in
  fst run = Ok tt /\
  calls (since s1 (snd run))
  = CallFreePages 0%nat Sim.region 4096
    :: CallLsanUnregisterRootRegion Sim.region 4096 :: nil.
Proof.
  assert (HA : Sim.region <> kNullAddress) by (vm_compute; congruence).
  assert (Hw1 : is_word Sim.region) by word_bounds.
  assert (Hw2 : is_word 12288) by word_bounds.
  assert (Hw3 : is_word (Sim.region + 12288)) by word_bounds.
  destruct (VirtualMemory_Release_then_Free Sim.debug_env 0%nat 0%nat Sim.region 12288
              (Sim.region + 4096) Sim.two_handles
              eq_refl HA Hw1 Hw2 Hw3 eq_refl eq_refl eq_refl (fun _ => Sim_pow2))
    as (H1 & H2 & _).
  split; [exact H1 | exact H2].
Defined.

Lemma VirtualMemory_transfer_then_Free_witness :
  let s1 := snd (VirtualMemory_TakeControl Sim.debug_env 1%nat 0%nat Sim.two_handles) in
  calls (since s1 (snd (VirtualMemory_Free Sim.debug_env 1%nat s1)))
  = calls (since Sim.two_handles
             (snd (VirtualMemory_Free Sim.debug_env 0%nat Sim.two_handles))).
Proof.
  assert (HA : Sim.region <> kNullAddress) by (vm_compute; congruence).
  destruct (VirtualMemory_transfer_then_Free Sim.debug_env 1%nat 0%nat 0%nat Sim.region
              12288 empty_vm Sim.two_handles eq_refl eq_refl HA eq_refl
              (fun _ => Sim_pow2)) as (_ & H2 & _).
  exact H2.
Defined.

Lemma VirtualMemory_TakeControl_self_witness :
  VirtualMemory_TakeControl Sim.debug_env 0%nat 0%nat Sim.two_handles
  = (Crash DcheckFailed, Sim.two_handles) /\
  VirtualMemory_TakeControl Sim.release_env 0%nat 0%nat Sim.two_handles
  = (Ok tt, stored 0%nat empty_vm Sim.two_handles).
Proof.
  split.
  - exact (proj1 (VirtualMemory_TakeControl_self Sim.debug_env 0%nat Sim.reserved3
                    Sim.two_handles eq_refl) eq_refl eq_refl).
  - apply (proj2 (VirtualMemory_TakeControl_self Sim.release_env 0%nat Sim.reserved3
                    Sim.two_handles eq_refl)).
    intros H. discriminate H.
Defined.

Lemma VirtualMemory_Release_out_of_range_witness :
  stopped (VirtualMemory_Release Sim.release_env 0%nat 4096 Sim.two_handles)
    Sim.two_handles /\
  stopped (VirtualMemory_Release Sim.debug_env 0%nat Sim.region Sim.two_handles)
    Sim.two_handles.
Proof.
  split.
  - apply (proj1 (VirtualMemory_Release_out_of_range Sim.release_env 0%nat 0%nat
                    Sim.region 12288 4096 Sim.two_handles eq_refl)).
    reflexivity.
  - apply (proj2 (VirtualMemory_Release_out_of_range Sim.debug_env 0%nat 0%nat
                    Sim.region 12288 Sim.region Sim.two_handles eq_refl) eq_refl).
    intros [H _]. vm_compute in H. discriminate H.
Defined.

Lemma VirtualMemory_destructor_frees_witness :
  VirtualMemory_destroy Sim.debug_env 1%nat Sim.two_handles
  = (Ok tt, mkState (delete 1%nat (handles Sim.two_handles)) (world Sim.two_handles)
              (trace Sim.two_handles)) /\
  fst (VirtualMemory_destroy Sim.debug_env 0%nat Sim.two_handles) = Ok tt.
Proof.
  assert (HA : Sim.region <> kNullAddress) by (vm_compute; congruence).
  split.
  - exact (proj1 (VirtualMemory_destructor_frees Sim.debug_env 1%nat Sim.two_handles)
             empty_vm eq_refl eq_refl).
  - exact (proj1 (proj2 (VirtualMemory_destructor_frees Sim.debug_env 0%nat
                           Sim.two_handles)
                    0%nat Sim.region 12288 eq_refl HA (fun _ => Sim_pow2))).
Defined.

Lemma AlignedAllocVirtualMemory_transfers_result_witness :
  exists r s1,
    fst (AlignedAllocVirtualMemory Sim.debug_env 2%nat (Some 0%nat) 10000 4096 0 1%nat
           Sim.two_handles) = Ok (negb (r =? kNullAddress)) /\
    world (snd (AlignedAllocVirtualMemory Sim.debug_env 2%nat (Some 0%nat) 10000 4096 0
                  1%nat Sim.two_handles)) = world s1.
Proof.
  assert (Hne : 2%nat <> 1%nat) by discriminate.
  destruct (AlignedAllocVirtualMemory_transfers_result Sim.debug_env 2%nat 0%nat 10000
              4096 0 1%nat empty_vm Sim.two_handles Hne eq_refl eq_refl eq_refl
              (fun _ => conj Sim_pow2 eq_refl)) as (r & s1 & _ & H2 & _ & H4 & _).
  exists r, s1. split; [exact H2 | exact H4].
Defined.

Lemma Malloced_New_never_null_witness :
  fst (Malloced_New Sim.debug_env SimHeap.flaky_libc 64 Sim.boot)
  = Ok (Returned SimHeap.block) /\
  SimHeap.block <> kNullAddress /\
  fst (Malloced_New Sim.debug_env SimHeap.exhausted_libc 64 Sim.boot)
  = Ok (FatalProcessOutOfMemory MallocedOperatorNew).
Proof.
  destruct (Malloced_New_never_null Sim.debug_env SimHeap.flaky_libc 64 Sim.boot)
    as (H1 & _ & H3).
  split; [exact H1|]. split; [exact (H3 SimHeap.block H1)|].
  exact (proj1 (Malloced_New_never_null Sim.debug_env SimHeap.exhausted_libc 64
                  Sim.boot)).
Defined.

Lemma AlignedAlloc_never_null_witness :
  fst (AlignedAlloc Sim.debug_env SimHeap.flaky_libc 8 SimHeap.IsPowerOfTwo 64 16
         Sim.boot) = Ok (Returned SimHeap.block) /\
  pressure_lengths
    (since Sim.boot
       (snd (AlignedAlloc Sim.debug_env SimHeap.flaky_libc 8 SimHeap.IsPowerOfTwo 64 16
               Sim.boot))) = 80 :: nil /\
  AlignedAlloc Sim.debug_env SimHeap.flaky_libc 8 SimHeap.IsPowerOfTwo 64 24 Sim.boot
  = (Crash DcheckFailed, Sim.boot).
Proof.
  destruct (proj1 (AlignedAlloc_never_null Sim.debug_env SimHeap.flaky_libc 8
                     SimHeap.IsPowerOfTwo 64 16 Sim.boot))
    as (H1 & H2 & _).
  { intros _. split; [vm_compute; congruence | reflexivity]. }
  split; [exact H1|]. split; [exact H2|].
  apply (proj2 (AlignedAlloc_never_null Sim.debug_env SimHeap.flaky_libc 8
                  SimHeap.IsPowerOfTwo 64 24 Sim.boot) eq_refl).
  intros [_ H]. vm_compute in H. discriminate H.
Defined.

(** * How the operations compose *)

Section Composition.

Context {W : Type}.
Variable E : Env W.

(** X23.  Whatever its outcome, [AllocatePages] calls nothing but the
    allocation primitive of its own allocator with its own arguments, the two
    pressure notifications -- the sized one with
    [size + alignment - page_size] -- and the leak-sanitizer registration of
    the requested size; it never frees, releases or changes permissions, and
    it writes no handle. *)
Theorem AllocatePages_footprint a address size alignment access s :
  let run := AllocatePages E (Some a) address size alignment access s in
  Forall (fun c =>
            c = CallAllocatePages a address size alignment access \/
            c = CallOnCriticalMemoryPressureLength (request_size_of E a size alignment) \/
            c = CallOnCriticalMemoryPressure \/
            exists r, c = CallLsanRegisterRootRegion r size)
    (calls (since s (snd run))) /\
  handles (snd run) = handles s.
Proof.
  intros run. split; [|apply AllocatePages_quiet].
  pose proof (emits_since _ _ s
                (AllocatePages_emits E (Some a) a address size alignment access
                   (or_introl eq_refl))) as Hem.
  rewrite forallb_forall in Hem. apply Forall_forall. intros c Hc.
  apply list_elem_of_In in Hc. specialize (Hem c Hc).
  destruct c; cbn in Hem; try discriminate Hem.
  - left.
    repeat (apply andb_prop in Hem as [Hem ?]).
    apply Nat.eqb_eq in Hem.
    repeat match goal with
           | H : (_ =? _) = true |- _ => apply Z.eqb_eq in H
           | H : bool_decide _ = true |- _ => apply bool_decide_eq_true_1 in H
           end.
    congruence.
  - right. left. apply Z.eqb_eq in Hem. congruence.
  - right. right. now left.
  - right. right. right. apply Z.eqb_eq in Hem. subst. eauto.
Qed.

(** X24.  Two tail releases compose: after a release at [first], a release
    at [second], strictly between the base address and [first], asks the page
    allocator to shrink from the size the first one left, leaves the size
    [second - A], and the two answers add up to what one release at [second]
    would have answered. *)
Theorem VirtualMemory_Release_twice this a A S first second s :
  handles s !! this = Some (mkVM (Some a) A S) ->
  A <> kNullAddress ->
  is_word A -> is_word S -> is_word (A + S) ->
  A < second -> second < first -> first < A + S ->
  IsAddressAligned first (pa_CommitPageSize (allocator_at E a)) = true ->
  IsAddressAligned second (pa_CommitPageSize (allocator_at E a)) = true ->
  fst (pa_ReleasePages (allocator_at E a) A S (first - A) (world s)) = true ->
  let one := VirtualMemory_Release E this first s in
  let two := VirtualMemory_Release E this second (snd one) in
  fst one = Ok (S - (first - A)) /\
  fst two = (if fst (pa_ReleasePages (allocator_at E a) A (first - A) (second - A)
                       (world (snd one)))
             then Ok ((first - A) - (second - A)) else Crash CheckFailed) /\
  handles (snd two) !! this = Some (mkVM (Some a) A (second - A)) /\
  (S - (first - A)) + ((first - A) - (second - A)) = S - (second - A) /\
  exists rest,
    calls (since (snd one) (snd two))
    = CallReleasePages a A (first - A) (second - A) :: rest.
Proof.
  intros Hl HA HwA HwS HwAS H1 H2 H3 Hal1 Hal2 Hok one two.
  assert (Hone : one = (Ok (S - (first - A)),
                        released E a A S (first - A)
                          (stored this (mkVM (Some a) A (first - A)) s))).
  { subst one.
    rewrite (VirtualMemory_Release_run E this a A S first s Hl HA HwA HwS HwAS
               ltac:(lia) H3 Hal1).
    now rewrite Hok. }
  assert (Hl1 : handles (snd one) !! this = Some (mkVM (Some a) A (first - A))).
  { rewrite Hone. cbn [snd]. rewrite handles_released. apply lookup_stored. }
  assert (Hw1 : is_word (first - A)) by (unfold is_word in *; lia).
  assert (Hw2 : is_word (A + (first - A))) by (unfold is_word in *; lia).
  subst two.
  rewrite (VirtualMemory_Release_run E this a A (first - A) second (snd one)
             Hl1 HA HwA Hw1 Hw2 H1 ltac:(lia) Hal2).
  cbn [fst snd]. split; [now rewrite Hone|].
  split; [reflexivity|].
  split; [rewrite handles_released; apply lookup_stored|].
  split; [lia|].
  destruct (is_lsan_released E a A (first - A) (second - A)
              (stored this (mkVM (Some a) A (second - A)) (snd one)))
    as (rest & Hrest & _).
  exists (calls rest).
  change (since (snd one)
            (released E a A (first - A) (second - A)
               (stored this (mkVM (Some a) A (second - A)) (snd one))))
    with (since (stored this (mkVM (Some a) A (second - A)) (snd one))
            (released E a A (first - A) (second - A)
               (stored this (mkVM (Some a) A (second - A)) (snd one)))).
  now rewrite Hrest.
Qed.


Lemma RoundUp_idempotent x m : is_pow2 m -> RoundUp (RoundUp x m) m = RoundUp x m.
Proof.
  intros (k & Hk & ->).
  assert (Hm : 0 < 2 ^ k) by (apply Z.pow_pos_nonneg; lia).
  assert (Hdiv : 2 ^ kBitsPerPointer = 2 ^ (kBitsPerPointer - k) * 2 ^ k).
  { rewrite <- Z.pow_add_r by lia. f_equal. lia. }
  assert (Hq : 0 < 2 ^ (kBitsPerPointer - k)) by (apply Z.pow_pos_nonneg; lia).
  unfold RoundUp at 1. unfold RoundDown at 1.
  set (y := RoundUp x (2 ^ k)).
  assert (Hy : exists q, y = q * 2 ^ k /\ 0 <= q < 2 ^ (kBitsPerPointer - k)).
  { subst y. unfold RoundUp, RoundDown, wrap.
    set (z := (x + 2 ^ k - 1) mod 2 ^ kBitsPerPointer).
    assert (Hz : 0 <= z < 2 ^ kBitsPerPointer)
      by (apply Z.mod_pos_bound, Z.pow_pos_nonneg; unfold kBitsPerPointer; lia).
    exists (z / 2 ^ k). split; [reflexivity|]. split.
    - apply Z.div_pos; lia.
    - apply Z.div_lt_upper_bound; [lia|]. rewrite Z.mul_comm, <- Hdiv. lia. }
  destruct Hy as (q & Hyq & Hqb). rewrite Hyq.
  assert (Hsmall : wrap (q * 2 ^ k + 2 ^ k - 1) = q * 2 ^ k + 2 ^ k - 1).
  { apply wrap_small. unfold is_word. rewrite Hdiv. nia. }
  rewrite Hsmall.
  replace (q * 2 ^ k + 2 ^ k - 1) with ((2 ^ k - 1) + q * 2 ^ k) by lia.
  rewrite Z.div_add by lia. rewrite Z.div_small by lia. reflexivity.
Qed.

(** The handle the allocating constructor leaves, on every path. *)
Lemma VirtualMemory_constructor_state this a size hint alignment s :
  exists r,
    handles (snd (VirtualMemory_VirtualMemory E this (Some a) size hint alignment s))
    = <[this := mkVM (Some a) r
                  (if r =? kNullAddress then 0
                   else RoundUp size (pa_AllocatePageSize (allocator_at E a)))]>
        (handles s).
Proof.
  rewrite VirtualMemory_VirtualMemory_run. cbv zeta.
  pose proof (AllocatePages_quiet E (Some a) hint
                (RoundUp size (pa_AllocatePageSize (allocator_at E a)))
                (RoundUp alignment (pa_AllocatePageSize (allocator_at E a)))
                kNoAccess (stored this (mkVM (Some a) kNullAddress 0) s)) as Hq.
  destruct (AllocatePages _ _ _ _ _ _ _) as [[r|f] s1]; cbn [snd] in *.
  - exists r. cbn [handles stored]. rewrite Hq. cbn [handles stored].
    apply insert_insert_eq.
  - exists kNullAddress. rewrite Hq. reflexivity.
Qed.

(** X26.  Reserve, then free: a handle built by the allocating constructor
    over a granularity that is a power of two, when freed, gives back to the
    page allocator exactly the address it was given and the size it asked
    for, and ends Empty. *)
Theorem constructor_then_Free this a size hint alignment s :
  is_pow2 (pa_AllocatePageSize (allocator_at E a)) ->
  let size' := RoundUp size (pa_AllocatePageSize (allocator_at E a)) in
  let built := snd (VirtualMemory_VirtualMemory E this (Some a) size hint alignment s) in
  forall vm,
    handles built !! this = Some vm -> IsReserved vm = true ->
    let run := VirtualMemory_Free E this built in
    page_allocator_ vm = Some a /\ size_ vm = size' /\
    (exists rest, calls (since built (snd run))
                  = CallFreePages a (address_ vm) size' :: rest) /\
    handles (snd run) !! this = Some empty_vm.
Proof.
  intros Hp size' built vm Hl Hr run.
  destruct (VirtualMemory_constructor_state this a size hint alignment s)
    as (r & Hh).
  fold built in Hh. fold size' in Hh.
  rewrite Hh, lookup_insert_eq in Hl. injection Hl as <-.
  apply IsReserved_true in Hr. cbn [address_] in Hr.
  apply Z.eqb_neq in Hr. rewrite Hr in *.
  cbn [page_allocator_ size_ address_]. split; [reflexivity|]. split; [reflexivity|].
  assert (Hl : handles built !! this = Some (mkVM (Some a) r size'))
    by (rewrite Hh; apply lookup_insert_eq).
  apply Z.eqb_neq in Hr.
  subst run.
  rewrite (VirtualMemory_Free_run E this a r size' built Hl Hr (fun _ => Hp)).
  cbn [snd]. unfold size' at 1 2. rewrite RoundUp_idempotent by exact Hp.
  fold size'. split.
  - destruct (is_lsan_freed E a r size' (stored this empty_vm built))
      as (rest & Hrest & _).
    exists (calls rest).
    change (since built (freed E a r size' (stored this empty_vm built)))
      with (since (stored this empty_vm built)
              (freed E a r size' (stored this empty_vm built))).
    now rewrite Hrest.
  - rewrite handles_freed. apply lookup_stored.
Qed.

End Composition.

Lemma VirtualMemory_Release_twice_witness :
  let one := VirtualMemory_Release Sim.debug_env 0%nat (Sim.region + 8192)
               Sim.two_handles in
  let two := VirtualMemory_Release Sim.debug_env 0%nat (Sim.region + 4096) (snd one) in
  fst one = Ok 4096 /\ fst two = Ok 4096 /\
  handles (snd two) !! 0%nat = Some (mkVM (Some 0%nat) Sim.region 4096).
Proof.
  assert (HA : Sim.region <> kNullAddress) by (vm_compute; congruence).
  assert (Hw1 : is_word Sim.region) by word_bounds.
  assert (Hw2 : is_word 12288) by word_bounds.
  assert (Hw3 : is_word (Sim.region + 12288)) by word_bounds.
  destruct (VirtualMemory_Release_twice Sim.debug_env 0%nat 0%nat Sim.region 12288
              (Sim.region + 8192) (Sim.region + 4096) Sim.two_handles
              eq_refl HA Hw1 Hw2 Hw3 eq_refl eq_refl eq_refl eq_refl eq_refl eq_refl)
    as (H1 & H2 & H3 & _).
  split; [exact H1|]. split; [exact H2 | exact H3].
Defined.


Lemma constructor_then_Free_witness :
  let built := snd (VirtualMemory_VirtualMemory Sim.debug_env 0%nat (Some 0%nat) 10000 0
                      4096 Sim.boot) in
  exists rest,
    calls (since built (snd (VirtualMemory_Free Sim.debug_env 0%nat built)))
    = CallFreePages 0%nat Sim.region 12288 :: rest.
Proof.
  destruct (constructor_then_Free Sim.debug_env 0%nat 0%nat 10000 0 4096 Sim.boot
              Sim_pow2 (mkVM (Some 0%nat) Sim.region 12288) eq_refl eq_refl)
    as (_ & _ & H & _).
  exact H.
Defined.
